(** * Survey editor: reconciliation of the working tree against the snapshot

    A shallow embedding of the survey form logic of the curriculum
    application:

    - [validateSurveyEntry], [transformResponseToForm] and
      [flattenEntriesForPayload] from [lib/hooks/survey-types];
    - the change detectors ([hasEntryChanged], [hasChoiceChanged],
      [hasGridRowChanged], [hasSectionChanged]), [validateForm],
      [handleSubmit] and [handleSaveCurrentQuestion] of the
      [CreateSurveyForm] component.

    JavaScript strings are sequences of UTF-16 code units, optional fields
    are [option]s ([None] is [undefined] or [null]), numbers are integers,
    and the asynchronous API calls are recorded as the list of dispatched
    operations, with an oracle that tells which of them succeed. *)

From Stdlib Require Import String Ascii DecimalString.
From Stdlib Require Import List ZArith NArith Bool Lia.
Import ListNotations.

Set Implicit Arguments.

(* ================================================================== *)
(** ** JavaScript values *)
(* ================================================================== *)

(** A string is its sequence of UTF-16 code units. *)
Definition jsstring := list N.

(** An ASCII literal as a JavaScript string. *)
Definition lit (s : string) : jsstring :=
  map N_of_ascii (list_ascii_of_string s).

(** The double-quote character (code unit 34). *)
Definition dquote : jsstring := [34%N].

(** [`${n}`] for a non-negative integer. *)
Definition showNat (n : nat) : jsstring :=
  lit (NilZero.string_of_uint (Nat.to_uint n)).

Definition jsstring_eq_dec : forall a b : jsstring, {a = b} + {a <> b} :=
  list_eq_dec N.eq_dec.

(** [a === b] on strings. *)
Definition str_eqb (a b : jsstring) : bool :=
  if jsstring_eq_dec a b then true else false.

(** [a === b] on [string | undefined]. *)
Definition ostr_eqb (a b : option jsstring) : bool :=
  match a, b with
  | Some x, Some y => str_eqb x y
  | None, None => true
  | _, _ => false
  end.

(** [a === b] on [boolean | undefined]. *)
Definition obool_eqb (a b : option bool) : bool :=
  match a, b with
  | Some x, Some y => Bool.eqb x y
  | None, None => true
  | _, _ => false
  end.

(** Truthiness of [string | undefined]: the empty string is falsy. *)
Definition truthyStr (a : option jsstring) : bool :=
  match a with
  | Some (_ :: _) => true
  | _ => false
  end.

(** [s || undefined]. *)
Definition orUndefined (a : option jsstring) : option jsstring :=
  if truthyStr a then a else None.

(** [b || false] on [boolean | undefined]. *)
Definition orFalse (a : option bool) : bool :=
  match a with Some true => true | _ => false end.

(** [n || d] on numbers: zero is falsy. *)
Definition numOr (n d : Z) : Z := if Z.eqb n 0 then d else n.

(** Truthiness of [string[] | undefined] followed by [length === 0]:
    [!a || a.length === 0]. *)
Definition missingOrEmpty (a : option (list jsstring)) : bool :=
  match a with
  | Some (_ :: _) => false
  | _ => true
  end.

(** WhiteSpace and LineTerminator code units of ECMAScript, the ones
    [String.prototype.trim] removes. *)
Definition isWhiteSpace (c : N) : bool :=
  (N.leb 9 c && N.leb c 13) || N.eqb c 32 || N.eqb c 160 || N.eqb c 5760
  || (N.leb 8192 c && N.leb c 8202) || N.eqb c 8232 || N.eqb c 8233
  || N.eqb c 8239 || N.eqb c 8287 || N.eqb c 12288 || N.eqb c 65279.

(** [!s.trim()]: the trimmed string is empty. *)
Definition blank (s : jsstring) : bool := forallb isWhiteSpace s.

(** [String.fromCharCode(n)], one code unit, reduced modulo 2^16. *)
Definition fromCharCode (n : nat) : jsstring := [N.modulo (N.of_nat n) 65536].

(** A [File] picked by the user. *)
Inductive FileObj := FileNamed (name : jsstring).

(** What an optional [File] field can hold: nothing, a [File], or the
    plain object [{}] that [JSON.parse(JSON.stringify(file))] gives. *)
Inductive FileSlot :=
| NoFile
| AFile (f : FileObj)
| PlainObject.

(** [x instanceof File]. *)
Definition instanceofFile (x : FileSlot) : bool :=
  match x with AFile _ => true | _ => false end.

(** Truthiness of a file field: every object is truthy. *)
Definition truthyFile (x : FileSlot) : bool :=
  match x with NoFile => false | _ => true end.

(** The file field after a JSON round trip. *)
Definition jsonFile (x : FileSlot) : FileSlot :=
  match x with NoFile => NoFile | _ => PlainObject end.

(* ================================================================== *)
(** ** Form types (client-side editing state) *)
(* ================================================================== *)

Inductive SurveyType := BASELINE | ENDLINE | OTHER.
Inductive SurveyQuestionType := TEXT | RADIO | CHECKBOX | GRID.

Definition qtype_eqb (a b : SurveyQuestionType) : bool :=
  match a, b with
  | TEXT, TEXT | RADIO, RADIO | CHECKBOX, CHECKBOX | GRID, GRID => true
  | _, _ => false
  end.

Record SurveyGridRowForm := mkRowForm {
  row_id : option jsstring;
  rowNumber : Z;
  rowText : jsstring;
  rowImage : option jsstring;
  rowImageFile : FileSlot
}.

Inductive SurveyChoiceForm := mkChoiceForm {
  choice_clientId : jsstring;
  choiceOrder : option jsstring;
  choiceText : jsstring;
  choiceImage : option jsstring;
  choiceImageFile : FileSlot;
  choice_id : option jsstring;
  choice_hasTextInput : option bool;
  hasFollowUp : option bool;
  followUpQuestion : option SurveyEntryForm
}
with SurveyEntryForm := mkEntryForm {
  entry_clientId : jsstring;
  question : jsstring;
  questionNumber : option Z;
  questionImage : option jsstring;
  questionImageFile : FileSlot;
  questionType : SurveyQuestionType;
  isRequired : bool;
  choices : list SurveyChoiceForm;
  gridRows : list SurveyGridRowForm;
  entry_hasTextInput : option bool;
  isFollowUp : bool;
  parentQuestionClientId : option jsstring;
  triggerChoiceClientIds : option (list jsstring);
  parentQuestionId : option jsstring;
  triggerChoiceIds : option (list jsstring);
  entry_id : option jsstring
}.

Record SurveySectionForm := mkSectionForm {
  title : jsstring;
  description : option jsstring;
  sectionNumber : option Z;
  entries : list SurveyEntryForm;
  section_id : option jsstring
}.

(** [JSON.parse(JSON.stringify(x))] on the form types: strings, booleans,
    integers and arrays come back as they were, a property holding
    [undefined] is dropped and reads as [undefined] again, and a [File]
    comes back as a plain object. *)
Definition jsonRow (r : SurveyGridRowForm) : SurveyGridRowForm :=
  mkRowForm (row_id r) (rowNumber r) (rowText r) (rowImage r)
            (jsonFile (rowImageFile r)).

Fixpoint jsonEntry (e : SurveyEntryForm) : SurveyEntryForm :=
  match e with
  | mkEntryForm cid q qn qi qf qt req cs rows hti fu pqc tcc pqi tci id =>
    mkEntryForm cid q qn qi (jsonFile qf) qt req
      (map (fun c =>
              match c with
              | mkChoiceForm ccid co ct ci cf cid' chti hfu fuq =>
                mkChoiceForm ccid co ct ci (jsonFile cf) cid' chti hfu
                  (match fuq with
                   | Some f => Some (jsonEntry f)
                   | None => None
                   end)
              end) cs)
      (map jsonRow rows) hti fu pqc tcc pqi tci id
  end.

Definition jsonChoice (c : SurveyChoiceForm) : SurveyChoiceForm :=
  mkChoiceForm (choice_clientId c) (choiceOrder c) (choiceText c)
    (choiceImage c) (jsonFile (choiceImageFile c)) (choice_id c)
    (choice_hasTextInput c) (hasFollowUp c)
    (option_map jsonEntry (followUpQuestion c)).

Definition jsonSection (s : SurveySectionForm) : SurveySectionForm :=
  mkSectionForm (title s) (description s) (sectionNumber s)
    (map jsonEntry (entries s)) (section_id s).

Definition jsonSections (l : list SurveySectionForm) : list SurveySectionForm :=
  map jsonSection l.

(* ================================================================== *)
(** ** Payload types (API mutations) *)
(* ================================================================== *)

Record ChoicePayload := mkChoicePayload {
  cp_clientId : jsstring;
  cp_choiceOrder : option jsstring;
  cp_choiceText : jsstring;
  cp_choiceImage : option jsstring;
  cp_choiceImageFile : FileSlot;
  cp_hasTextInput : option bool
}.

Record GridRowPayload := mkRowPayload {
  rp_rowNumber : Z;
  rp_rowText : jsstring;
  rp_rowImage : option jsstring;
  rp_rowImageFile : FileSlot
}.

Record EntryPayload := mkEntryPayload {
  ep_clientId : jsstring;
  ep_question : jsstring;
  ep_questionNumber : option Z;
  ep_questionImage : option jsstring;
  ep_questionImageFile : FileSlot;
  ep_questionType : SurveyQuestionType;
  ep_isRequired : bool;
  ep_hasTextInput : option bool;
  ep_choices : list ChoicePayload;
  ep_gridRows : list GridRowPayload;
  ep_isFollowUp : bool;
  ep_parentQuestionClientId : option jsstring;
  ep_triggerChoiceClientIds : option (list jsstring);
  ep_parentQuestionId : option jsstring;
  ep_triggerChoiceIds : option (list jsstring)
}.

Record SectionPayload := mkSectionPayload {
  sp_title : jsstring;
  sp_description : option jsstring;
  sp_sectionNumber : Z;
  sp_entries : list EntryPayload
}.

Record CreateSurveyPayload := mkCreateSurveyPayload {
  csp_name : jsstring;
  csp_type : SurveyType;
  csp_description : jsstring;
  csp_sections : list SectionPayload
}.

(* ================================================================== *)
(** ** Response types (API responses) *)
(* ================================================================== *)

Record SurveyChoiceResponse := mkChoiceResponse {
  cr_id : jsstring;
  cr_choiceOrder : jsstring;
  cr_choiceText : jsstring;
  cr_choiceImageUrl : option jsstring;
  cr_hasTextInput : option bool
}.

Record SurveyGridRowResponse := mkRowResponse {
  rr_id : option jsstring;
  rr_rowNumber : Z;
  rr_rowText : jsstring;
  rr_rowImageUrl : option jsstring
}.

Record SurveyEntryResponse := mkEntryResponse {
  er_id : jsstring;
  er_questionNumber : Z;
  er_question : jsstring;
  er_questionImageUrl : option jsstring;
  er_questionType : SurveyQuestionType;
  er_isRequired : bool;
  er_choices : list SurveyChoiceResponse;
  er_gridRows : list SurveyGridRowResponse;
  er_hasTextInput : option bool;
  er_isFollowUp : bool;
  er_parentQuestionId : option jsstring;
  er_triggerChoiceIds : option (list jsstring)
}.

Record SurveySectionResponse := mkSectionResponse {
  sr_id : jsstring;
  sr_title : jsstring;
  sr_description : option jsstring;
  sr_sectionNumber : Z;
  sr_entries : list SurveyEntryResponse
}.

Record SurveyDetailResponse := mkDetailResponse {
  dr_id : jsstring;
  dr_name : jsstring;
  dr_type : option SurveyType;
  dr_description : jsstring;
  dr_sections : list SurveySectionResponse
}.

(* ================================================================== *)
(** ** Helper functions *)
(* ================================================================== *)

(** [l.map((x, i) => f(x, i))]. *)
Fixpoint mapi_from {A B} (i : nat) (f : A -> nat -> B) (l : list A) : list B :=
  match l with
  | [] => []
  | x :: r => f x i :: mapi_from (S i) f r
  end.

Definition mapi {A B} (f : A -> nat -> B) (l : list A) : list B :=
  mapi_from 0 f l.

(** [emptyChoice(order)]; [uuid] is what [crypto.randomUUID()] returns. *)
Definition emptyChoice (uuid : jsstring) (order : option nat) : SurveyChoiceForm :=
  mkChoiceForm uuid
    (match order with Some o => Some (fromCharCode (65 + o)) | None => None end)
    [] None NoFile None None (Some false) None.

(** [emptyEntry(questionNumber)]; the three identifiers are drawn in the
    order entry, first choice, second choice. *)
Definition emptyEntry (u0 u1 u2 : jsstring) (questionNumber : option Z)
  : SurveyEntryForm :=
  mkEntryForm u0 [] questionNumber None NoFile RADIO true
    [emptyChoice u1 (Some 0); emptyChoice u2 (Some 1)] []
    (Some false) false None None None None None.

(** [emptySection(sectionNumber)]. *)
Definition emptySection (u0 u1 u2 : jsstring) (sectionNumber : option nat)
  : SurveySectionForm :=
  mkSectionForm
    (match sectionNumber with
     | Some (S n) => lit "Section " ++ showNat (S n)
     | _ => []
     end)
    (Some [])
    (option_map Z.of_nat sectionNumber)
    [emptyEntry u0 u1 u2 (Some 1%Z)]
    None.

(** [getDefaultQuestionFields(questionType)]: the [choices] and the
    [gridRows] an entry gets when its type is switched. *)
Definition getDefaultQuestionFields (u1 u2 : jsstring) (t : SurveyQuestionType)
  : list SurveyChoiceForm * list SurveyGridRowForm :=
  match t with
  | TEXT => ([], [])
  | RADIO | CHECKBOX =>
    ([emptyChoice u1 (Some 0); emptyChoice u2 (Some 1)], [])
  | GRID =>
    ([emptyChoice u1 (Some 0); emptyChoice u2 (Some 1)],
     [mkRowForm None 1 [] None NoFile; mkRowForm None 2 [] None NoFile])
  end.

(* ================================================================== *)
(** ** validateSurveyEntry *)
(* ================================================================== *)

Record Validation := mkValidation {
  isValid : bool;
  errors : list jsstring
}.

(** [errors.push(msg)] under a condition. *)
Definition pushIf (c : bool) (msg : string) (errs : list jsstring) : list jsstring :=
  if c then errs ++ [lit msg] else errs.

Definition validateSurveyEntry (entry : SurveyEntryForm) : Validation :=
  let errs := [] in
  let errs := pushIf (blank (question entry)) "Question text is required" errs in
  let errs :=
    if qtype_eqb (questionType entry) RADIO || qtype_eqb (questionType entry) CHECKBOX
    then
      let errs := pushIf (length (choices entry) <? 2)
                         "At least 2 choices are required" errs in
      let emptyChoices :=
        filter (fun c => blank (choiceText c)
                         && negb (truthyStr (choiceImage c))
                         && negb (truthyFile (choiceImageFile c)))
               (choices entry) in
      pushIf (0 <? length emptyChoices)
             "All choices must have text or an image" errs
    else errs in
  let errs :=
    if qtype_eqb (questionType entry) GRID
    then
      let errs := pushIf (length (choices entry) <? 2)
                         "At least 2 column options are required" errs in
      pushIf (length (gridRows entry) <? 2)
             "At least 2 row options are required" errs
    else errs in
  let errs :=
    if isFollowUp entry
    then
      let errs := pushIf (negb (truthyStr (parentQuestionClientId entry))
                          && negb (truthyStr (parentQuestionId entry)))
                         "Follow-up question must have a parent question" errs in
      pushIf (missingOrEmpty (triggerChoiceClientIds entry)
              && missingOrEmpty (triggerChoiceIds entry))
             "Follow-up question must have at least one trigger choice" errs
    else errs in
  mkValidation (length errs =? 0) errs.

(* ================================================================== *)
(** ** transformResponseToForm *)
(* ================================================================== *)

(** [ids?.includes(x)]. *)
Definition includes (ids : option (list jsstring)) (x : jsstring) : bool :=
  match ids with
  | Some l => existsb (str_eqb x) l
  | None => false
  end.

(** [fu.parentQuestionId === entry.id && fu.triggerChoiceIds?.includes(choice.id)]. *)
Definition isRelevantFollowUp (entryId choiceId : jsstring)
           (fu : SurveyEntryResponse) : bool :=
  ostr_eqb (er_parentQuestionId fu) (Some entryId)
  && includes (er_triggerChoiceIds fu) choiceId.

Definition rowToForm (r : SurveyGridRowResponse) : SurveyGridRowForm :=
  mkRowForm (rr_id r) (rr_rowNumber r) (rr_rowText r)
            (orUndefined (rr_rowImageUrl r)) NoFile.

(** A choice of a nested follow-up: it never carries a follow-up itself. *)
Definition followUpChoiceToForm (fc : SurveyChoiceResponse) : SurveyChoiceForm :=
  mkChoiceForm (cr_id fc) (Some (cr_choiceOrder fc)) (cr_choiceText fc)
    (orUndefined (cr_choiceImageUrl fc)) NoFile (Some (cr_id fc))
    (Some (orFalse (cr_hasTextInput fc))) (Some false) None.

(** The form entry nested under [choiceId] of the entry [entryId]. *)
Definition followUpToForm (entryId choiceId : jsstring)
           (followUp : SurveyEntryResponse) : SurveyEntryForm :=
  mkEntryForm (er_id followUp) (er_question followUp)
    (Some (er_questionNumber followUp))
    (orUndefined (er_questionImageUrl followUp)) NoFile
    (er_questionType followUp) (er_isRequired followUp)
    (map followUpChoiceToForm (er_choices followUp))
    (map rowToForm (er_gridRows followUp))
    (Some (orFalse (er_hasTextInput followUp)))
    true
    (Some entryId) (Some [choiceId])
    (orUndefined (er_parentQuestionId followUp))
    (er_triggerChoiceIds followUp)
    (Some (er_id followUp)).

Definition choiceToForm (followUpEntries : list SurveyEntryResponse)
           (entryId : jsstring) (choice : SurveyChoiceResponse)
  : SurveyChoiceForm :=
  let relevantFollowUps :=
    filter (isRelevantFollowUp entryId (cr_id choice)) followUpEntries in
  mkChoiceForm (cr_id choice) (Some (cr_choiceOrder choice))
    (cr_choiceText choice) (orUndefined (cr_choiceImageUrl choice)) NoFile
    (Some (cr_id choice)) (Some (orFalse (cr_hasTextInput choice)))
    (Some (0 <? length relevantFollowUps))
    (match relevantFollowUps with
     | followUp :: _ => Some (followUpToForm entryId (cr_id choice) followUp)
     | [] => None
     end).

Definition entryToForm (followUpEntries : list SurveyEntryResponse)
           (entry : SurveyEntryResponse) : SurveyEntryForm :=
  mkEntryForm (er_id entry) (er_question entry)
    (Some (er_questionNumber entry))
    (orUndefined (er_questionImageUrl entry)) NoFile
    (er_questionType entry) (er_isRequired entry)
    (map (choiceToForm followUpEntries (er_id entry)) (er_choices entry))
    (map rowToForm (er_gridRows entry))
    (Some (orFalse (er_hasTextInput entry)))
    false None None None None
    (Some (er_id entry)).

Definition sectionToForm (section : SurveySectionResponse) : SurveySectionForm :=
  let mainEntries := filter (fun e => negb (er_isFollowUp e)) (sr_entries section) in
  let followUpEntries := filter er_isFollowUp (sr_entries section) in
  let processedEntries := map (entryToForm followUpEntries) mainEntries in
  mkSectionForm (sr_title section) (orUndefined (sr_description section))
    (Some (sr_sectionNumber section)) processedEntries (Some (sr_id section)).

Definition transformResponseToForm (response : SurveyDetailResponse)
  : list SurveySectionForm :=
  map sectionToForm (dr_sections response).

(* ================================================================== *)
(** ** flattenEntriesForPayload *)
(* ================================================================== *)

(** [c.choiceOrder || String.fromCharCode(65 + ci)]. *)
Definition orderOr (co : option jsstring) (ci : nat) : jsstring :=
  match co with
  | Some (x :: r) => x :: r
  | _ => fromCharCode (65 + ci)
  end.

Definition flatChoice (c : SurveyChoiceForm) (ci : nat) : ChoicePayload :=
  mkChoicePayload (choice_clientId c) (Some (orderOr (choiceOrder c) ci))
    (choiceText c) (choiceImage c) (choiceImageFile c) None.

Definition flatRow (r : SurveyGridRowForm) (ri : nat) : GridRowPayload :=
  mkRowPayload (numOr (rowNumber r) (Z.of_nat ri + 1)) (rowText r)
    (rowImage r) (rowImageFile r).

(** The payload pushed for a main question. *)
Definition flatMain (entry : SurveyEntryForm) (qn : Z) : EntryPayload :=
  mkEntryPayload (entry_clientId entry) (question entry) (Some qn)
    (questionImage entry) (questionImageFile entry) (questionType entry)
    (isRequired entry) (Some (orFalse (entry_hasTextInput entry)))
    (mapi flatChoice (choices entry)) (mapi flatRow (gridRows entry))
    false None None None None.

(** The payload pushed for the follow-up embedded in [choice]. *)
Definition flatFollowUp (entry : SurveyEntryForm) (choice : SurveyChoiceForm)
           (followUp : SurveyEntryForm) (qn : Z) : EntryPayload :=
  mkEntryPayload (entry_clientId followUp) (question followUp) (Some qn)
    (questionImage followUp) (questionImageFile followUp)
    (questionType followUp) (isRequired followUp)
    (Some (orFalse (entry_hasTextInput followUp)))
    (mapi flatChoice (choices followUp)) (mapi flatRow (gridRows followUp))
    true (Some (entry_clientId entry)) (Some [choice_clientId choice])
    None None.

(** [choice.hasFollowUp && choice.followUpQuestion]: the follow-up to
    extract from a choice, if any. *)
Definition activeFollowUp (choice : SurveyChoiceForm) : option SurveyEntryForm :=
  if orFalse (hasFollowUp choice) then followUpQuestion choice else None.

(** The loop state is the [result] array and the [questionNumber] counter. *)
Definition flattenChoiceStep (entry : SurveyEntryForm)
           (acc : list EntryPayload * Z) (choice : SurveyChoiceForm)
  : list EntryPayload * Z :=
  match activeFollowUp choice with
  | Some followUp =>
    (fst acc ++ [flatFollowUp entry choice followUp (snd acc)], (snd acc + 1)%Z)
  | None => acc
  end.

Definition flattenEntryStep (acc : list EntryPayload * Z) (entry : SurveyEntryForm)
  : list EntryPayload * Z :=
  fold_left (flattenChoiceStep entry) (choices entry)
            (fst acc ++ [flatMain entry (snd acc)], (snd acc + 1)%Z).

Definition flattenEntriesForPayload (entries : list SurveyEntryForm)
  : list EntryPayload :=
  fst (fold_left flattenEntryStep entries ([], 1%Z)).

(* ================================================================== *)
(** ** The editor state and the API calls *)
(* ================================================================== *)

Inductive EditMode := EditSurvey | EditQuestion.

(** The [useState] cells of [CreateSurveyForm] and the props the save
    logic reads. *)
Record FormState := mkFormState {
  isEditMode : bool;
  surveyName : jsstring;
  surveyType : SurveyType;
  surveyDescription : jsstring;
  sections : list SurveySectionForm;
  sectionsLoaded : bool;
  originalSectionsCount : nat;
  originalQuestionCounts : list nat;
  originalSectionsSnapshot : list SurveySectionForm;
  selectedSection : nat;
  selectedQuestion : nat;
  editMode : EditMode
}.

Record UpdateSectionData := mkUpdateSectionData {
  usd_title : jsstring;
  usd_description : option jsstring;
  usd_sectionNumber : Z
}.

Record UpdateEntryData := mkUpdateEntryData {
  ued_question : jsstring;
  ued_questionNumber : option Z;
  ued_questionType : SurveyQuestionType;
  ued_isRequired : bool;
  ued_questionImageFile : FileSlot
}.

(** The requests the form sends through its mutation hooks. *)
Inductive ApiCall :=
| CreateSurvey (payload : CreateSurveyPayload)
| UpdateSection (sectionId : jsstring) (data : UpdateSectionData)
| UpdateEntry (entryId : jsstring) (data : UpdateEntryData)
| UpdateChoice (choiceId : jsstring) (data : ChoicePayload)
| UpdateGridRow (gridRowId : jsstring) (data : GridRowPayload)
| AddSectionsBulk (payload : list SectionPayload)
| AddEntry (sectionId : option jsstring) (entryData : EntryPayload)
| AddChoice (entryId : jsstring) (choiceData : ChoicePayload)
| AddGridRow (entryId : jsstring) (rowData : GridRowPayload)
| DeleteChoice (choiceId : jsstring)
| DeleteGridRow (gridRowId : jsstring).

Inductive ToastKind := TError | TMessage | TSuccess | TWarning | TInfo.

Definition Toast : Type := ToastKind * jsstring.

(** The string of a truthy identifier: [x.id] when [x.id] is neither
    [undefined] nor empty. *)
Definition idOf (o : option jsstring) : option jsstring :=
  match o with
  | Some (x :: r) => Some (x :: r)
  | _ => None
  end.

(* ================================================================== *)
(** ** Change detection helpers *)
(* ================================================================== *)

Definition hasEntryChanged (current original : SurveyEntryForm) : bool :=
  if negb (str_eqb (question current) (question original)) then true
  else if negb (qtype_eqb (questionType current) (questionType original)) then true
  else if negb (Bool.eqb (isRequired current) (isRequired original)) then true
  else if negb (obool_eqb (entry_hasTextInput current) (entry_hasTextInput original)) then true
  else if instanceofFile (questionImageFile current) then true
  else if negb (ostr_eqb (questionImage current) (questionImage original)) then true
  else false.

Definition hasChoiceChanged (current original : SurveyChoiceForm) : bool :=
  if negb (str_eqb (choiceText current) (choiceText original)) then true
  else if negb (ostr_eqb (choiceOrder current) (choiceOrder original)) then true
  else if negb (obool_eqb (choice_hasTextInput current) (choice_hasTextInput original)) then true
  else if instanceofFile (choiceImageFile current) then true
  else if negb (ostr_eqb (choiceImage current) (choiceImage original)) then true
  else false.

Definition hasGridRowChanged (current original : SurveyGridRowForm) : bool :=
  if negb (str_eqb (rowText current) (rowText original)) then true
  else if negb (Z.eqb (rowNumber current) (rowNumber original)) then true
  else if instanceofFile (rowImageFile current) then true
  else if negb (ostr_eqb (rowImage current) (rowImage original)) then true
  else false.

Definition hasSectionChanged (current original : SurveySectionForm) : bool :=
  negb (str_eqb (title current) (title original))
  || negb (ostr_eqb (description current) (description original)).

(* ================================================================== *)
(** ** validateForm *)
(* ================================================================== *)

(** The first error a loop body reports over [l], indices from [i]: the
    loop returns at the first [toast.error]. *)
Fixpoint firstError {A} (i : nat) (body : A -> nat -> option jsstring)
         (l : list A) : option jsstring :=
  match l with
  | [] => None
  | x :: r =>
    match body x i with
    | Some e => Some e
    | None => firstError (S i) body r
    end
  end.

(** [validation.errors[0]]. *)
Definition firstOf (errs : list jsstring) : jsstring :=
  nth 0 errs (lit "undefined").

Definition validateChoiceFollowUp (choice : SurveyChoiceForm) (_ : nat)
  : option jsstring :=
  match activeFollowUp choice with
  | Some followUp =>
    let followUpValidation := validateSurveyEntry followUp in
    if negb (isValid followUpValidation)
    then Some (lit "Follow-up question for " ++ dquote ++ choiceText choice
               ++ dquote ++ lit ": " ++ firstOf (errors followUpValidation))
    else None
  | None => None
  end.

Definition validateQuestion (section : SurveySectionForm)
           (q : SurveyEntryForm) (questionIndex : nat) : option jsstring :=
  let validation := validateSurveyEntry q in
  if negb (isValid validation)
  then Some (lit "Section " ++ dquote ++ title section ++ dquote
             ++ lit ", Question " ++ showNat (questionIndex + 1) ++ lit ": "
             ++ firstOf (errors validation))
  else firstError 0 validateChoiceFollowUp (choices q).

Definition validateSection (section : SurveySectionForm) (sectionIndex : nat)
  : option jsstring :=
  if blank (title section)
  then Some (lit "Section " ++ showNat (sectionIndex + 1)
             ++ lit " title is required")
  else if length (entries section) =? 0
  then Some (lit "Section " ++ dquote ++ title section ++ dquote
             ++ lit " must have at least one question")
  else firstError 0 (validateQuestion section) (entries section).

(** [None] is [return true]; [Some msg] is [toast.error(msg); return false]. *)
Definition validateForm (st : FormState) : option jsstring :=
  if blank (surveyName st) then Some (lit "Survey name is required")
  else if length (sections st) =? 0
  then Some (lit "At least one section is required")
  else firstError 0 validateSection (sections st).

(* ================================================================== *)
(** ** handleSubmit *)
(* ================================================================== *)

(** The choice payload of an add or update call. *)
Definition choiceData (c : SurveyChoiceForm) (ci : nat) : ChoicePayload :=
  mkChoicePayload (choice_clientId c) (Some (orderOr (choiceOrder c) ci))
    (choiceText c) None (choiceImageFile c)
    (Some (orFalse (choice_hasTextInput c))).

(** The grid row payload of an add or update call. *)
Definition rowData (r : SurveyGridRowForm) (ri : nat) : GridRowPayload :=
  mkRowPayload (numOr (rowNumber r) (Z.of_nat ri + 1)) (rowText r) None
    (rowImageFile r).

Definition entryUpdateData (e : SurveyEntryForm) : UpdateEntryData :=
  mkUpdateEntryData (question e) (questionNumber e) (questionType e)
    (isRequired e) (questionImageFile e).

(** [sectionNumber || si + 1]. *)
Definition sectionNumberOr (n : option Z) (si : nat) : Z :=
  match n with
  | Some z => numOr z (Z.of_nat si + 1)
  | None => (Z.of_nat si + 1)%Z
  end.

(** Step 1: section title and description changes, for
    [si < Math.min(sections.length, originalSectionsSnapshot.length)]. *)
Fixpoint detectSections (si : nat) (cur orig : list SurveySectionForm)
  : list ApiCall :=
  match cur, orig with
  | current :: cur', original :: orig' =>
    (match idOf (section_id current) with
     | Some id =>
       if hasSectionChanged current original
       then [UpdateSection id
               (mkUpdateSectionData (title current) (description current)
                  (sectionNumberOr (sectionNumber current) si))]
       else []
     | None => []
     end) ++ detectSections (S si) cur' orig'
  | _, _ => []
  end.

(** Step 3: choices of one entry, by position. *)
Fixpoint detectChoices (ci : nat) (cur orig : list SurveyChoiceForm)
  : list ApiCall :=
  match cur, orig with
  | currentChoice :: cur', originalChoice :: orig' =>
    (match idOf (choice_id currentChoice) with
     | Some id =>
       if hasChoiceChanged currentChoice originalChoice
       then [UpdateChoice id (choiceData currentChoice ci)]
       else []
     | None => []
     end) ++ detectChoices (S ci) cur' orig'
  | _, _ => []
  end.

(** Step 4: grid rows of one entry, by position. *)
Fixpoint detectGridRows (ri : nat) (cur orig : list SurveyGridRowForm)
  : list ApiCall :=
  match cur, orig with
  | currentRow :: cur', originalRow :: orig' =>
    (match idOf (row_id currentRow) with
     | Some id =>
       if hasGridRowChanged currentRow originalRow
       then [UpdateGridRow id (rowData currentRow ri)]
       else []
     | None => []
     end) ++ detectGridRows (S ri) cur' orig'
  | _, _ => []
  end.

(** The body of the entry loop of step 2 for one position. *)
Definition detectEntry (currentEntry originalEntry : SurveyEntryForm)
  : list ApiCall :=
  match idOf (entry_id currentEntry) with
  | None => []
  | Some id =>
    (if hasEntryChanged currentEntry originalEntry
     then [UpdateEntry id (entryUpdateData currentEntry)]
     else [])
    ++ detectChoices 0 (choices currentEntry) (choices originalEntry)
    ++ (if qtype_eqb (questionType currentEntry) GRID
        then detectGridRows 0 (gridRows currentEntry) (gridRows originalEntry)
        else [])
  end.

Fixpoint detectEntries (cur orig : list SurveyEntryForm) : list ApiCall :=
  match cur, orig with
  | currentEntry :: cur', originalEntry :: orig' =>
    detectEntry currentEntry originalEntry ++ detectEntries cur' orig'
  | _, _ => []
  end.

(** Step 2: the entries of every section that has a snapshot. *)
Fixpoint detectQuestions (cur orig : list SurveySectionForm) : list ApiCall :=
  match cur, orig with
  | currentSection :: cur', originalSection :: orig' =>
    detectEntries (entries currentSection) (entries originalSection)
    ++ detectQuestions cur' orig'
  | _, _ => []
  end.

(** The sections payload of the bulk call. *)
Definition bulkPayload (originalSectionsCount : nat)
           (newSectionsData : list SurveySectionForm) : list SectionPayload :=
  mapi (fun section idx =>
          mkSectionPayload (title section) (description section)
            (Z.of_nat originalSectionsCount + Z.of_nat idx + 1)
            (flattenEntriesForPayload (entries section)))
       newSectionsData.

(** The payload of the add-entry call of step 6. *)
Definition newEntryData (entry : SurveyEntryForm) : EntryPayload :=
  mkEntryPayload (entry_clientId entry) (question entry) (questionNumber entry)
    None (questionImageFile entry) (questionType entry) (isRequired entry)
    None (mapi choiceData (choices entry)) (mapi rowData (gridRows entry))
    (isFollowUp entry) (parentQuestionClientId entry)
    (triggerChoiceClientIds entry) None None.

(** Step 6: new questions in the sections that existed at load time, for
    [i < Math.min(originalSectionsCount, sections.length)]. *)
Fixpoint addNewEntries (i : nat) (counts : list nat)
         (secs : list SurveySectionForm) : list ApiCall :=
  match secs with
  | [] => []
  | current :: secs' =>
    let originalQCount := nth i counts 0 in
    (if (originalQCount <? length (entries current))
        && truthyStr (section_id current)
     then map (fun entry => AddEntry (section_id current) (newEntryData entry))
              (skipn originalQCount (entries current))
     else [])
    ++ addNewEntries (S i) counts secs'
  end.

(** A dispatched call and the number of changes it accounts for in
    [totalChanges], [successCount] and [failureCount]. *)
Definition Planned : Type := ApiCall * nat.

Definition single (c : ApiCall) : Planned := (c, 1).

(** Step 5: every section past [originalSectionsCount] in one bulk call. *)
Definition addNewSections (st : FormState) : list Planned :=
  let newSectionsData := skipn (originalSectionsCount st) (sections st) in
  if 0 <? length newSectionsData
  then [(AddSectionsBulk (bulkPayload (originalSectionsCount st) newSectionsData),
         length newSectionsData)]
  else [].

(** The calls of the edit mode, in the order they are dispatched. *)
Definition planEdit (st : FormState) : list Planned :=
  map single (detectSections 0 (sections st) (originalSectionsSnapshot st))
  ++ map single (detectQuestions (sections st) (originalSectionsSnapshot st))
  ++ addNewSections st
  ++ map single (addNewEntries 0 (originalQuestionCounts st)
                   (firstn (originalSectionsCount st) (sections st))).

Definition totalChanges (p : list Planned) : nat :=
  fold_right (fun x acc => snd x + acc) 0 p.

(** [successCount] and [failureCount] once every call has settled;
    [succeeds i] tells whether the [i]-th dispatched call succeeded. *)
Fixpoint tally (i : nat) (succeeds : nat -> bool) (p : list Planned)
  : nat * nat :=
  match p with
  | [] => (0, 0)
  | (_, w) :: r =>
    let '(s, f) := tally (S i) succeeds r in
    if succeeds i then (w + s, f) else (s, w + f)
  end.

(** The hook a call goes through when it is given its callbacks with
    [mutate(variables, { onSuccess, onError })]: the four update hooks and
    the bulk hook of the edit mode.  [addEntryAsync] is [mutateAsync],
    which returns a promise of its own for every call. *)
Inductive MutateHook :=
| UpdateSectionHook
| UpdateEntryHook
| UpdateChoiceHook
| UpdateGridRowHook
| AddSectionsBulkHook.

Definition hook_eqb (a b : MutateHook) : bool :=
  match a, b with
  | UpdateSectionHook, UpdateSectionHook
  | UpdateEntryHook, UpdateEntryHook
  | UpdateChoiceHook, UpdateChoiceHook
  | UpdateGridRowHook, UpdateGridRowHook
  | AddSectionsBulkHook, AddSectionsBulkHook => true
  | _, _ => false
  end.

Definition mutateHook (c : ApiCall) : option MutateHook :=
  match c with
  | UpdateSection _ _ => Some UpdateSectionHook
  | UpdateEntry _ _ => Some UpdateEntryHook
  | UpdateChoice _ _ => Some UpdateChoiceHook
  | UpdateGridRow _ _ => Some UpdateGridRowHook
  | AddSectionsBulk _ => Some AddSectionsBulkHook
  | _ => None
  end.

(** A mutation hook runs the callbacks given to [mutate] for its latest
    call only: [handleSubmit] dispatches all its calls before any of them
    settles, so a call that is followed by another call through the same
    hook never runs its [onSuccess] or [onError], and the promise wrapped
    around it never resolves. *)
Definition superseded (c : ApiCall) (later : list ApiCall) : bool :=
  match mutateHook c with
  | Some h =>
    existsb (fun d => match mutateHook d with
                      | Some h' => hook_eqb h h'
                      | None => false
                      end) later
  | None => false
  end.

(** Whether every promise of [pendingPromises] resolves, that is whether
    [await Promise.all(pendingPromises)] ever resumes. *)
Fixpoint allResolve (dispatched : list ApiCall) : bool :=
  match dispatched with
  | [] => true
  | c :: later => negb (superseded c later) && allResolve later
  end.

(** What a run of [handleSubmit] leaves behind: the calls it dispatched,
    the toasts it raised itself (the mutation hooks raise toasts of their
    own for each call; they are not recorded here), whether it asked for a
    refresh of the survey data, and the state of the form afterwards.  A
    run that never gets past [await Promise.all(pendingPromises)] leaves
    its calls and nothing else: no toast, no refresh, the state as it was.
    When the await resumes, every call has run the callback given with it
    once, [onSuccess] or [onError]. *)
Record SubmitResult := mkSubmitResult {
  calls : list ApiCall;
  toasts : list Toast;
  refreshed : bool;
  nextState : FormState
}.

(** The state after a fully successful save: the snapshot and the
    original counts are taken from the working tree. *)
Definition commitSnapshot (st : FormState) : FormState :=
  mkFormState (isEditMode st) (surveyName st) (surveyType st)
    (surveyDescription st) (sections st) (sectionsLoaded st)
    (length (sections st))
    (map (fun s => length (entries s)) (sections st))
    (jsonSections (sections st))
    (selectedSection st) (selectedQuestion st) (editMode st).

Definition createPayload (st : FormState) : CreateSurveyPayload :=
  mkCreateSurveyPayload (surveyName st) (surveyType st) (surveyDescription st)
    (mapi (fun section sIndex =>
             mkSectionPayload (title section) (description section)
               (Z.of_nat sIndex + 1)
               (flattenEntriesForPayload (entries section)))
          (sections st)).

Definition handleSubmit (st : FormState) (succeeds : nat -> bool) : SubmitResult :=
  match validateForm st with
  | Some err => mkSubmitResult [] [(TError, err)] false st
  | None =>
    if negb (isEditMode st)
    then mkSubmitResult [CreateSurvey (createPayload st)] [] false st
    else
      let planned := planEdit st in
      let '(successCount, failureCount) := tally 0 succeeds planned in
      if negb (allResolve (map fst planned))
      then mkSubmitResult (map fst planned) [] false st
      else if totalChanges planned =? 0
      then mkSubmitResult (map fst planned)
             [(TMessage, lit "No changes to save")] false st
      else if failureCount =? 0
      then mkSubmitResult (map fst planned)
             [(TSuccess, lit "All " ++ showNat successCount
                         ++ lit " change(s) saved successfully")]
             true (commitSnapshot st)
      else if 0 <? successCount
      then mkSubmitResult (map fst planned)
             [(TWarning, showNat successCount ++ lit " change(s) saved, "
                         ++ showNat failureCount ++ lit " failed")]
             true st
      else mkSubmitResult (map fst planned)
             [(TError, lit "Failed to save " ++ showNat failureCount
                       ++ lit " change(s)")]
             false st
  end.

(* ================================================================== *)
(** ** Loading an existing survey *)
(* ================================================================== *)

(** [getNextQuestionNumber()]: main questions plus the follow-ups embedded
    in choices, plus one. *)
Definition countFollowUps (entry : SurveyEntryForm) : nat :=
  length (filter (fun c => match activeFollowUp c with
                           | Some _ => true
                           | None => false
                           end) (choices entry)).

Definition getNextQuestionNumber (secs : list SurveySectionForm) : Z :=
  let total :=
    fold_left (fun total section =>
                 fold_left (fun t entry => t + countFollowUps entry)
                           (entries section)
                           (total + length (entries section)))
              secs 0 in
  Z.of_nat total + 1.

Inductive FocusAction := FocusAddQuestion | FocusAddSection | FocusEditQuestions.

Record FocusSection := mkFocusSection {
  focus_sectionId : option jsstring;
  focus_action : FocusAction
}.

(** [l.findIndex(s => s.id === sectionId)]. *)
Fixpoint findSectionIndex (i : nat) (sectionId : option jsstring)
         (l : list SurveySectionForm) : option nat :=
  match l with
  | [] => None
  | s :: r =>
    if ostr_eqb (section_id s) sectionId then Some i
    else findSectionIndex (S i) sectionId r
  end.

(** [l[i] = f(l[i])] for an index inside the array. *)
Fixpoint updateAt {A} (i : nat) (f : A -> A) (l : list A) : list A :=
  match l, i with
  | [], _ => []
  | x :: r, 0 => f x :: r
  | x :: r, S j => x :: updateAt j f r
  end.

Definition withEntries (s : SurveySectionForm) (es : list SurveyEntryForm)
  : SurveySectionForm :=
  mkSectionForm (title s) (description s) (sectionNumber s) es (section_id s).

(** The effect that loads [surveyDetailData.formSections] once.  The
    identifiers [u0 u1 u2] are the ones an [emptyEntry] added by the focus
    action draws. *)
Definition loadSurvey (st : FormState) (loadedSections : list SurveySectionForm)
           (focusSection : option FocusSection) (u0 u1 u2 : jsstring)
  : FormState :=
  if isEditMode st && negb (sectionsLoaded st)
  then
    let fresh := emptyEntry u0 u1 u2 (Some (getNextQuestionNumber (sections st))) in
    let keep := (loadedSections, selectedSection st, selectedQuestion st, editMode st) in
    let '(finalSections, selSection, selQuestion, mode) :=
      match focusSection with
      | None => keep
      | Some fs =>
        match focus_action fs, truthyStr (focus_sectionId fs) with
        | FocusAddQuestion, true =>
          match findSectionIndex 0 (focus_sectionId fs) loadedSections with
          | Some sectionIndex =>
            (updateAt sectionIndex
               (fun s => withEntries s (entries s ++ [fresh])) loadedSections,
             sectionIndex,
             length (entries (nth sectionIndex loadedSections
                                  (mkSectionForm [] None None [] None))),
             EditQuestion)
          | None => keep
          end
        | FocusEditQuestions, true =>
          match findSectionIndex 0 (focus_sectionId fs) loadedSections with
          | Some sectionIndex =>
            if 0 <? length (entries (nth sectionIndex loadedSections
                                         (mkSectionForm [] None None [] None)))
            then (loadedSections, sectionIndex, 0, EditQuestion)
            else keep
          | None => keep
          end
        | FocusAddSection, _ =>
          let newSection :=
            withEntries (emptySection u0 u1 u2 (Some (length loadedSections + 1)))
                        [fresh] in
          (loadedSections ++ [newSection], length loadedSections, 0, EditQuestion)
        | _, _ => keep
        end
      end in
    mkFormState (isEditMode st) (surveyName st) (surveyType st)
      (surveyDescription st) finalSections true
      (length loadedSections)
      (map (fun s => length (entries s)) loadedSections)
      (jsonSections loadedSections)
      selSection selQuestion mode
  else st.

(** Whether a focus action leaves the loaded sections as they are. *)
Definition focusAddsNothing (focusSection : option FocusSection)
           (loadedSections : list SurveySectionForm) : bool :=
  match focusSection with
  | None => true
  | Some fs =>
    match focus_action fs with
    | FocusEditQuestions => true
    | FocusAddSection => false
    | FocusAddQuestion =>
      negb (truthyStr (focus_sectionId fs))
      || match findSectionIndex 0 (focus_sectionId fs) loadedSections with
         | Some _ => false
         | None => true
         end
    end
  end.

(* ================================================================== *)
(** ** Editing the working tree *)
(* ================================================================== *)

(** The state a freshly mounted form starts from: the initial values of
    its [useState] cells. *)
Definition initialState (editing : bool) (name : jsstring) (type : SurveyType)
           (desc : jsstring) (u0 u1 u2 : jsstring) : FormState :=
  mkFormState editing name type desc [emptySection u0 u1 u2 (Some 1)]
    false 0 [] [] 0 0 EditSurvey.

Definition withSections (st : FormState) (secs : list SurveySectionForm)
  : FormState :=
  mkFormState (isEditMode st) (surveyName st) (surveyType st)
    (surveyDescription st) secs (sectionsLoaded st)
    (originalSectionsCount st) (originalQuestionCounts st)
    (originalSectionsSnapshot st)
    (selectedSection st) (selectedQuestion st) (editMode st).

(** [updateSectionTitle(sectionIndex, title)]. *)
Definition updateSectionTitle (st : FormState) (sectionIndex : nat)
           (newTitle : jsstring) : FormState :=
  withSections st
    (mapi (fun section i =>
             if i =? sectionIndex
             then mkSectionForm newTitle (description section)
                    (sectionNumber section) (entries section)
                    (section_id section)
             else section)
          (sections st)).

(** [updateQuestion(sectionIndex, questionIndex, updates)]; [merge] is
    [entry => ({ ...entry, ...updates })]. *)
Definition updateQuestion (st : FormState) (sectionIndex questionIndex : nat)
           (merge : SurveyEntryForm -> SurveyEntryForm) : FormState :=
  withSections st
    (mapi (fun section i =>
             if i =? sectionIndex
             then withEntries section
                    (mapi (fun entry qI =>
                             if qI =? questionIndex then merge entry else entry)
                          (entries section))
             else section)
          (sections st)).

(** The merges the examples use: [{ question }] and
    [{ questionImageFile }]. *)
Definition setQuestionText (text : jsstring) (e : SurveyEntryForm)
  : SurveyEntryForm :=
  mkEntryForm (entry_clientId e) text (questionNumber e) (questionImage e)
    (questionImageFile e) (questionType e) (isRequired e) (choices e)
    (gridRows e) (entry_hasTextInput e) (isFollowUp e)
    (parentQuestionClientId e) (triggerChoiceClientIds e)
    (parentQuestionId e) (triggerChoiceIds e) (entry_id e).

Definition setQuestionImageFile (file : FileSlot) (e : SurveyEntryForm)
  : SurveyEntryForm :=
  mkEntryForm (entry_clientId e) (question e) (questionNumber e)
    (questionImage e) file (questionType e) (isRequired e) (choices e)
    (gridRows e) (entry_hasTextInput e) (isFollowUp e)
    (parentQuestionClientId e) (triggerChoiceClientIds e)
    (parentQuestionId e) (triggerChoiceIds e) (entry_id e).

(** [handleQuestionTypeChange(newType)] of the question editor, as the
    merge it passes to [updateQuestion]: the type is switched, choices and
    grid rows are replaced by the defaults of the new type, and the image
    is cleared. *)
Definition handleQuestionTypeChange (newType : SurveyQuestionType)
           (u1 u2 : jsstring) (e : SurveyEntryForm) : SurveyEntryForm :=
  let defaults := getDefaultQuestionFields u1 u2 newType in
  mkEntryForm (entry_clientId e) (question e) (questionNumber e) None NoFile
    newType (isRequired e) (fst defaults) (snd defaults)
    (entry_hasTextInput e) (isFollowUp e)
    (parentQuestionClientId e) (triggerChoiceClientIds e)
    (parentQuestionId e) (triggerChoiceIds e) (entry_id e).

(** The merge [{ choices: [...question.choices, choice] }]. *)
Definition appendChoice (choice : SurveyChoiceForm) (e : SurveyEntryForm)
  : SurveyEntryForm :=
  mkEntryForm (entry_clientId e) (question e) (questionNumber e)
    (questionImage e) (questionImageFile e) (questionType e) (isRequired e)
    (choices e ++ [choice]) (gridRows e) (entry_hasTextInput e) (isFollowUp e)
    (parentQuestionClientId e) (triggerChoiceClientIds e)
    (parentQuestionId e) (triggerChoiceIds e) (entry_id e).

(* ================================================================== *)
(** ** handleSaveCurrentQuestion *)
(* ================================================================== *)

(** What the save of one question does, in program order: a call is
    dispatched when its promise is created, and [AwaitAll] is an
    [await Promise.all(...)] on the promises created so far. *)
Inductive Event :=
| Dispatch (c : ApiCall)
| AwaitAll.

(** A promise of the first batch: the call, and whether a [.catch]
    swallows its rejection. *)
Definition Promise : Type := ApiCall * bool.

Definition rejects (c : ApiCall) : Promise := (c, false).
Definition swallowed (c : ApiCall) : Promise := (c, true).

(** [new Set(ids.filter(Boolean)).has(id)]. *)
Definition hasId (ids : list (option jsstring)) (id : jsstring) : bool :=
  existsb (fun o => match idOf o with
                    | Some x => str_eqb x id
                    | None => false
                    end) ids.

(** Step 2: choices of the snapshot that the current entry no longer has. *)
Definition deleteOldChoices (currentEntry : SurveyEntryForm)
           (originalEntry : option SurveyEntryForm) : list Promise :=
  let currentChoiceIds := map choice_id (choices currentEntry) in
  let originalChoices :=
    match originalEntry with Some o => choices o | None => [] end in
  flat_map (fun originalChoice =>
              match idOf (choice_id originalChoice) with
              | Some id =>
                if negb (hasId currentChoiceIds id)
                then [swallowed (DeleteChoice id)] else []
              | None => []
              end) originalChoices.

(** Step 3: new choices are added, changed existing ones are updated. *)
Definition saveChoice (entryId : jsstring) (originalEntry : option SurveyEntryForm)
           (choice : SurveyChoiceForm) (ci : nat) : list Promise :=
  match idOf (choice_id choice) with
  | None => [rejects (AddChoice entryId (choiceData choice ci))]
  | Some id =>
    let originalChoice :=
      match originalEntry with
      | Some o => find (fun oc => ostr_eqb (choice_id oc) (choice_id choice))
                       (choices o)
      | None => None
      end in
    match originalChoice with
    | Some oc =>
      if hasChoiceChanged choice oc
      then [rejects (UpdateChoice id (choiceData choice ci))] else []
    | None => []
    end
  end.

(** Step 4: grid rows of the snapshot that the current entry no longer has. *)
Definition deleteOldGridRows (currentEntry : SurveyEntryForm)
           (originalEntry : option SurveyEntryForm) : list Promise :=
  let currentGridRowIds := map row_id (gridRows currentEntry) in
  let originalRows :=
    match originalEntry with Some o => gridRows o | None => [] end in
  flat_map (fun originalRow =>
              match idOf (row_id originalRow) with
              | Some id =>
                if negb (hasId currentGridRowIds id)
                then [swallowed (DeleteGridRow id)] else []
              | None => []
              end) originalRows.

(** Step 5: new rows are added, changed existing ones are updated. *)
Definition saveGridRow (entryId : jsstring) (originalEntry : option SurveyEntryForm)
           (row : SurveyGridRowForm) (ri : nat) : list Promise :=
  match idOf (row_id row) with
  | None => [rejects (AddGridRow entryId (rowData row ri))]
  | Some id =>
    let originalRow :=
      match originalEntry with
      | Some o => find (fun r => ostr_eqb (row_id r) (row_id row)) (gridRows o)
      | None => None
      end in
    match originalRow with
    | Some r =>
      if hasGridRowChanged row r
      then [rejects (UpdateGridRow id (rowData row ri))] else []
    | None => []
    end
  end.

(** The [promises] array, steps 1 to 5. *)
Definition basicOperations (entryId : jsstring) (currentEntry : SurveyEntryForm)
           (originalEntry : option SurveyEntryForm) : list Promise :=
  (match originalEntry with
   | Some o =>
     if hasEntryChanged currentEntry o
     then [rejects (UpdateEntry entryId (entryUpdateData currentEntry))]
     else []
   | None => []
   end)
  ++ deleteOldChoices currentEntry originalEntry
  ++ concat (mapi (saveChoice entryId originalEntry) (choices currentEntry))
  ++ deleteOldGridRows currentEntry originalEntry
  ++ concat (mapi (saveGridRow entryId originalEntry) (gridRows currentEntry)).

(** The payload of a follow-up created in step 6, with the pair of
    reference fields (client-side or server-side) the branch fills. *)
Definition followUpData (followUp : SurveyEntryForm) (followUpNumber : Z)
           (parentClient triggerClient parentServer triggerServer : option jsstring)
  : EntryPayload :=
  mkEntryPayload (entry_clientId followUp) (question followUp)
    (Some followUpNumber) None (questionImageFile followUp)
    (questionType followUp) (isRequired followUp) None
    (mapi choiceData (choices followUp)) (mapi rowData (gridRows followUp))
    true parentClient (option_map (fun x => [x]) triggerClient)
    parentServer (option_map (fun x => [x]) triggerServer).

(** Step 6: the loop state is [followUpPromises] and
    [followUpQuestionCounter]. *)
Definition followUpStep (sectionId : option jsstring) (entryId : jsstring)
           (currentEntry : SurveyEntryForm) (nextQuestionNumber : Z)
           (acc : list ApiCall * Z) (choice : SurveyChoiceForm)
  : list ApiCall * Z :=
  match activeFollowUp choice with
  | None => acc
  | Some followUp =>
    if truthyStr (entry_id followUp) then acc
    else
      match idOf (choice_id choice) with
      | Some choiceId =>
        (fst acc ++ [AddEntry sectionId
                       (followUpData followUp (nextQuestionNumber + snd acc)
                          None None (Some entryId) (Some choiceId))],
         (snd acc + 1)%Z)
      | None =>
        (fst acc ++ [AddEntry sectionId
                       (followUpData followUp (nextQuestionNumber + snd acc)
                          (Some (entry_clientId currentEntry))
                          (Some (choice_clientId choice)) None None)],
         (snd acc + 1)%Z)
      end
  end.

Definition followUpOperations (st : FormState) (entryId : jsstring)
           (currentEntry : SurveyEntryForm) : list ApiCall :=
  let sectionId :=
    match nth_error (sections st) (selectedSection st) with
    | Some s => section_id s
    | None => None
    end in
  fst (fold_left (followUpStep sectionId entryId currentEntry
                    (getNextQuestionNumber (sections st)))
                 (choices currentEntry) ([], 0%Z)).

(** Whether [await Promise.all(promises)] throws: a promise without a
    [.catch] rejected.  Promises are numbered from [i]. *)
Fixpoint anyRejection (i : nat) (succeeds : nat -> bool) (p : list Promise)
  : bool :=
  match p with
  | [] => false
  | (_, caught) :: r =>
    (negb caught && negb (succeeds i)) || anyRejection (S i) succeeds r
  end.

Definition entryAt (secs : list SurveySectionForm) (si qi : nat)
  : option SurveyEntryForm :=
  match nth_error secs si with
  | Some s => nth_error (entries s) qi
  | None => None
  end.

(** The snapshot with the saved entry copied over its position, when the
    snapshot has that position. *)
Definition snapshotWithEntry (st : FormState) (currentEntry : SurveyEntryForm)
  : list SurveySectionForm :=
  let newSnapshot := jsonSections (originalSectionsSnapshot st) in
  match entryAt newSnapshot (selectedSection st) (selectedQuestion st) with
  | Some _ =>
    updateAt (selectedSection st)
      (fun s => withEntries s
         (updateAt (selectedQuestion st) (fun _ => jsonEntry currentEntry)
                   (entries s)))
      newSnapshot
  | None => newSnapshot
  end.

Definition withSnapshot (st : FormState) (snap : list SurveySectionForm)
  : FormState :=
  mkFormState (isEditMode st) (surveyName st) (surveyType st)
    (surveyDescription st) (sections st) (sectionsLoaded st)
    (originalSectionsCount st) (originalQuestionCounts st) snap
    (selectedSection st) (selectedQuestion st) (editMode st).

Record SaveQuestionResult := mkSaveQuestionResult {
  events : list Event;
  sq_toasts : list Toast;
  sq_refreshed : bool;
  sq_nextState : FormState
}.

Definition handleSaveCurrentQuestion (st : FormState) (succeeds : nat -> bool)
  : SaveQuestionResult :=
  let currentEntry := entryAt (sections st) (selectedSection st) (selectedQuestion st) in
  let originalEntry :=
    entryAt (originalSectionsSnapshot st) (selectedSection st) (selectedQuestion st) in
  match currentEntry with
  | None =>
    mkSaveQuestionResult []
      [(TError, lit "Cannot save: Question doesn't exist or is a new question")]
      false st
  | Some currentEntry =>
    match idOf (entry_id currentEntry) with
    | None =>
      mkSaveQuestionResult []
        [(TError, lit "Cannot save: Question doesn't exist or is a new question")]
        false st
    | Some entryId =>
      let validation := validateSurveyEntry currentEntry in
      if negb (isValid validation)
      then mkSaveQuestionResult [] [(TError, firstOf (errors validation))] false st
      else
        let promises := basicOperations entryId currentEntry originalEntry in
        let first := map (fun p => Dispatch (fst p)) promises ++ [AwaitAll] in
        if anyRejection 0 succeeds promises
        then mkSaveQuestionResult first
               [(TError, lit "Failed to save question changes")] false st
        else
          let followUpPromises := followUpOperations st entryId currentEntry in
          let second :=
            map Dispatch followUpPromises
            ++ (if 0 <? length followUpPromises then [AwaitAll] else []) in
          let totalOperations := length promises + length followUpPromises in
          if 0 <? totalOperations
          then mkSaveQuestionResult (first ++ second)
                 [(TSuccess, lit "Question saved successfully!")] true
                 (withSnapshot st (snapshotWithEntry st currentEntry))
          else mkSaveQuestionResult (first ++ second)
                 [(TInfo, lit "No changes to save")] false st
    end
  end.


(* ================================================================== *)
(** ** Section and question management *)
(* ================================================================== *)

(** [l.filter((_, i) => i !== index)]. *)
Fixpoint removeAt {A} (index : nat) (l : list A) : list A :=
  match l, index with
  | [], _ => []
  | _ :: r, 0 => r
  | x :: r, S j => x :: removeAt j r
  end.

Definition withSelection (st : FormState) (sec q : nat) (mode : EditMode)
  : FormState :=
  mkFormState (isEditMode st) (surveyName st) (surveyType st)
    (surveyDescription st) (sections st) (sectionsLoaded st)
    (originalSectionsCount st) (originalQuestionCounts st)
    (originalSectionsSnapshot st) sec q mode.

(** [addSection()]: a new section with one empty question is appended and
    selected. *)
Definition addSection (st : FormState) (u0 u1 u2 : jsstring) : FormState :=
  let newSection :=
    withEntries (emptySection u0 u1 u2 (Some (length (sections st) + 1)))
      [emptyEntry u0 u1 u2 (Some (getNextQuestionNumber (sections st)))] in
  withSelection (withSections st (sections st ++ [newSection]))
                (length (sections st)) 0 EditQuestion.

(** [removeSection(sectionIndex)]. *)
Definition removeSection (st : FormState) (sectionIndex : nat) : FormState :=
  let st' := withSections st (removeAt sectionIndex (sections st)) in
  if (sectionIndex <=? selectedSection st) && (0 <? selectedSection st)
  then withSelection st' (selectedSection st - 1) (selectedQuestion st)
                     (editMode st)
  else st'.

(** [handleDeleteSection(sectionIndex)]; [hasHandler] tells whether the
    [onDeleteSection] prop was given.  The second component is the section
    id handed to [onDeleteSection], when it is called. *)
Definition handleDeleteSection (st : FormState) (hasHandler : bool)
           (sectionIndex : nat) : FormState * option jsstring :=
  if isEditMode st && (sectionIndex <? originalSectionsCount st)
  then
    match nth_error (sections st) sectionIndex with
    | Some s =>
      match idOf (section_id s) with
      | Some id => if hasHandler then (st, Some id) else (st, None)
      | None => (st, None)
      end
    | None => (st, None)
    end
  else (removeSection st sectionIndex, None).

(** [updateSectionDescription(sectionIndex, description)]. *)
Definition updateSectionDescription (st : FormState) (sectionIndex : nat)
           (newDescription : jsstring) : FormState :=
  withSections st
    (mapi (fun section i =>
             if i =? sectionIndex
             then mkSectionForm (title section) (Some newDescription)
                    (sectionNumber section) (entries section)
                    (section_id section)
             else section)
          (sections st)).

(** [addQuestion(sectionIndex)]: an empty question is appended to the
    section and selected.  [None] stands for the [TypeError] the handler
    throws at [sections[sectionIndex].entries] when the index is out of
    range. *)
Definition addQuestion (st : FormState) (sectionIndex : nat)
           (u0 u1 u2 : jsstring) : option FormState :=
  let newEntry := emptyEntry u0 u1 u2 (Some (getNextQuestionNumber (sections st))) in
  match nth_error (sections st) sectionIndex with
  | Some s =>
    Some (withSelection
            (withSections st
               (mapi (fun section i =>
                        if i =? sectionIndex
                        then withEntries section (entries section ++ [newEntry])
                        else section)
                     (sections st)))
            sectionIndex (length (entries s)) EditQuestion)
  | None => None
  end.

(** [removeQuestion(sectionIndex, questionIndex)]. *)
Definition removeQuestion (st : FormState) (sectionIndex questionIndex : nat)
  : FormState :=
  withSections st
    (mapi (fun section i =>
             if i =? sectionIndex
             then withEntries section (removeAt questionIndex (entries section))
             else section)
          (sections st)).

(** The selection update that follows the removal of a question; [seen]
    is the state the handler was created in, whose [sections] it reads. *)
Definition selectAfterRemoval (seen st : FormState)
           (sectionIndex questionIndex : nat) : FormState :=
  match nth_error (sections seen) sectionIndex with
  | Some section =>
    if 1 <? length (entries section)
    then withSelection st (selectedSection st)
           (if 0 <? questionIndex then questionIndex - 1 else 0) (editMode st)
    else if 0 <? length (sections seen)
    then withSelection st (selectedSection st) (selectedQuestion st) EditSurvey
    else st
  | None =>
    if 0 <? length (sections seen)
    then withSelection st (selectedSection st) (selectedQuestion st) EditSurvey
    else st
  end.

(** What [handleDeleteQuestion] does at once. *)
Inductive DeleteQuestion :=
| DeletedLocally (st : FormState)
| DeleteRequested (questionId : jsstring)
| NothingDone.

(** [handleDeleteQuestion(sectionIndex, questionIndex)]: a question that
    was there when the survey was loaded is handed to [onDeleteQuestion]
    (the prop is given when [hasHandler]); any other is removed from the
    working tree. *)
Definition handleDeleteQuestion (st : FormState) (hasHandler : bool)
           (sectionIndex questionIndex : nat) : DeleteQuestion :=
  if isEditMode st
     && (sectionIndex <? originalSectionsCount st)
     && (questionIndex <? nth sectionIndex (originalQuestionCounts st) 0)
  then
    match entryAt (sections st) sectionIndex questionIndex with
    | Some q =>
      match idOf (entry_id q) with
      | Some id => if hasHandler then DeleteRequested id else NothingDone
      | None => NothingDone
      end
    | None => NothingDone
    end
  else
    DeletedLocally
      (selectAfterRemoval st (removeQuestion st sectionIndex questionIndex)
                          sectionIndex questionIndex).

(** The [onSuccess] callback [handleDeleteQuestion] gives to
    [onDeleteQuestion]: [seen] is the state the handler was created in,
    [st] the state when the deletion has succeeded. *)
Definition afterQuestionDeleted (seen st : FormState)
           (sectionIndex questionIndex : nat) : FormState :=
  selectAfterRemoval seen (removeQuestion st sectionIndex questionIndex)
                     sectionIndex questionIndex.

(* ================================================================== *)
(** ** The question editor *)
(* ================================================================== *)

(** [createEmptyFollowUp(parentClientId, triggerChoiceClientId,
    questionNumber)]. *)
Definition createEmptyFollowUp (uuid parentClientId triggerChoiceClientId : jsstring)
           (questionNumber : option Z) : SurveyEntryForm :=
  mkEntryForm uuid [] questionNumber None NoFile TEXT false [] [] None
    true (Some parentClientId) (Some [triggerChoiceClientId]) None None None.

Definition withChoices (e : SurveyEntryForm) (cs : list SurveyChoiceForm)
  : SurveyEntryForm :=
  mkEntryForm (entry_clientId e) (question e) (questionNumber e)
    (questionImage e) (questionImageFile e) (questionType e) (isRequired e)
    cs (gridRows e) (entry_hasTextInput e) (isFollowUp e)
    (parentQuestionClientId e) (triggerChoiceClientIds e)
    (parentQuestionId e) (triggerChoiceIds e) (entry_id e).

Definition withGridRows (e : SurveyEntryForm) (rows : list SurveyGridRowForm)
  : SurveyEntryForm :=
  mkEntryForm (entry_clientId e) (question e) (questionNumber e)
    (questionImage e) (questionImageFile e) (questionType e) (isRequired e)
    (choices e) rows (entry_hasTextInput e) (isFollowUp e)
    (parentQuestionClientId e) (triggerChoiceClientIds e)
    (parentQuestionId e) (triggerChoiceIds e) (entry_id e).

(** [handleAddChoiceDirectly()]. *)
Definition handleAddChoiceDirectly (uuid : jsstring) (q : SurveyEntryForm)
  : SurveyEntryForm :=
  withChoices q (choices q ++ [emptyChoice uuid (Some (length (choices q)))]).

(** What [handleRemoveChoiceClick] does. *)
Inductive RemoveChoice :=
| ChoiceKept
| ConfirmDialog (choiceIndex : nat) (text order : jsstring)
| ChoiceRemoved (q : SurveyEntryForm).

(** [handleRemoveChoiceClick(index)]; [surveyEntryId] is the prop of the
    editor. *)
Definition handleRemoveChoiceClick (editing : bool)
           (surveyEntryId : option jsstring) (q : SurveyEntryForm)
           (index : nat) : RemoveChoice :=
  if length (choices q) <=? 2 then ChoiceKept
  else
    let choice := nth_error (choices q) index in
    let persisted :=
      match choice with Some c => truthyStr (choice_id c) | None => false end in
    if editing && truthyStr surveyEntryId && persisted
    then ConfirmDialog index
           (match choice with Some c => choiceText c | None => [] end)
           (orderOr (match choice with Some c => choiceOrder c | None => None end)
                    index)
    else ChoiceRemoved (withChoices q (removeAt index (choices q))).

(** What [toggleChoiceFollowUp] does. *)
Inductive ToggleFollowUp :=
| UnlinkDialog (choiceIndex : nat) (followUpEntryId text : jsstring)
| FollowUpToggled (q : SurveyEntryForm).

(** [choice.followUpQuestion?.id], when truthy. *)
Definition followUpIdOf (choice : SurveyChoiceForm) : option jsstring :=
  match followUpQuestion choice with
  | Some f => idOf (entry_id f)
  | None => None
  end.

(** The [updatedChoice] of [toggleChoiceFollowUp]: the choice with the
    flag asked for and, when the flag is on, the follow-up it holds or an
    empty one that refers to the question and the choice. *)
Definition updatedChoice (uuid : jsstring) (q : SurveyEntryForm)
           (choice : SurveyChoiceForm) (on : bool) : SurveyChoiceForm :=
  mkChoiceForm (choice_clientId choice) (choiceOrder choice)
    (choiceText choice) (choiceImage choice) (choiceImageFile choice)
    (choice_id choice) (choice_hasTextInput choice) (Some on)
    (if on
     then match followUpQuestion choice with
          | Some f => Some f
          | None => Some (createEmptyFollowUp uuid (entry_clientId q)
                            (choice_clientId choice) None)
          end
     else None).

(** [toggleChoiceFollowUp(choiceIndex, hasFollowUp)]; [editing] is the
    [isEditMode] prop of the editor and [uuid] the identifier a new
    follow-up draws.  Switching off, in edit mode, a follow-up that is
    flagged and has a server id opens the unlink dialog and changes
    nothing; otherwise the choice at [choiceIndex] is replaced through
    [updateChoice].  When there is no choice at [choiceIndex], the handler
    throws a [TypeError] at [choice.hasFollowUp] or at
    [choice.followUpQuestion] ([None]). *)
Definition toggleChoiceFollowUp (editing : bool) (uuid : jsstring)
           (q : SurveyEntryForm) (choiceIndex : nat) (on : bool)
  : option ToggleFollowUp :=
  match nth_error (choices q) choiceIndex with
  | None => None
  | Some choice =>
    let toggled :=
      FollowUpToggled
        (withChoices q
           (mapi (fun c i =>
                    if i =? choiceIndex then updatedChoice uuid q choice on
                    else c)
                 (choices q))) in
    match followUpIdOf choice with
    | Some followUpEntryId =>
      if negb on && orFalse (hasFollowUp choice) && editing
      then Some (UnlinkDialog choiceIndex followUpEntryId
                   (match choiceText choice with
                    | [] => lit "Choice " ++ showNat (choiceIndex + 1)
                    | text => text
                    end))
      else Some toggled
    | None => Some toggled
    end
  end.

(** [addRow()]. *)
Definition addRow (q : SurveyEntryForm) : SurveyEntryForm :=
  withGridRows q
    (gridRows q ++ [mkRowForm None (Z.of_nat (length (gridRows q)) + 1) [] None NoFile]).

(** [removeRow(index)]. *)
Definition removeRow (q : SurveyEntryForm) (index : nat) : SurveyEntryForm :=
  if 2 <? length (gridRows q)
  then withGridRows q (removeAt index (gridRows q))
  else q.

(* ================================================================== *)
(** ** The legacy validator *)
(* ================================================================== *)

(** The entry shape [validateSurveyEntryLegacy] takes. *)
Record LegacyEntry := mkLegacyEntry {
  le_question : jsstring;
  le_questionType : SurveyQuestionType;
  le_choices : list jsstring;
  le_rows : list jsstring
}.

Definition validateSurveyEntryLegacy (entry : LegacyEntry) : Validation :=
  let errs := [] in
  let errs := pushIf (blank (le_question entry)) "Question text is required" errs in
  let errs :=
    if qtype_eqb (le_questionType entry) RADIO
       || qtype_eqb (le_questionType entry) CHECKBOX
    then
      let errs := pushIf (length (le_choices entry) <? 2)
                         "At least 2 choices are required" errs in
      let emptyChoices := filter blank (le_choices entry) in
      pushIf (0 <? length emptyChoices) "All choices must have text" errs
    else errs in
  let errs :=
    if qtype_eqb (le_questionType entry) GRID
    then
      let errs := pushIf (length (le_choices entry) <? 2)
                         "At least 2 column options are required" errs in
      pushIf (length (le_rows entry) <? 2)
             "At least 2 row options are required" errs
    else errs in
  mkValidation (length errs =? 0) errs.

(* ================================================================== *)
(** ** Reading the flattened payload *)
(* ================================================================== *)

(** A payload with its [questionNumber] replaced. *)
Definition setNumber (n : Z) (p : EntryPayload) : EntryPayload :=
  mkEntryPayload (ep_clientId p) (ep_question p) (Some n)
    (ep_questionImage p) (ep_questionImageFile p) (ep_questionType p)
    (ep_isRequired p) (ep_hasTextInput p) (ep_choices p) (ep_gridRows p)
    (ep_isFollowUp p) (ep_parentQuestionClientId p)
    (ep_triggerChoiceClientIds p) (ep_parentQuestionId p)
    (ep_triggerChoiceIds p).

(** The payloads numbered [n], [n+1], ... in list order. *)
Fixpoint numberFrom (n : Z) (l : list EntryPayload) : list EntryPayload :=
  match l with
  | [] => []
  | p :: r => setNumber n p :: numberFrom (n + 1) r
  end.

(** The follow-ups extracted from the choices of [entry], in choice order
    (numbers not yet assigned). *)
Definition followUpsOf (entry : SurveyEntryForm) : list EntryPayload :=
  flat_map (fun c => match activeFollowUp c with
                     | Some followUp => [flatFollowUp entry c followUp 0]
                     | None => []
                     end) (choices entry).

(** A main question followed at once by its follow-ups. *)
Definition block (entry : SurveyEntryForm) : list EntryPayload :=
  flatMain entry 0 :: followUpsOf entry.

(** [p] is the payload of a follow-up extracted from a choice of [entry]:
    it is flagged as a follow-up, refers to [entry] as its parent and to
    the one choice that owns it as its trigger. *)
Definition isFollowUpOf (entry : SurveyEntryForm) (p : EntryPayload) : Prop :=
  exists c followUp,
    In c (choices entry)
    /\ activeFollowUp c = Some followUp
    /\ ep_clientId p = entry_clientId followUp
    /\ ep_isFollowUp p = true
    /\ ep_parentQuestionClientId p = Some (entry_clientId entry)
    /\ ep_triggerChoiceClientIds p = Some [choice_clientId c].

(** [p] is the payload of the main question [entry]. *)
Definition isMainOf (entry : SurveyEntryForm) (p : EntryPayload) : Prop :=
  ep_clientId p = entry_clientId entry
  /\ ep_isFollowUp p = false
  /\ ep_parentQuestionClientId p = None
  /\ ep_triggerChoiceClientIds p = None.

(* ================================================================== *)
(** ** Sample data *)
(* ================================================================== *)

(** An entry with a file attached. *)
Definition sampleFile : FileSlot := AFile (FileNamed (lit "photo.png")).

Definition entryWithFile : SurveyEntryForm :=
  mkEntryForm (lit "e1") (lit "How was the course?") (Some 1%Z) None sampleFile
    TEXT true [] [] (Some false) false None None None None (Some (lit "e1")).

(* ================================================================== *)
(** ** Reading the rebuilt tree *)
(* ================================================================== *)

(** The follow-ups nested under the choices of one form entry. *)
Definition nestedFollowUpsOfEntry (e : SurveyEntryForm) : list SurveyEntryForm :=
  flat_map (fun c => match followUpQuestion c with
                     | Some f => [f]
                     | None => []
                     end) (choices e).

(** The follow-ups nested anywhere under the top-level entries. *)
Definition nestedFollowUps (secs : list SurveySectionForm) : list SurveyEntryForm :=
  flat_map (fun s => flat_map nestedFollowUpsOfEntry (entries s)) secs.

Definition topLevelEntries (secs : list SurveySectionForm) : list SurveyEntryForm :=
  flat_map entries secs.

(** The follow-up entries of a section response, in the order of its flat
    list. *)
Definition followUpsOfSection (sec : SurveySectionResponse) : list SurveyEntryResponse :=
  filter er_isFollowUp (sr_entries sec).

(** [fu] is the first follow-up of [sec], in list order, that names the
    entry [e] as parent and has the choice [c] among its triggers. *)
Definition firstMatch (sec : SurveySectionResponse) (e : SurveyEntryResponse)
           (c : SurveyChoiceResponse) (fu : SurveyEntryResponse) : Prop :=
  find (isRelevantFollowUp (er_id e) (cr_id c)) (followUpsOfSection sec) = Some fu.

(** A response with one RADIO question, two choices and two follow-ups
    that both list the first choice among their triggers. *)
Definition choiceC1 : SurveyChoiceResponse :=
  mkChoiceResponse (lit "c1") (lit "A") (lit "Yes") None None.
Definition choiceC2 : SurveyChoiceResponse :=
  mkChoiceResponse (lit "c2") (lit "B") (lit "No") None None.

Definition mainE1 : SurveyEntryResponse :=
  mkEntryResponse (lit "e1") 1 (lit "Did you attend?") None RADIO true
    [choiceC1; choiceC2] [] None false None None.

Definition followUp1 : SurveyEntryResponse :=
  mkEntryResponse (lit "fu1") 2 (lit "Which sessions?") None TEXT false
    [] [] None true (Some (lit "e1")) (Some [lit "c1"]).

Definition followUp2 : SurveyEntryResponse :=
  mkEntryResponse (lit "fu2") 3 (lit "Any comment?") None TEXT false
    [] [] None true (Some (lit "e1")) (Some [lit "c1"; lit "c2"]).

Definition sectionS1 : SurveySectionResponse :=
  mkSectionResponse (lit "s1") (lit "Attendance") None 1
    [mainE1; followUp1; followUp2].

Definition sampleResponse : SurveyDetailResponse :=
  mkDetailResponse (lit "sv1") (lit "Baseline") (Some BASELINE) (lit "")
    [sectionS1].

(* ================================================================== *)
(** ** Reading the editor state *)
(* ================================================================== *)

(** No [File] is attached to the entry, to its choices or to its rows. *)
Definition entryClean (e : SurveyEntryForm) : bool :=
  negb (instanceofFile (questionImageFile e))
  && forallb (fun c => negb (instanceofFile (choiceImageFile c))) (choices e)
  && forallb (fun r => negb (instanceofFile (rowImageFile r))) (gridRows e).

(** No top-level entry of the working tree has a file waiting for upload. *)
Definition noPendingUploads (secs : list SurveySectionForm) : bool :=
  forallb (fun s => forallb entryClean (entries s)) secs.

(** The snapshot and the original counts are those of the working tree. *)
Definition synced (st : FormState) : Prop :=
  originalSectionsSnapshot st = jsonSections (sections st)
  /\ originalSectionsCount st = length (sections st)
  /\ originalQuestionCounts st = map (fun s => length (entries s)) (sections st).

(** The entries [validateForm] validates in a section: each question and
    the follow-ups embedded in its choices. *)
Definition checkedEntries (s : SurveySectionForm) : list SurveyEntryForm :=
  flat_map (fun q =>
              q :: flat_map (fun c => match activeFollowUp c with
                                      | Some f => [f]
                                      | None => []
                                      end) (choices q))
           (entries s).

(** The four update calls. *)
Definition isUpdateCall (c : ApiCall) : Prop :=
  match c with
  | UpdateSection _ _ | UpdateEntry _ _ | UpdateChoice _ _ | UpdateGridRow _ _ => True
  | _ => False
  end.


(** The form in edit mode before the survey is loaded. *)
Definition mountedEdit : FormState :=
  initialState true (lit "Baseline") BASELINE (lit "")
               (lit "u0") (lit "u1") (lit "u2").

(** [sampleResponse] loaded with no focus action. *)
Definition loadedSample : FormState :=
  loadSurvey mountedEdit (transformResponseToForm sampleResponse) None
             (lit "u3") (lit "u4") (lit "u5").

(** A response whose only section has no question left. *)
Definition emptiedResponse : SurveyDetailResponse :=
  mkDetailResponse (lit "sv2") (lit "Baseline") (Some BASELINE) (lit "")
    [mkSectionResponse (lit "s1") (lit "Attendance") None 1 []].

Definition loadedEmptied : FormState :=
  loadSurvey mountedEdit (transformResponseToForm emptiedResponse) None
             (lit "u3") (lit "u4") (lit "u5").

(** Every call succeeds. *)
Definition allSucceed : nat -> bool := fun _ => true.

(** [loadedSample] after the user attached an image to the first
    question. *)
Definition withAttachedImage : FormState :=
  updateQuestion loadedSample 0 0 (setQuestionImageFile sampleFile).

(** [loadedSample] after the user retitled the section and reworded the
    first question. *)
Definition twoEdits : FormState :=
  updateQuestion
    (updateSectionTitle loadedSample 0 (lit "Presence"))
    0 0 (setQuestionText (lit "Were you there?")).



(** Two of the dispatched calls go through the same [mutate] hook. *)
Definition hookCalledTwice (dispatched : list ApiCall) : Prop :=
  exists i j c d h,
    i < j
    /\ nth_error dispatched i = Some c /\ nth_error dispatched j = Some d
    /\ mutateHook c = Some h /\ mutateHook d = Some h.

(** [loadedSample] after the user reworded both choices of the first
    question: the save sends two calls through the choice-update hook. *)
Definition reworded (c : SurveyChoiceForm) : SurveyChoiceForm :=
  mkChoiceForm (choice_clientId c) (choiceOrder c) (lit "Maybe")
    (choiceImage c) (choiceImageFile c) (choice_id c)
    (choice_hasTextInput c) (hasFollowUp c) (followUpQuestion c).

Definition twoChoiceEdits : FormState :=
  updateQuestion loadedSample 0 0
    (fun e => withChoices e (map reworded (choices e))).

(** A RADIO question with no text and no choice. *)
Definition badEntry : SurveyEntryForm :=
  mkEntryForm (lit "n1") [] (Some 2%Z) None NoFile RADIO true [] []
    (Some false) false None None None None None.

(** [loadedSample] after the user replaced the first question by
    [badEntry]. *)
Definition withBadEntry : FormState :=
  updateQuestion loadedSample 0 0 (fun _ => badEntry).

(** [sampleResponse] loaded with the add-section focus action: the new
    section holds one empty question. *)
Definition loadedWithNewSection : FormState :=
  loadSurvey mountedEdit (transformResponseToForm sampleResponse)
             (Some (mkFocusSection None FocusAddSection))
             (lit "u3") (lit "u4") (lit "u5").



Definition newQuestion2 : SurveyEntryForm :=
  mkEntryForm (lit "n-q2") (lit "Anything else?") (Some 4%Z) None NoFile TEXT
    false [] [] (Some false) false None None None None None.



(* ================================================================== *)
(** ** Reading the events of a question save *)
(* ================================================================== *)

Definition isCreateRow (c : ApiCall) : bool :=
  match c with AddGridRow _ _ => true | _ => false end.

Definition isEntryUpdateOrChoiceDelete (c : ApiCall) : bool :=
  match c with UpdateEntry _ _ | DeleteChoice _ => true | _ => false end.

(** The section the selected question belongs to. *)
Definition selectedSectionId (st : FormState) : option jsstring :=
  match nth_error (sections st) (selectedSection st) with
  | Some s => section_id s
  | None => None
  end.

(** [loadedSample] after the user switched the first question from RADIO
    to GRID. *)
Definition typeChanged : FormState :=
  updateQuestion loadedSample 0 0
    (handleQuestionTypeChange GRID (lit "u6") (lit "u7")).

(** A new follow-up under a new choice of the first question, which is
    already on the server. *)
Definition followUpOfNewChoice : SurveyEntryForm :=
  mkEntryForm (lit "n-fu3") (lit "Why maybe?") None None NoFile TEXT false
    [] [] None true (Some (lit "e1")) (Some [lit "n-c3"]) None None None.

Definition newChoiceWithFollowUp : SurveyChoiceForm :=
  mkChoiceForm (lit "n-c3") (Some (lit "C")) (lit "Maybe") None NoFile None
    None (Some true) (Some followUpOfNewChoice).

Definition mixedReference : FormState :=
  updateQuestion loadedSample 0 0 (appendChoice newChoiceWithFollowUp).

(** Whether every entry update and choice deletion has been awaited by
    the time a grid row creation is dispatched; [pending] tells that such
    a call is in flight. *)
Fixpoint awaitedBeforeCreates (pending : bool) (evs : list Event) : bool :=
  match evs with
  | [] => true
  | AwaitAll :: r => awaitedBeforeCreates false r
  | Dispatch c :: r =>
    if isCreateRow c
    then negb pending && awaitedBeforeCreates pending r
    else awaitedBeforeCreates (pending || isEntryUpdateOrChoiceDelete c) r
  end.

(** What the one message of a failed [validateForm] is made of: a check
    on the form or on a section, or a location prefix followed by the
    first error, and only the first, of an invalid entry. *)
Definition singleError (st : FormState) (err : jsstring) : Prop :=
  err = lit "Survey name is required"
  \/ err = lit "At least one section is required"
  \/ (exists i, err = lit "Section " ++ showNat (i + 1) ++ lit " title is required")
  \/ (exists s, In s (sections st)
                /\ err = lit "Section " ++ dquote ++ title s ++ dquote
                         ++ lit " must have at least one question")
  \/ (exists s e prefix,
         In s (sections st) /\ In e (checkedEntries s)
         /\ isValid (validateSurveyEntry e) = false
         /\ err = prefix ++ firstOf (errors (validateSurveyEntry e))).

(* ================================================================== *)
(** ** What the validators accept *)
(* ================================================================== *)

(** The choice has text, an image or an image file. *)
Definition choiceFilled (c : SurveyChoiceForm) : bool :=
  negb (blank (choiceText c)) || truthyStr (choiceImage c)
  || truthyFile (choiceImageFile c).

(** The follow-up names a parent and at least one trigger choice, by
    client or by server identifier. *)
Definition followUpConfigured (e : SurveyEntryForm) : bool :=
  (truthyStr (parentQuestionClientId e) || truthyStr (parentQuestionId e))
  && (negb (missingOrEmpty (triggerChoiceClientIds e))
      || negb (missingOrEmpty (triggerChoiceIds e))).

Definition entryAcceptable (e : SurveyEntryForm) : Prop :=
  blank (question e) = false
  /\ (questionType e = RADIO \/ questionType e = CHECKBOX ->
      2 <= length (choices e)
      /\ Forall (fun c => choiceFilled c = true) (choices e))
  /\ (questionType e = GRID ->
      2 <= length (choices e) /\ 2 <= length (gridRows e))
  /\ (isFollowUp e = true -> followUpConfigured e = true).

Definition formAcceptable (st : FormState) : Prop :=
  blank (surveyName st) = false
  /\ sections st <> []
  /\ forall s, In s (sections st) ->
       blank (title s) = false
       /\ entries s <> []
       /\ forall e, In e (checkedEntries s) ->
            isValid (validateSurveyEntry e) = true.

(** [entryAcceptable] as a test. *)
Definition acceptableb (e : SurveyEntryForm) : bool :=
  negb (blank (question e))
  && (if qtype_eqb (questionType e) RADIO || qtype_eqb (questionType e) CHECKBOX
      then negb (length (choices e) <? 2) && forallb choiceFilled (choices e)
      else true)
  && (if qtype_eqb (questionType e) GRID
      then negb (length (choices e) <? 2) && negb (length (gridRows e) <? 2)
      else true)
  && (if isFollowUp e then followUpConfigured e else true).

(** The legacy view of a form entry: its texts only. *)
Definition toLegacy (e : SurveyEntryForm) : LegacyEntry :=
  mkLegacyEntry (question e) (questionType e)
    (map choiceText (choices e)) (map rowText (gridRows e)).

(** A well-formed entry to try the statements on. *)
Definition filledQuestion : SurveyEntryForm :=
  entryToForm (followUpsOfSection sectionS1) mainE1.

(** What every flattened payload satisfies: each choice carries a
    non-empty order and each grid row a non-zero row number. *)
Definition payloadOrdered (p : EntryPayload) : Prop :=
  Forall (fun c => truthyStr (cp_choiceOrder c) = true) (ep_choices p)
  /\ Forall (fun r => rp_rowNumber r <> 0%Z) (ep_gridRows p).

(** What is sent for the choice [c] at position [k]: its own order, or
    the letter of its position when it has none. *)
Definition choiceSentAs (c : SurveyChoiceForm) (k : nat) (cp : ChoicePayload)
  : Prop :=
  cp_clientId cp = choice_clientId c
  /\ cp_choiceText cp = choiceText c
  /\ match choiceOrder c with
     | Some (x :: r) => cp_choiceOrder cp = Some (x :: r)
     | _ => cp_choiceOrder cp = Some (fromCharCode (65 + k))
     end.

(** What is sent for the grid row [r] at position [k]: its own row number,
    or its position plus one when the number is zero. *)
Definition rowSentAs (r : SurveyGridRowForm) (k : nat) (rp : GridRowPayload)
  : Prop :=
  rp_rowText rp = rowText r
  /\ (if (rowNumber r =? 0)%Z
      then rp_rowNumber rp = (Z.of_nat k + 1)%Z
      else rp_rowNumber rp = rowNumber r).

(** The payload [p] carries the choices and the grid rows of the entry
    [e], position by position. *)
Definition carries (e : SurveyEntryForm) (p : EntryPayload) : Prop :=
  ep_clientId p = entry_clientId e
  /\ length (ep_choices p) = length (choices e)
  /\ length (ep_gridRows p) = length (gridRows e)
  /\ (forall k c, nth_error (choices e) k = Some c ->
        exists cp, nth_error (ep_choices p) k = Some cp /\ choiceSentAs c k cp)
  /\ (forall k r, nth_error (gridRows e) k = Some r ->
        exists rp, nth_error (ep_gridRows p) k = Some rp /\ rowSentAs r k rp).

(** [e] is a question of the list, or the follow-up extracted from a
    choice of one. *)
Definition flattenedFrom (entries : list SurveyEntryForm) (e : SurveyEntryForm)
  : Prop :=
  In e entries
  \/ exists m c, In m entries /\ In c (choices m) /\ activeFollowUp c = Some e.

(** The payload of a loaded main question carries what the response
    entry had. *)
Definition payloadMatches (e : SurveyEntryResponse) (p : EntryPayload) : Prop :=
  ep_clientId p = er_id e
  /\ ep_question p = er_question e
  /\ ep_questionType p = er_questionType e
  /\ ep_isRequired p = er_isRequired e
  /\ ep_isFollowUp p = false
  /\ map cp_clientId (ep_choices p) = map cr_id (er_choices e)
  /\ map cp_choiceText (ep_choices p) = map cr_choiceText (er_choices e)
  /\ map rp_rowText (ep_gridRows p) = map rr_rowText (er_gridRows e).

(** The calls [handleSubmit] can send: the creation of the survey in
    create mode; updates, the bulk creation of sections and the creation
    of entries in edit mode; never a deletion, and never the creation of a
    choice or of a grid row. *)
Definition isSubmitCall (st : FormState) (c : ApiCall) : Prop :=
  match c with
  | CreateSurvey _ => isEditMode st = false
  | UpdateSection _ _ | UpdateEntry _ _ | UpdateChoice _ _
  | UpdateGridRow _ _ | AddSectionsBulk _ | AddEntry _ _ =>
    isEditMode st = true
  | AddChoice _ _ | AddGridRow _ _ | DeleteChoice _ | DeleteGridRow _ => False
  end.

(** Every call fails. *)
Definition allFail : nat -> bool := fun _ => false.

(** [loadedSample] with a question added to its section. *)
Definition withAddedQuestion : FormState :=
  match addQuestion loadedSample 0 (lit "u6") (lit "u7") (lit "u8") with
  | Some st => st
  | None => loadedSample
  end.

(** [loadedSample] after its persisted question was deleted on the server
    and removed from the working tree, and a question was added to the
    same section. *)
Definition deletedThenAdded : FormState :=
  match addQuestion (afterQuestionDeleted loadedSample loadedSample 0 0) 0
                    (lit "u6") (lit "u7") (lit "u8") with
  | Some st => st
  | None => loadedSample
  end.

(** The calls whose failure [handleSaveCurrentQuestion] swallows. *)
Definition isDeleteCall (c : ApiCall) : bool :=
  match c with DeleteChoice _ | DeleteGridRow _ => true | _ => false end.

Definition isEntryCreate (c : ApiCall) : bool :=
  match c with AddEntry _ _ => true | _ => false end.

(** In the save of [typeChanged] the second and third calls are the two
    choice deletions: they fail, every other call succeeds. *)
Definition deletionsFail : nat -> bool :=
  fun i => negb ((i =? 1) || (i =? 2)).

(** Every choice and grid row of the entry has a server id of its own,
    and so has every follow-up embedded in its choices. *)
Definition fullyPersisted (e : SurveyEntryForm) : Prop :=
  Forall (fun c => truthyStr (choice_id c) = true) (choices e)
  /\ NoDup (map choice_id (choices e))
  /\ Forall (fun r => truthyStr (row_id r) = true) (gridRows e)
  /\ NoDup (map row_id (gridRows e))
  /\ Forall (fun c => forall f, activeFollowUp c = Some f ->
                                truthyStr (entry_id f) = true) (choices e).

(** The sample question with a third choice typed in and not yet on the
    server. *)
Definition unsavedChoice : SurveyChoiceForm :=
  mkChoiceForm (lit "u-new") (Some (lit "C")) (lit "Maybe") None NoFile None
    None (Some false) None.

Definition withUnsavedChoice : FormState :=
  updateQuestion loadedSample 0 0 (appendChoice unsavedChoice).

(** Every follow-up embedded in a choice of [e] is flagged as one and
    refers to [e] and to that choice by their client ids. *)
Definition wellLinked (e : SurveyEntryForm) : Prop :=
  forall c f, In c (choices e) -> followUpQuestion c = Some f ->
    isFollowUp f = true
    /\ parentQuestionClientId f = Some (entry_clientId e)
    /\ triggerChoiceClientIds f = Some [choice_clientId c].

(** Whether the choice at [index] has a server id. *)
Definition persistedChoiceAt (q : SurveyEntryForm) (index : nat) : bool :=
  match nth_error (choices q) index with
  | Some c => truthyStr (choice_id c)
  | None => false
  end.

(* ================================================================== *)
(** * Properties *)
(* ================================================================== *)

Unset Implicit Arguments.

(** ** Strict equality is reflexive on the modelled values *)

Lemma str_eqb_refl (a : jsstring) : str_eqb a a = true.
Proof. unfold str_eqb. destruct (jsstring_eq_dec a a); congruence. Qed.

Lemma str_eqb_eq (a b : jsstring) : str_eqb a b = true <-> a = b.
Proof.
  unfold str_eqb. destruct (jsstring_eq_dec a b); split; congruence.
Qed.

Lemma ostr_eqb_refl (a : option jsstring) : ostr_eqb a a = true.
Proof. destruct a; simpl; auto using str_eqb_refl. Qed.

Lemma obool_eqb_refl (a : option bool) : obool_eqb a a = true.
Proof. destruct a as [[|]|]; reflexivity. Qed.

Lemma qtype_eqb_refl (t : SurveyQuestionType) : qtype_eqb t t = true.
Proof. destruct t; reflexivity. Qed.

Lemma instanceofFile_json (x : FileSlot) : instanceofFile (jsonFile x) = false.
Proof. destruct x; reflexivity. Qed.

Create Rewrite HintDb js_refl.
#[local] Hint Rewrite str_eqb_refl ostr_eqb_refl obool_eqb_refl qtype_eqb_refl
  Bool.eqb_reflx Z.eqb_refl : js_refl.

(** ** The detectors against the same node and against its JSON copy *)

Lemma hasEntryChanged_same (e : SurveyEntryForm) :
  hasEntryChanged e e = instanceofFile (questionImageFile e).
Proof.
  unfold hasEntryChanged. autorewrite with js_refl. simpl.
  destruct (instanceofFile (questionImageFile e)); reflexivity.
Qed.

Lemma hasChoiceChanged_same (c : SurveyChoiceForm) :
  hasChoiceChanged c c = instanceofFile (choiceImageFile c).
Proof.
  unfold hasChoiceChanged. autorewrite with js_refl. simpl.
  destruct (instanceofFile (choiceImageFile c)); reflexivity.
Qed.

Lemma hasGridRowChanged_same (r : SurveyGridRowForm) :
  hasGridRowChanged r r = instanceofFile (rowImageFile r).
Proof.
  unfold hasGridRowChanged. autorewrite with js_refl. simpl.
  destruct (instanceofFile (rowImageFile r)); reflexivity.
Qed.

Lemma jsonEntry_choices (e : SurveyEntryForm) :
  choices (jsonEntry e) = map jsonChoice (choices e).
Proof.
  destruct e; simpl. apply map_ext. intros [? ? ? ? ? ? ? ? ?]. reflexivity.
Qed.

Lemma jsonEntry_gridRows (e : SurveyEntryForm) :
  gridRows (jsonEntry e) = map jsonRow (gridRows e).
Proof. destruct e; reflexivity. Qed.

Lemma hasEntryChanged_json (e : SurveyEntryForm) :
  hasEntryChanged e (jsonEntry e) = instanceofFile (questionImageFile e).
Proof.
  rewrite <- hasEntryChanged_same. destruct e; reflexivity.
Qed.

Lemma hasChoiceChanged_json (c : SurveyChoiceForm) :
  hasChoiceChanged c (jsonChoice c) = instanceofFile (choiceImageFile c).
Proof. rewrite <- hasChoiceChanged_same. reflexivity. Qed.

Lemma hasGridRowChanged_json (r : SurveyGridRowForm) :
  hasGridRowChanged r (jsonRow r) = instanceofFile (rowImageFile r).
Proof. rewrite <- hasGridRowChanged_same. reflexivity. Qed.

Lemma hasSectionChanged_json (s : SurveySectionForm) :
  hasSectionChanged s (jsonSection s) = false.
Proof.
  unfold hasSectionChanged. simpl. now autorewrite with js_refl.
Qed.

(** C2, as stated, fails: an entry that holds a freshly attached file is
    reported as changed against itself. *)
Lemma C2_counterexample_file_attached :
  instanceofFile (questionImageFile entryWithFile) = true
  /\ hasEntryChanged entryWithFile entryWithFile = true.
Proof. split; reflexivity. Qed.

(** C2 (amended): [hasEntryChanged E E] is [false] for every entry whose
    [questionImageFile] is not a [File], and [true] for every entry whose
    [questionImageFile] is a [File]: it returns exactly
    [E.questionImageFile instanceof File]. *)
Theorem C2_hasEntryChanged_reflexive_up_to_file :
  forall E : SurveyEntryForm,
    hasEntryChanged E E = instanceofFile (questionImageFile E).
Proof. exact hasEntryChanged_same. Qed.

(** ** flattenEntriesForPayload *)

Lemma numberFrom_app (n : Z) (a b : list EntryPayload) :
  numberFrom n (a ++ b)
  = numberFrom n a ++ numberFrom (n + Z.of_nat (length a)) b.
Proof.
  revert n. induction a as [|p a IH]; intros n.
  - simpl. now rewrite Z.add_0_r.
  - cbn [app numberFrom length]. rewrite IH. do 3 f_equal. lia.
Qed.

Lemma numberFrom_length (n : Z) (l : list EntryPayload) :
  length (numberFrom n l) = length l.
Proof. revert n. induction l; simpl; auto. Qed.

Lemma numberFrom_numbers (n : Z) (l : list EntryPayload) :
  map ep_questionNumber (numberFrom n l)
  = map (fun i => Some (n + Z.of_nat i)%Z) (seq 0 (length l)).
Proof.
  revert n. induction l as [|p l IH]; intros n; simpl.
  - reflexivity.
  - rewrite Z.add_0_r. f_equal. rewrite IH, <- seq_shift, map_map.
    apply map_ext. intros i. f_equal. lia.
Qed.

Lemma flattenChoices_fold (entry : SurveyEntryForm) :
  forall (cs : list SurveyChoiceForm) (acc : list EntryPayload) (n : Z),
    let fus := flat_map (fun c => match activeFollowUp c with
                                  | Some followUp => [flatFollowUp entry c followUp 0]
                                  | None => []
                                  end) cs in
    fold_left (flattenChoiceStep entry) cs (acc, n)
    = (acc ++ numberFrom n fus, (n + Z.of_nat (length fus))%Z).
Proof.
  induction cs as [|c cs IH]; intros acc n; cbn zeta.
  - simpl. now rewrite app_nil_r, Z.add_0_r.
  - cbn [fold_left flat_map]. unfold flattenChoiceStep at 2.
    destruct (activeFollowUp c) as [fu|]; cbn [fst snd app].
    + rewrite IH. cbn zeta. cbn [numberFrom length].
      rewrite <- app_assoc. f_equal. lia.
    + apply IH.
Qed.

Lemma flattenEntryStep_block (e : SurveyEntryForm) (acc : list EntryPayload) (n : Z) :
  flattenEntryStep (acc, n) e
  = (acc ++ numberFrom n (block e), (n + Z.of_nat (length (block e)))%Z).
Proof.
  unfold flattenEntryStep. cbn [fst snd]. rewrite flattenChoices_fold.
  cbn zeta. fold (followUpsOf e). unfold block. cbn [numberFrom length].
  rewrite <- app_assoc. cbn [app]. f_equal. lia.
Qed.

Lemma flattenEntries_fold :
  forall (es : list SurveyEntryForm) (acc : list EntryPayload) (n : Z),
    fold_left flattenEntryStep es (acc, n)
    = (acc ++ numberFrom n (flat_map block es),
       (n + Z.of_nat (length (flat_map block es)))%Z).
Proof.
  induction es as [|e es IH]; intros acc n.
  - simpl. now rewrite app_nil_r, Z.add_0_r.
  - cbn [fold_left flat_map]. rewrite flattenEntryStep_block, IH.
    rewrite numberFrom_app, length_app, <- app_assoc. f_equal. lia.
Qed.

Lemma followUpsOf_spec (entry : SurveyEntryForm) :
  Forall (isFollowUpOf entry) (followUpsOf entry).
Proof.
  unfold followUpsOf. apply Forall_forall. intros p Hp.
  apply in_flat_map in Hp. destruct Hp as [c [Hc Hp]].
  destruct (activeFollowUp c) as [fu|] eqn:Hact; [|contradiction].
  destruct Hp as [<-|[]]. exists c, fu. repeat split; auto.
Qed.

Lemma in_numberFrom (l : list EntryPayload) (p : EntryPayload) :
  forall n, In p (numberFrom n l) -> exists q k, In q l /\ p = setNumber k q.
Proof.
  induction l as [|x l IH]; intros n H; [contradiction|].
  destruct H as [<-|H].
  - exists x, n. split; [now left|reflexivity].
  - apply IH in H. destruct H as (q & k & Hq & ->).
    exists q, k. split; [now right|reflexivity].
Qed.

(** C10: [flattenEntriesForPayload] emits, for each entry in order, the
    main question (isFollowUp false) immediately followed by the
    follow-ups extracted from its choices; the question numbers of the
    whole output are 1, 2, ..., N; and every extracted follow-up has
    isFollowUp true, its parent's clientId as parentQuestionClientId and
    the one owning choice's clientId as triggerChoiceClientIds. *)
Theorem C10_flatten_order_and_numbering :
  forall entries : list SurveyEntryForm,
    flattenEntriesForPayload entries = numberFrom 1 (flat_map block entries)
    /\ map ep_questionNumber (flattenEntriesForPayload entries)
       = map (fun i => Some (Z.of_nat (S i)))
             (seq 0 (length (flattenEntriesForPayload entries)))
    /\ Forall (fun e => isMainOf e (flatMain e 0)
                        /\ Forall (isFollowUpOf e) (followUpsOf e))
              entries
    /\ Forall (fun p => exists e, In e entries
                                  /\ (isMainOf e p \/ isFollowUpOf e p))
              (flattenEntriesForPayload entries).
Proof.
  intros entries.
  assert (H : flattenEntriesForPayload entries
              = numberFrom 1 (flat_map block entries)).
  { unfold flattenEntriesForPayload. now rewrite flattenEntries_fold. }
  split; [exact H|]. split; [|split].
  - rewrite H, numberFrom_length, numberFrom_numbers.
    apply map_ext. intros i. f_equal. lia.
  - apply Forall_forall. intros e _. split; [repeat split|].
    apply followUpsOf_spec.
  - rewrite H. apply Forall_forall. intros p Hp.
    apply in_numberFrom in Hp. destruct Hp as (q & k & Hq & ->).
    apply in_flat_map in Hq. destruct Hq as [e [He Hq]].
    exists e. split; [exact He|].
    destruct Hq as [<-|Hq].
    + left. repeat split.
    + right.
      pose proof (followUpsOf_spec e) as Hall.
      rewrite Forall_forall in Hall. apply Hall in Hq.
      destruct Hq as (c & fu & Hc & Hact & H1 & H2 & H3 & H4).
      exists c, fu. repeat split; auto.
Qed.

(** ** transformResponseToForm *)

Lemma filter_head_find {A} (p : A -> bool) (l : list A) :
  match filter p l with x :: _ => Some x | [] => None end = find p l.
Proof.
  induction l as [|a l IH]; simpl; auto. destruct (p a); auto.
Qed.

Lemma choiceToForm_followUp (fus : list SurveyEntryResponse)
      (entryId : jsstring) (c : SurveyChoiceResponse) :
  followUpQuestion (choiceToForm fus entryId c)
  = option_map (followUpToForm entryId (cr_id c))
               (find (isRelevantFollowUp entryId (cr_id c)) fus).
Proof.
  unfold choiceToForm. cbn [followUpQuestion].
  rewrite <- filter_head_find.
  destruct (filter (isRelevantFollowUp entryId (cr_id c)) fus); reflexivity.
Qed.

Lemma choiceToForm_hasFollowUp (fus : list SurveyEntryResponse)
      (entryId : jsstring) (c : SurveyChoiceResponse) :
  hasFollowUp (choiceToForm fus entryId c)
  = Some (match find (isRelevantFollowUp entryId (cr_id c)) fus with
          | Some _ => true
          | None => false
          end).
Proof.
  unfold choiceToForm. cbn [hasFollowUp].
  rewrite <- filter_head_find.
  destruct (filter (isRelevantFollowUp entryId (cr_id c)) fus); reflexivity.
Qed.

Lemma nested_in_transform (resp : SurveyDetailResponse) (f : SurveyEntryForm) :
  In f (nestedFollowUps (transformResponseToForm resp)) ->
  exists sec e c g,
    In sec (dr_sections resp) /\ In e (sr_entries sec)
    /\ er_isFollowUp e = false /\ In c (er_choices e)
    /\ firstMatch sec e c g
    /\ f = followUpToForm (er_id e) (cr_id c) g.
Proof.
  unfold nestedFollowUps, transformResponseToForm. intros H.
  apply in_flat_map in H. destruct H as [s [Hs H]].
  apply in_map_iff in Hs. destruct Hs as [sec [<- Hsec]].
  apply in_flat_map in H. destruct H as [t [Ht H]].
  cbn [sectionToForm entries] in Ht.
  apply in_map_iff in Ht. destruct Ht as [e [<- He]].
  apply filter_In in He. destruct He as [He Hmain].
  unfold nestedFollowUpsOfEntry in H. cbn [entryToForm choices] in H.
  apply in_flat_map in H. destruct H as [fc [Hfc H]].
  apply in_map_iff in Hfc. destruct Hfc as [c [<- Hc]].
  rewrite choiceToForm_followUp in H.
  destruct (find _ _) as [g|] eqn:Hfind; cbn in H; [|contradiction].
  destruct H as [<-|[]].
  exists sec, e, c, g. repeat split; auto.
  now apply negb_true_iff.
Qed.

Lemma topLevel_in_transform (resp : SurveyDetailResponse) (t : SurveyEntryForm) :
  In t (topLevelEntries (transformResponseToForm resp)) ->
  exists sec e,
    In sec (dr_sections resp) /\ In e (sr_entries sec)
    /\ er_isFollowUp e = false
    /\ t = entryToForm (followUpsOfSection sec) e.
Proof.
  unfold topLevelEntries, transformResponseToForm. intros H.
  apply in_flat_map in H. destruct H as [s [Hs H]].
  apply in_map_iff in Hs. destruct Hs as [sec [<- Hsec]].
  cbn [sectionToForm entries] in H.
  apply in_map_iff in H. destruct H as [e [<- He]].
  apply filter_In in He. destruct He as [He Hmain].
  exists sec, e. repeat split; auto. now apply negb_true_iff.
Qed.

(** C8, as stated, fails: [followUp1] and [followUp2] name the same parent
    and both list the choice c1; [followUp1] is nested under c1, and the
    remaining one, [followUp2], is still in the rebuilt tree, nested under
    the choice c2 whose first match it is. *)
Lemma C8_counterexample_remaining_follow_up_kept :
  isRelevantFollowUp (er_id mainE1) (cr_id choiceC1) followUp1 = true
  /\ isRelevantFollowUp (er_id mainE1) (cr_id choiceC1) followUp2 = true
  /\ firstMatch sectionS1 mainE1 choiceC1 followUp1
  /\ In (followUpToForm (er_id mainE1) (cr_id choiceC2) followUp2)
        (nestedFollowUps (transformResponseToForm sampleResponse))
  /\ exists f, In f (nestedFollowUps (transformResponseToForm sampleResponse))
               /\ entry_id f = Some (er_id followUp2).
Proof.
  split; [reflexivity|]. split; [reflexivity|]. split; [reflexivity|].
  split.
  - vm_compute. right. left. reflexivity.
  - exists (followUpToForm (er_id mainE1) (cr_id choiceC2) followUp2).
    split; [vm_compute; right; left; reflexivity | reflexivity].
Qed.

(** C8 (amended): when [fu] is the first follow-up, in the order of the
    section's flat list, that names the main entry [e] as parent and has
    the choice [c] among its triggers, the rebuilt tree nests [fu], and
    nothing else, under [c].  Every follow-up nested anywhere in the
    rebuilt tree is the first match of the choice it sits under, and every
    top-level entry comes from an entry that is not a follow-up: a
    remaining follow-up appears only under another choice whose first
    match it is, and otherwise nowhere. *)
Theorem C8_first_match_nesting :
  forall (resp : SurveyDetailResponse) (sec : SurveySectionResponse)
         (e : SurveyEntryResponse) (c : SurveyChoiceResponse)
         (fu : SurveyEntryResponse),
    In sec (dr_sections resp) ->
    In e (sr_entries sec) -> er_isFollowUp e = false ->
    In c (er_choices e) ->
    firstMatch sec e c fu ->
    let formEntry := entryToForm (followUpsOfSection sec) e in
    let formChoice := choiceToForm (followUpsOfSection sec) (er_id e) c in
    In (sectionToForm sec) (transformResponseToForm resp)
    /\ In formEntry (entries (sectionToForm sec))
    /\ In formChoice (choices formEntry)
    /\ hasFollowUp formChoice = Some true
    /\ followUpQuestion formChoice
       = Some (followUpToForm (er_id e) (cr_id c) fu)
    /\ (forall f, In f (nestedFollowUps (transformResponseToForm resp)) ->
          exists sec' e' c' g,
            In sec' (dr_sections resp) /\ In e' (sr_entries sec')
            /\ er_isFollowUp e' = false /\ In c' (er_choices e')
            /\ firstMatch sec' e' c' g
            /\ f = followUpToForm (er_id e') (cr_id c') g)
    /\ (forall t, In t (topLevelEntries (transformResponseToForm resp)) ->
          exists sec' e',
            In sec' (dr_sections resp) /\ In e' (sr_entries sec')
            /\ er_isFollowUp e' = false
            /\ t = entryToForm (followUpsOfSection sec') e').
Proof.
  intros resp sec e c fu Hsec He Hmain Hc Hfirst formEntry formChoice.
  split; [apply in_map; exact Hsec|].
  split.
  { cbn [sectionToForm entries]. apply in_map. apply filter_In. split; auto.
    rewrite Hmain. reflexivity. }
  split; [cbn [entryToForm choices]; apply in_map; exact Hc|].
  unfold firstMatch in Hfirst.
  split.
  { unfold formChoice. rewrite choiceToForm_hasFollowUp. fold (followUpsOfSection sec).
    now rewrite Hfirst. }
  split.
  { unfold formChoice. rewrite choiceToForm_followUp. now rewrite Hfirst. }
  split.
  - apply nested_in_transform.
  - apply topLevel_in_transform.
Qed.

Lemma C8_first_match_nesting_witness :
  followUpQuestion
    (choiceToForm (followUpsOfSection sectionS1) (er_id mainE1) choiceC1)
  = Some (followUpToForm (er_id mainE1) (cr_id choiceC1) followUp1).
Proof.
  refine (proj1 (proj2 (proj2 (proj2 (proj2
    (C8_first_match_nesting sampleResponse sectionS1 mainE1 choiceC1 followUp1
       _ _ _ _ _)))))).
  - simpl. left. reflexivity.
  - simpl. left. reflexivity.
  - reflexivity.
  - simpl. left. reflexivity.
  - reflexivity.
Defined.

(** ** The validation gate *)

Lemma handleSubmit_invalid (st : FormState) (succeeds : nat -> bool)
      (err : jsstring) :
  validateForm st = Some err ->
  handleSubmit st succeeds = mkSubmitResult [] [(TError, err)] false st.
Proof. intros H. unfold handleSubmit. now rewrite H. Qed.

Lemma firstError_some {A} (body : A -> nat -> option jsstring)
      (l : list A) (x : A) :
  In x l -> (forall i, body x i <> None) ->
  forall i, firstError i body l <> None.
Proof.
  intros Hin Hx. induction l as [|a l IH]; intros i; [contradiction|].
  simpl. destruct (body a i) eqn:Ha; [discriminate|].
  destruct Hin as [->|Hin]; [now apply Hx in Ha|]. now apply IH.
Qed.

Lemma validateChoiceFollowUp_some (c : SurveyChoiceForm) (f : SurveyEntryForm) :
  activeFollowUp c = Some f ->
  isValid (validateSurveyEntry f) = false ->
  forall i, validateChoiceFollowUp c i <> None.
Proof.
  intros Hc Hf i. unfold validateChoiceFollowUp. rewrite Hc, Hf. discriminate.
Qed.

Lemma validateQuestion_some (s : SurveySectionForm) (q e : SurveyEntryForm) :
  In e (q :: flat_map (fun c => match activeFollowUp c with
                                | Some f => [f]
                                | None => []
                                end) (choices q)) ->
  isValid (validateSurveyEntry e) = false ->
  forall i, validateQuestion s q i <> None.
Proof.
  intros Hin He i. unfold validateQuestion.
  destruct (isValid (validateSurveyEntry q)) eqn:Hq; [|discriminate].
  cbn [negb]. destruct Hin as [->|Hin]; [congruence|].
  apply in_flat_map in Hin. destruct Hin as [c [Hc Hin]].
  destruct (activeFollowUp c) as [f|] eqn:Hact; [|contradiction].
  destruct Hin as [->|[]].
  apply firstError_some with (x := c); auto.
  now apply validateChoiceFollowUp_some with (f := e).
Qed.

Lemma validateSection_some (s : SurveySectionForm) (e : SurveyEntryForm) :
  In e (checkedEntries s) ->
  isValid (validateSurveyEntry e) = false ->
  forall i, validateSection s i <> None.
Proof.
  intros Hin He i. unfold validateSection.
  destruct (blank (title s)); [discriminate|].
  destruct (length (entries s) =? 0); [discriminate|].
  unfold checkedEntries in Hin. apply in_flat_map in Hin.
  destruct Hin as [q [Hq Hin]].
  apply firstError_some with (x := q); auto.
  now apply validateQuestion_some with (e := e).
Qed.

Lemma validateForm_some (st : FormState) (s : SurveySectionForm)
      (e : SurveyEntryForm) :
  In s (sections st) -> In e (checkedEntries s) ->
  isValid (validateSurveyEntry e) = false ->
  validateForm st <> None.
Proof.
  intros Hs He Hbad. unfold validateForm.
  destruct (blank (surveyName st)); [discriminate|].
  destruct (length (sections st) =? 0); [discriminate|].
  apply firstError_some with (x := s); auto.
  now apply validateSection_some with (e := e).
Qed.

Lemma firstError_inv {A} (body : A -> nat -> option jsstring) (l : list A)
      (err : jsstring) :
  forall i, firstError i body l = Some err ->
            exists x k, In x l /\ body x k = Some err.
Proof.
  induction l as [|a l IH]; intros i H; [discriminate|].
  cbn [firstError] in H. destruct (body a i) as [e|] eqn:Ha.
  - injection H as <-. exists a, i. split; [now left|exact Ha].
  - apply IH in H. destruct H as (x & k & Hx & Hb).
    exists x, k. split; [now right|exact Hb].
Qed.

Lemma validateForm_single (st : FormState) (err : jsstring) :
  validateForm st = Some err -> singleError st err.
Proof.
  unfold validateForm, singleError. intros H.
  destruct (blank (surveyName st)); [injection H as <-; now left|].
  destruct (length (sections st) =? 0); [injection H as <-; right; now left|].
  apply firstError_inv in H. destruct H as (s & i & Hs & H).
  unfold validateSection in H.
  destruct (blank (title s)).
  { injection H as <-. right. right. left. now exists i. }
  destruct (length (entries s) =? 0).
  { injection H as <-. right. right. right. left. now exists s. }
  apply firstError_inv in H. destruct H as (q & k & Hq & H).
  right. right. right. right.
  unfold validateQuestion in H.
  destruct (isValid (validateSurveyEntry q)) eqn:Hvalid; cbn [negb] in H.
  - apply firstError_inv in H. destruct H as (c & j & Hc & H).
    unfold validateChoiceFollowUp in H.
    destruct (activeFollowUp c) as [f|] eqn:Hact; [|discriminate].
    destruct (isValid (validateSurveyEntry f)) eqn:Hf; [discriminate|].
    cbn [negb] in H. injection H as <-.
    exists s, f, (lit "Follow-up question for " ++ dquote ++ choiceText c
                  ++ dquote ++ lit ": ").
    split; [exact Hs|]. split.
    { unfold checkedEntries. apply in_flat_map. exists q. split; [exact Hq|].
      right. apply in_flat_map. exists c. split; [exact Hc|].
      rewrite Hact. now left. }
    split; [exact Hf|]. now rewrite <- !app_assoc.
  - injection H as <-.
    exists s, q, (lit "Section " ++ dquote ++ title s ++ dquote
                  ++ lit ", Question " ++ showNat (k + 1) ++ lit ": ").
    split; [exact Hs|]. split.
    { unfold checkedEntries. apply in_flat_map. exists q. split; [exact Hq|].
      now left. }
    split; [exact Hvalid|]. now rewrite <- !app_assoc.
Qed.

(** C7, as stated, fails: [badEntry] breaks two rules, and the save
    surfaces one message only, the first error of that entry. *)
Lemma C7_counterexample_only_first_error :
  errors (validateSurveyEntry badEntry)
  = [lit "Question text is required"; lit "At least 2 choices are required"]
  /\ In badEntry (flat_map entries (sections withBadEntry))
  /\ toasts (handleSubmit withBadEntry allSucceed)
     = [(TError, lit "Section " ++ dquote ++ lit "Attendance" ++ dquote
                 ++ lit ", Question 1: Question text is required")].
Proof.
  split; [reflexivity|]. split; [vm_compute; left; reflexivity|].
  vm_compute. reflexivity.
Qed.

(** C7 (amended): when an entry the form validates (a question, or the
    follow-up embedded in one of its choices) fails structural validation,
    the save dispatches no API call and changes nothing, and it surfaces
    exactly one error message: the one of the first failing check of
    [validateForm], which carries only the first error of the entry it
    stopped at. *)
Theorem C7_validation_gate :
  forall (st : FormState) (succeeds : nat -> bool)
         (s : SurveySectionForm) (e : SurveyEntryForm),
    In s (sections st) -> In e (checkedEntries s) ->
    isValid (validateSurveyEntry e) = false ->
    exists err,
      validateForm st = Some err
      /\ singleError st err
      /\ handleSubmit st succeeds = mkSubmitResult [] [(TError, err)] false st.
Proof.
  intros st succeeds s e Hs He Hbad.
  destruct (validateForm st) as [err|] eqn:Hv.
  - exists err. split; [reflexivity|].
    split; [now apply validateForm_single|]. now apply handleSubmit_invalid.
  - exfalso. now apply (validateForm_some st s e Hs He Hbad).
Qed.

Lemma C7_validation_gate_witness :
  exists err,
    validateForm withBadEntry = Some err
    /\ singleError withBadEntry err
    /\ handleSubmit withBadEntry allSucceed
       = mkSubmitResult [] [(TError, err)] false withBadEntry.
Proof.
  apply (C7_validation_gate withBadEntry allSucceed
           (nth 0 (sections withBadEntry) (mkSectionForm [] None None [] None))
           badEntry).
  - vm_compute. left. reflexivity.
  - vm_compute. left. reflexivity.
  - reflexivity.
Defined.

(** ** Saving a tree that is in step with its snapshot *)

Lemma detectSections_json (l : list SurveySectionForm) :
  forall i, detectSections i l (jsonSections l) = [].
Proof.
  induction l as [|s l IH]; intros i; [reflexivity|].
  cbn [jsonSections map detectSections]. rewrite hasSectionChanged_json.
  fold (jsonSections l). rewrite IH.
  destruct (idOf (section_id s)); reflexivity.
Qed.

Lemma detectChoices_json (cs : list SurveyChoiceForm) :
  forallb (fun c => negb (instanceofFile (choiceImageFile c))) cs = true ->
  forall i, detectChoices i cs (map jsonChoice cs) = [].
Proof.
  induction cs as [|c cs IH]; intros H i; [reflexivity|].
  cbn [forallb] in H. apply andb_true_iff in H. destruct H as [Hc Hcs].
  cbn [map detectChoices]. rewrite hasChoiceChanged_json.
  apply negb_true_iff in Hc. rewrite Hc, IH by assumption.
  destruct (idOf (choice_id c)); reflexivity.
Qed.

Lemma detectGridRows_json (rs : list SurveyGridRowForm) :
  forallb (fun r => negb (instanceofFile (rowImageFile r))) rs = true ->
  forall i, detectGridRows i rs (map jsonRow rs) = [].
Proof.
  induction rs as [|r rs IH]; intros H i; [reflexivity|].
  cbn [forallb] in H. apply andb_true_iff in H. destruct H as [Hr Hrs].
  cbn [map detectGridRows]. rewrite hasGridRowChanged_json.
  apply negb_true_iff in Hr. rewrite Hr, IH by assumption.
  destruct (idOf (row_id r)); reflexivity.
Qed.

Lemma detectEntry_json (e : SurveyEntryForm) :
  entryClean e = true -> detectEntry e (jsonEntry e) = [].
Proof.
  unfold entryClean. intros H.
  apply andb_true_iff in H. destruct H as [H Hrows].
  apply andb_true_iff in H. destruct H as [Hfile Hchoices].
  apply negb_true_iff in Hfile.
  unfold detectEntry.
  rewrite hasEntryChanged_json, Hfile, jsonEntry_choices, jsonEntry_gridRows.
  rewrite detectChoices_json, detectGridRows_json by assumption.
  destruct (idOf (entry_id e)); [|reflexivity].
  destruct (qtype_eqb (questionType e) GRID); reflexivity.
Qed.

Lemma detectEntries_json (es : list SurveyEntryForm) :
  forallb entryClean es = true ->
  detectEntries es (map jsonEntry es) = [].
Proof.
  induction es as [|e es IH]; intros H; [reflexivity|].
  cbn [forallb] in H. apply andb_true_iff in H. destruct H as [He Hes].
  cbn [map detectEntries]. now rewrite detectEntry_json, IH.
Qed.

Lemma detectQuestions_json (l : list SurveySectionForm) :
  noPendingUploads l = true ->
  detectQuestions l (jsonSections l) = [].
Proof.
  unfold noPendingUploads.
  induction l as [|s l IH]; intros H; [reflexivity|].
  cbn [forallb] in H. apply andb_true_iff in H. destruct H as [Hs Hl].
  cbn [jsonSections map detectQuestions jsonSection entries].
  fold (jsonSections l). now rewrite detectEntries_json, IH.
Qed.

Lemma addNewEntries_counted (secs pre : list SurveySectionForm) :
  addNewEntries (length pre)
                (map (fun s => length (entries s)) (pre ++ secs)) secs = [].
Proof.
  revert pre. induction secs as [|s secs IH]; intros pre; [reflexivity|].
  cbn [addNewEntries].
  replace (nth (length pre) (map (fun s0 => length (entries s0)) (pre ++ s :: secs)) 0)
    with (length (entries s)).
  - rewrite Nat.ltb_irrefl. cbn [andb app].
    specialize (IH (pre ++ [s])).
    rewrite length_app, <- app_assoc in IH. cbn [length app] in IH.
    rewrite Nat.add_1_r in IH. exact IH.
  - rewrite map_app, app_nth2; rewrite length_map; [|lia].
    now rewrite Nat.sub_diag.
Qed.

Lemma planEdit_synced (st : FormState) :
  synced st -> noPendingUploads (sections st) = true -> planEdit st = [].
Proof.
  intros (Hsnap & Hcount & Hcounts) Hclean.
  unfold planEdit, addNewSections.
  rewrite Hsnap, Hcount, Hcounts.
  rewrite detectSections_json, detectQuestions_json by assumption.
  rewrite skipn_all, firstn_all. cbn [map app length Nat.ltb Nat.leb].
  change (addNewEntries 0 (map (fun s => length (entries s)) (sections st)) (sections st))
    with (addNewEntries (length (@nil SurveySectionForm))
            (map (fun s => length (entries s)) ([] ++ sections st)) (sections st)).
  now rewrite addNewEntries_counted.
Qed.

Lemma handleSubmit_nothing_planned (st : FormState) (succeeds : nat -> bool) :
  isEditMode st = true -> validateForm st = None -> planEdit st = [] ->
  handleSubmit st succeeds
  = mkSubmitResult [] [(TMessage, lit "No changes to save")] false st.
Proof.
  intros Hedit Hvalid Hplan. unfold handleSubmit.
  now rewrite Hvalid, Hedit, Hplan.
Qed.

Lemma commitSnapshot_synced (st : FormState) : synced (commitSnapshot st).
Proof. repeat split. Qed.

(** ** Loading *)

Lemma rowToForm_clean (r : SurveyGridRowResponse) :
  instanceofFile (rowImageFile (rowToForm r)) = false.
Proof. reflexivity. Qed.

Lemma entryToForm_clean (fus : list SurveyEntryResponse) (e : SurveyEntryResponse) :
  entryClean (entryToForm fus e) = true.
Proof.
  unfold entryClean. cbn [entryToForm questionImageFile choices gridRows
                          instanceofFile negb andb].
  apply andb_true_iff. rewrite !forallb_forall. split.
  - intros c Hc. apply in_map_iff in Hc. destruct Hc as [x [<- _]]. reflexivity.
  - intros r Hr. apply in_map_iff in Hr. destruct Hr as [x [<- _]]. reflexivity.
Qed.

Lemma transform_clean (resp : SurveyDetailResponse) :
  noPendingUploads (transformResponseToForm resp) = true.
Proof.
  unfold noPendingUploads, transformResponseToForm.
  apply forallb_forall. intros s Hs.
  apply in_map_iff in Hs. destruct Hs as [sec [<- _]].
  cbn [sectionToForm entries]. apply forallb_forall. intros t Ht.
  apply in_map_iff in Ht. destruct Ht as [e [<- _]].
  apply entryToForm_clean.
Qed.

Lemma loadSurvey_plain (st0 : FormState) (loaded : list SurveySectionForm)
      (focus : option FocusSection) (u0 u1 u2 : jsstring) :
  isEditMode st0 = true -> sectionsLoaded st0 = false ->
  focusAddsNothing focus loaded = true ->
  let st := loadSurvey st0 loaded focus u0 u1 u2 in
  sections st = loaded /\ synced st /\ isEditMode st = true
  /\ surveyName st = surveyName st0.
Proof.
  intros Hedit Hloaded Hfocus. unfold loadSurvey. rewrite Hedit, Hloaded.
  cbn [andb negb].
  destruct focus as [[sid act]|]; [|repeat split; auto].
  destruct act;
    cbn [focusAddsNothing focus_action focus_sectionId] in Hfocus |- *;
    try discriminate;
    destruct (truthyStr sid);
    try destruct (findSectionIndex 0 sid loaded);
    try discriminate;
    repeat match goal with
           | |- context [if ?b then _ else _] => destruct b
           end;
    repeat split; auto.
Qed.

(** ** Round trip and repeated saves *)

Lemma handleSubmit_calls_planned (st : FormState) (succeeds : nat -> bool) :
  isEditMode st = true -> validateForm st = None ->
  calls (handleSubmit st succeeds) = map fst (planEdit st).
Proof.
  intros Hedit Hvalid. unfold handleSubmit. rewrite Hvalid, Hedit. cbn [negb].
  destruct (tally 0 succeeds (planEdit st)) as [s f].
  destruct (allResolve (map fst (planEdit st))); [|reflexivity]. cbn [negb].
  destruct (totalChanges (planEdit st) =? 0); [reflexivity|].
  destruct (f =? 0); [reflexivity|].
  destruct (0 <? s); reflexivity.
Qed.

(** C1, as stated, fails: a server tree whose section has no question
    left is loaded and saved without an edit, and the save reports a
    validation error instead of the no-changes message. *)
Lemma C1_counterexample_empty_section :
  sections loadedEmptied = transformResponseToForm emptiedResponse
  /\ toasts (handleSubmit loadedEmptied allSucceed)
     = [(TError, lit "Section " ++ dquote ++ lit "Attendance" ++ dquote
                 ++ lit " must have at least one question")]
  /\ toasts (handleSubmit loadedEmptied allSucceed)
     <> [(TMessage, lit "No changes to save")].
Proof.
  split; [reflexivity|]. split; [vm_compute; reflexivity|].
  vm_compute. discriminate.
Qed.

(** C1 (amended): for every survey tree loaded from a server response by
    [transformResponseToForm], with no focus action adding an entry or a
    section, the edit-mode save run with zero user edits issues no API
    call and leaves the state as it is; and when the loaded form passes
    [validateForm], it detects zero changes and reports the no-changes
    message. *)
Theorem C1_round_trip_no_op_save :
  forall (st0 : FormState) (resp : SurveyDetailResponse)
         (focus : option FocusSection) (u0 u1 u2 : jsstring)
         (succeeds : nat -> bool),
    isEditMode st0 = true -> sectionsLoaded st0 = false ->
    focusAddsNothing focus (transformResponseToForm resp) = true ->
    let st := loadSurvey st0 (transformResponseToForm resp) focus u0 u1 u2 in
    calls (handleSubmit st succeeds) = []
    /\ nextState (handleSubmit st succeeds) = st
    /\ (validateForm st = None ->
        totalChanges (planEdit st) = 0
        /\ handleSubmit st succeeds
           = mkSubmitResult [] [(TMessage, lit "No changes to save")] false st)
    /\ (forall err, validateForm st = Some err ->
                    toasts (handleSubmit st succeeds) = [(TError, err)]).
Proof.
  intros st0 resp focus u0 u1 u2 succeeds Hedit Hnot Hfocus st.
  destruct (loadSurvey_plain st0 (transformResponseToForm resp) focus u0 u1 u2
              Hedit Hnot Hfocus) as (Hsecs & Hsync & Hedit' & _).
  fold st in Hsecs, Hsync, Hedit'.
  assert (Hplan : planEdit st = []).
  { apply planEdit_synced; [exact Hsync|]. rewrite Hsecs. apply transform_clean. }
  destruct (validateForm st) as [err|] eqn:Hvalid.
  - rewrite (handleSubmit_invalid st succeeds err Hvalid).
    split; [reflexivity|]. split; [reflexivity|]. split.
    + intros H. discriminate H.
    + intros err' H. injection H as <-. reflexivity.
  - rewrite (handleSubmit_nothing_planned st succeeds Hedit' Hvalid Hplan).
    split; [reflexivity|]. split; [reflexivity|]. split.
    + intros _. rewrite Hplan. split; reflexivity.
    + intros err H. discriminate H.
Qed.

Lemma C1_round_trip_no_op_save_witness :
  calls (handleSubmit loadedSample allSucceed) = []
  /\ handleSubmit loadedSample allSucceed
     = mkSubmitResult [] [(TMessage, lit "No changes to save")] false loadedSample.
Proof.
  destruct (C1_round_trip_no_op_save mountedEdit sampleResponse None
              (lit "u3") (lit "u4") (lit "u5") allSucceed
              eq_refl eq_refl eq_refl) as (Hcalls & _ & Hreport & _).
  split; [exact Hcalls|]. apply Hreport. vm_compute. reflexivity.
Defined.

Lemma validateForm_commitSnapshot (st : FormState) :
  validateForm (commitSnapshot st) = validateForm st.
Proof. reflexivity. Qed.

(** A save that follows a fully successful one finds nothing to do, as
    long as no file is attached to a top-level entry, to its choices or to
    its rows. *)
Lemma resave_without_pending_uploads (st : FormState) (succeeds again : nat -> bool) :
  isEditMode st = true -> validateForm st = None ->
  allResolve (map fst (planEdit st)) = true ->
  snd (tally 0 succeeds (planEdit st)) = 0 ->
  noPendingUploads (sections st) = true ->
  handleSubmit (nextState (handleSubmit st succeeds)) again
  = mkSubmitResult [] [(TMessage, lit "No changes to save")] false
      (nextState (handleSubmit st succeeds)).
Proof.
  intros Hedit Hvalid Hall Hfail Hclean.
  assert (Hnext : nextState (handleSubmit st succeeds) = st
                  /\ planEdit st = []
                  \/ nextState (handleSubmit st succeeds) = commitSnapshot st).
  { unfold handleSubmit. rewrite Hvalid, Hedit, Hall. cbn [negb].
    destruct (tally 0 succeeds (planEdit st)) as [s f]. cbn [snd] in Hfail.
    subst f. cbn [Nat.eqb].
    destruct (totalChanges (planEdit st) =? 0) eqn:Htot; [left|right; reflexivity].
    split; [reflexivity|].
    apply Nat.eqb_eq in Htot.
    destruct (planEdit st) as [|[c w] r] eqn:Hplan; [reflexivity|].
    exfalso.
    assert (Hw : forall p, In p (planEdit st) -> 0 < snd p).
    { intros p Hp. unfold planEdit in Hp.
      repeat (apply in_app_or in Hp; destruct Hp as [Hp|Hp]);
        try (apply in_map_iff in Hp; destruct Hp as [x [<- _]]; cbn; lia).
      unfold addNewSections in Hp.
      destruct (0 <? length _) eqn:Hlen; [|contradiction].
      destruct Hp as [<-|[]]. cbn. now apply Nat.ltb_lt in Hlen. }
    specialize (Hw (c, w)). rewrite Hplan in Hw.
    specialize (Hw (or_introl eq_refl)). cbn in Hw, Htot. lia. }
  destruct Hnext as [[-> Hplan]| ->].
  - now apply handleSubmit_nothing_planned.
  - apply handleSubmit_nothing_planned; auto.
    apply planEdit_synced; [apply commitSnapshot_synced|exact Hclean].
Qed.

(** C3 on the failing input: the first save of [withAttachedImage] sends
    one entry update, which succeeds, and refreshes the snapshot; the
    second save of the unchanged working tree sends the same entry update
    again, because the uploaded [File] is still in the working tree. *)
Theorem C3_resave_repeats_file_upload :
  let first := handleSubmit withAttachedImage allSucceed in
  let second := handleSubmit (nextState first) allSucceed in
  calls first
  = [UpdateEntry (lit "e1")
       (mkUpdateEntryData (lit "Did you attend?") (Some 1%Z) RADIO true sampleFile)]
  /\ tally 0 allSucceed (planEdit withAttachedImage) = (1, 0)
  /\ toasts first = [(TSuccess, lit "All 1 change(s) saved successfully")]
  /\ sections (nextState first) = sections withAttachedImage
  /\ originalSectionsSnapshot (nextState first)
     = jsonSections (sections withAttachedImage)
  /\ calls second = calls first
  /\ toasts second = toasts first.
Proof. vm_compute. repeat split; reflexivity. Qed.

(** ** Partial failure *)



Lemma handleSubmit_never_resumes (st : FormState) (succeeds : nat -> bool) :
  isEditMode st = true -> validateForm st = None ->
  allResolve (map fst (planEdit st)) = false ->
  handleSubmit st succeeds = mkSubmitResult (map fst (planEdit st)) [] false st.
Proof.
  intros Hedit Hvalid Hhang. unfold handleSubmit.
  rewrite Hvalid, Hedit, Hhang. cbn [negb].
  now destruct (tally 0 succeeds (planEdit st)).
Qed.




(** ** New sections *)

Lemma detectSections_updates (cur orig : list SurveySectionForm) :
  forall i, Forall isUpdateCall (detectSections i cur orig).
Proof.
  revert orig. induction cur as [|c cur IH]; intros [|o orig] i;
    cbn [detectSections]; auto.
  apply Forall_app. split; [|apply IH].
  destruct (idOf (section_id c)); auto.
  destruct (hasSectionChanged c o); auto. repeat constructor.
Qed.

Lemma detectChoices_updates (cur orig : list SurveyChoiceForm) :
  forall i, Forall isUpdateCall (detectChoices i cur orig).
Proof.
  revert orig. induction cur as [|c cur IH]; intros [|o orig] i;
    cbn [detectChoices]; auto.
  apply Forall_app. split; [|apply IH].
  destruct (idOf (choice_id c)); auto.
  destruct (hasChoiceChanged c o); auto. repeat constructor.
Qed.

Lemma detectGridRows_updates (cur orig : list SurveyGridRowForm) :
  forall i, Forall isUpdateCall (detectGridRows i cur orig).
Proof.
  revert orig. induction cur as [|c cur IH]; intros [|o orig] i;
    cbn [detectGridRows]; auto.
  apply Forall_app. split; [|apply IH].
  destruct (idOf (row_id c)); auto.
  destruct (hasGridRowChanged c o); auto. repeat constructor.
Qed.

Lemma detectEntry_updates (c o : SurveyEntryForm) :
  Forall isUpdateCall (detectEntry c o).
Proof.
  unfold detectEntry. destruct (idOf (entry_id c)); auto.
  repeat (apply Forall_app; split).
  - destruct (hasEntryChanged c o); auto. repeat constructor.
  - apply detectChoices_updates.
  - destruct (qtype_eqb (questionType c) GRID); auto.
    apply detectGridRows_updates.
Qed.

Lemma detectEntries_updates (cur orig : list SurveyEntryForm) :
  Forall isUpdateCall (detectEntries cur orig).
Proof.
  revert orig. induction cur as [|c cur IH]; intros [|o orig];
    cbn [detectEntries]; auto.
  apply Forall_app. split; [apply detectEntry_updates|apply IH].
Qed.

Lemma detectQuestions_updates (cur orig : list SurveySectionForm) :
  Forall isUpdateCall (detectQuestions cur orig).
Proof.
  revert orig. induction cur as [|c cur IH]; intros [|o orig];
    cbn [detectQuestions]; auto.
  apply Forall_app. split; [apply detectEntries_updates|apply IH].
Qed.

Lemma in_skipn_in {A} (n : nat) (l : list A) (x : A) :
  In x (skipn n l) -> In x l.
Proof.
  intros H. rewrite <- (firstn_skipn n l). apply in_or_app. now right.
Qed.

Lemma addNewEntries_sources (counts : list nat) (secs : list SurveySectionForm) :
  forall i,
    Forall (fun c => exists s e,
                In s secs /\ In e (entries s)
                /\ truthyStr (section_id s) = true
                /\ c = AddEntry (section_id s) (newEntryData e))
           (addNewEntries i counts secs).
Proof.
  induction secs as [|s secs IH]; intros i; cbn [addNewEntries]; auto.
  apply Forall_app. split.
  - destruct (nth i counts 0 <? length (entries s)); cbn [andb]; auto.
    destruct (truthyStr (section_id s)) eqn:Hid; auto.
    apply Forall_forall. intros c Hc.
    apply in_map_iff in Hc. destruct Hc as [e [<- He]].
    exists s, e. repeat split; auto.
    + now left.
    + eapply in_skipn_in; exact He.
  - eapply Forall_impl; [|apply IH].
    intros c (s' & e & Hs & He & Hid & ->).
    exists s', e. repeat split; auto. now right.
Qed.

Lemma map_mapi_from {A B C} (g : B -> C) (f : A -> nat -> B) (h : A -> C)
      (l : list A) :
  (forall x i, g (f x i) = h x) ->
  forall i, map g (mapi_from i f l) = map h l.
Proof.
  intros H. induction l as [|x l IH]; intros i; cbn; auto.
  now rewrite H, IH.
Qed.

Lemma flatten_blocks (es : list SurveyEntryForm) :
  flattenEntriesForPayload es = numberFrom 1 (flat_map block es).
Proof. unfold flattenEntriesForPayload. now rewrite flattenEntries_fold. Qed.



(** ** Saving the current question *)

Lemma followUpStep_adds (sectionId : option jsstring) (entryId : jsstring)
      (cur : SurveyEntryForm) (next : Z) (cs : list SurveyChoiceForm) :
  forall acc,
    (forall c, In c (fst acc) -> exists d, c = AddEntry sectionId d) ->
    forall c, In c (fst (fold_left (followUpStep sectionId entryId cur next) cs acc)) ->
              exists d, c = AddEntry sectionId d.
Proof.
  induction cs as [|x cs IH]; intros acc Hacc c Hc; [now apply Hacc|].
  cbn [fold_left] in Hc. apply IH in Hc; auto.
  clear Hc c. intros c Hc. unfold followUpStep in Hc.
  destruct (activeFollowUp x) as [fu|]; [|now apply Hacc].
  destruct (truthyStr (entry_id fu)); [now apply Hacc|].
  destruct (idOf (choice_id x)); cbn [fst] in Hc;
    apply in_app_or in Hc; destruct Hc as [Hc|[<-|[]]]; eauto.
Qed.

Lemma followUpStep_keeps (sectionId : option jsstring) (entryId : jsstring)
      (cur : SurveyEntryForm) (next : Z) (cs : list SurveyChoiceForm) :
  forall acc c,
    In c (fst acc) ->
    In c (fst (fold_left (followUpStep sectionId entryId cur next) cs acc)).
Proof.
  induction cs as [|x cs IH]; intros acc c Hc; [exact Hc|].
  cbn [fold_left]. apply IH. unfold followUpStep.
  destruct (activeFollowUp x) as [fu|]; auto.
  destruct (truthyStr (entry_id fu)); auto.
  destruct (idOf (choice_id x)); cbn [fst]; apply in_or_app; now left.
Qed.

Lemma followUpStep_new_choice (sectionId : option jsstring) (entryId : jsstring)
      (cur : SurveyEntryForm) (next : Z) (cs : list SurveyChoiceForm)
      (choice : SurveyChoiceForm) (followUp : SurveyEntryForm) :
  In choice cs ->
  activeFollowUp choice = Some followUp ->
  truthyStr (entry_id followUp) = false ->
  idOf (choice_id choice) = None ->
  forall acc, exists n,
    In (AddEntry sectionId
          (followUpData followUp n (Some (entry_clientId cur))
             (Some (choice_clientId choice)) None None))
       (fst (fold_left (followUpStep sectionId entryId cur next) cs acc)).
Proof.
  intros Hin Hact Hnew Hchoice.
  induction cs as [|x cs IH]; intros acc; [contradiction|].
  cbn [fold_left]. destruct Hin as [->|Hin]; [|now apply IH].
  exists (next + snd acc)%Z. apply followUpStep_keeps.
  unfold followUpStep. rewrite Hact, Hnew, Hchoice. cbn [fst].
  apply in_or_app. right. now left.
Qed.

Lemma in_mapi_from {A B} (f : A -> nat -> B) (l : list A) :
  forall i k x, nth_error l k = Some x -> In (f x (i + k)) (mapi_from i f l).
Proof.
  induction l as [|a l IH]; intros i k x H; [now destruct k|].
  destruct k as [|k]; cbn in H |- *.
  - injection H as ->. left. now rewrite Nat.add_0_r.
  - right. rewrite <- Nat.add_succ_comm. now apply IH.
Qed.

Lemma in_concat_mapi {A B} (f : A -> nat -> list B) (l : list A)
      (k : nat) (x : A) (y : B) :
  nth_error l k = Some x -> In y (f x k) -> In y (concat (mapi f l)).
Proof.
  intros Hk Hy. apply in_concat. exists (f x k). split; auto.
  apply (in_mapi_from f l 0 k x Hk).
Qed.

(** The shape of the events of a question save that passes its guards. *)
Lemma handleSaveCurrentQuestion_events (st : FormState) (succeeds : nat -> bool)
      (cur : SurveyEntryForm) (entryId : jsstring) :
  entryAt (sections st) (selectedSection st) (selectedQuestion st) = Some cur ->
  idOf (entry_id cur) = Some entryId ->
  isValid (validateSurveyEntry cur) = true ->
  let promises :=
    basicOperations entryId cur
      (entryAt (originalSectionsSnapshot st) (selectedSection st)
               (selectedQuestion st)) in
  exists tail,
    events (handleSaveCurrentQuestion st succeeds)
    = map (fun p => Dispatch (fst p)) promises ++ AwaitAll :: tail
    /\ (forall c, In (Dispatch c) tail ->
                  exists d, c = AddEntry (selectedSectionId st) d)
    /\ (anyRejection 0 succeeds promises = false ->
        forall c, In c (followUpOperations st entryId cur) ->
                  In (Dispatch c) tail).
Proof.
  intros Hcur Hid Hvalid promises.
  unfold handleSaveCurrentQuestion. rewrite Hcur, Hid, Hvalid. cbn [negb].
  fold promises.
  destruct (anyRejection 0 succeeds promises).
  - exists []. cbn [events]. split; [reflexivity|].
    split; [intros c []|discriminate].
  - set (fus := followUpOperations st entryId cur).
    exists (map Dispatch fus ++ (if 0 <? length fus then [AwaitAll] else [])).
    split.
    { destruct (0 <? length promises + length fus); cbn [events];
        now rewrite <- app_assoc. }
    split.
    + intros c Hc. apply in_app_or in Hc. destruct Hc as [Hc|Hc].
      * apply in_map_iff in Hc. destruct Hc as [c' [Heq Hc']].
        injection Heq as ->.
        unfold fus, followUpOperations in Hc'.
        eapply followUpStep_adds in Hc'; [exact Hc'|].
        intros x [].
      * destruct (0 <? length fus); [|contradiction].
        destruct Hc as [Hc|[]]. discriminate Hc.
    + intros _ c Hc. apply in_or_app. left. now apply in_map.
Qed.

Lemma in_mapi_from_inv {A B} (f : A -> nat -> B) (l : list A) (y : B) :
  forall i, In y (mapi_from i f l) -> exists x k, In x l /\ y = f x k.
Proof.
  induction l as [|a l IH]; intros i H; [contradiction|].
  destruct H as [<-|H].
  - exists a, i. split; [now left|reflexivity].
  - apply IH in H. destruct H as (x & k & Hx & ->).
    exists x, k. split; [now right|reflexivity].
Qed.

Lemma qtype_eqb_neq (a b : SurveyQuestionType) :
  a <> b -> qtype_eqb a b = false.
Proof. destruct a, b; intros H; try reflexivity; now elim H. Qed.

Lemma hasEntryChanged_type (cur orig : SurveyEntryForm) :
  questionType cur <> questionType orig -> hasEntryChanged cur orig = true.
Proof.
  intros H. unfold hasEntryChanged. rewrite (qtype_eqb_neq _ _ H).
  destruct (str_eqb (question cur) (question orig)); reflexivity.
Qed.

Lemma deleteOldChoices_complete (cur orig : SurveyEntryForm)
      (oc : SurveyChoiceForm) (id : jsstring) :
  In oc (choices orig) -> idOf (choice_id oc) = Some id ->
  hasId (map choice_id (choices cur)) id = false ->
  In (DeleteChoice id) (map fst (deleteOldChoices cur (Some orig))).
Proof.
  intros Hoc Hid Hgone. apply in_map_iff.
  exists (swallowed (DeleteChoice id)). split; [reflexivity|].
  unfold deleteOldChoices. apply in_flat_map. exists oc. split; auto.
  rewrite Hid, Hgone. now left.
Qed.

Lemma later_operations_kind (entryId : jsstring) (cur : SurveyEntryForm)
      (orig : option SurveyEntryForm) (c : ApiCall) :
  In c (map fst (concat (mapi (saveChoice entryId orig) (choices cur))
                 ++ deleteOldGridRows cur orig
                 ++ concat (mapi (saveGridRow entryId orig) (gridRows cur)))) ->
  isEntryUpdateOrChoiceDelete c = false.
Proof.
  intros H. apply in_map_iff in H. destruct H as [p [<- Hp]].
  apply in_app_or in Hp. destruct Hp as [Hp|Hp]; [|apply in_app_or in Hp;
                                                    destruct Hp as [Hp|Hp]].
  - apply in_concat in Hp. destruct Hp as [l [Hl Hp]].
    apply in_mapi_from_inv in Hl. destruct Hl as (x & k & _ & ->).
    unfold saveChoice in Hp. destruct (idOf (choice_id x)).
    + destruct orig as [o|]; [|contradiction].
      destruct (find _ _) as [oc|]; [|contradiction].
      destruct (hasChoiceChanged x oc); [|contradiction].
      destruct Hp as [<-|[]]. reflexivity.
    + destruct Hp as [<-|[]]. reflexivity.
  - unfold deleteOldGridRows in Hp. apply in_flat_map in Hp.
    destruct Hp as [r [_ Hp]].
    destruct (idOf (row_id r)); [|contradiction].
    destruct (negb _); [|contradiction].
    destruct Hp as [<-|[]]. reflexivity.
  - apply in_concat in Hp. destruct Hp as [l [Hl Hp]].
    apply in_mapi_from_inv in Hl. destruct Hl as (x & k & _ & ->).
    unfold saveGridRow in Hp. destruct (idOf (row_id x)).
    + destruct orig as [o|]; [|contradiction].
      destruct (find _ _) as [r|]; [|contradiction].
      destruct (hasGridRowChanged x r); [|contradiction].
      destruct Hp as [<-|[]]. reflexivity.
    + destruct Hp as [<-|[]]. reflexivity.
Qed.

Lemma basicOperations_kinds (entryId : jsstring) (cur : SurveyEntryForm)
      (orig : option SurveyEntryForm) (p : Promise) :
  In p (basicOperations entryId cur orig) ->
  isEntryCreate (fst p) = false /\ snd p = isDeleteCall (fst p).
Proof.
  unfold basicOperations. intros H.
  repeat (apply in_app_or in H; destruct H as [H|H]).
  - destruct orig as [o|]; [|contradiction].
    destruct (hasEntryChanged cur o); [|contradiction].
    destruct H as [<-|[]]. split; reflexivity.
  - unfold deleteOldChoices in H. apply in_flat_map in H.
    destruct H as [oc [_ H]].
    destruct (idOf (choice_id oc)); [|contradiction].
    destruct (negb _); [|contradiction].
    destruct H as [<-|[]]. split; reflexivity.
  - apply in_concat in H. destruct H as [l [Hl H]].
    apply in_mapi_from_inv in Hl. destruct Hl as (x & k & _ & ->).
    unfold saveChoice in H. destruct (idOf (choice_id x)).
    + destruct orig as [o|]; [|contradiction].
      destruct (find _ _) as [oc|]; [|contradiction].
      destruct (hasChoiceChanged x oc); [|contradiction].
      destruct H as [<-|[]]. split; reflexivity.
    + destruct H as [<-|[]]. split; reflexivity.
  - unfold deleteOldGridRows in H. apply in_flat_map in H.
    destruct H as [r [_ H]].
    destruct (idOf (row_id r)); [|contradiction].
    destruct (negb _); [|contradiction].
    destruct H as [<-|[]]. split; reflexivity.
  - apply in_concat in H. destruct H as [l [Hl H]].
    apply in_mapi_from_inv in Hl. destruct Hl as (x & k & _ & ->).
    unfold saveGridRow in H. destruct (idOf (row_id x)).
    + destruct orig as [o|]; [|contradiction].
      destruct (find _ _) as [r|]; [|contradiction].
      destruct (hasGridRowChanged x r); [|contradiction].
      destruct H as [<-|[]]. split; reflexivity.
    + destruct H as [<-|[]]. split; reflexivity.
Qed.

(** C4, as stated, fails: in the save of [typeChanged] (RADIO with the
    persisted choices c1 and c2 switched to GRID) the entry update, the
    two choice deletions, the two choice creations and the two grid row
    creations are dispatched one after the other, and the only await comes
    after the last of them. *)
Lemma C4_counterexample_creates_not_awaited :
  events (handleSaveCurrentQuestion typeChanged allSucceed)
  = [Dispatch (UpdateEntry (lit "e1")
       (mkUpdateEntryData (lit "Did you attend?") (Some 1%Z) GRID true NoFile));
     Dispatch (DeleteChoice (lit "c1"));
     Dispatch (DeleteChoice (lit "c2"));
     Dispatch (AddChoice (lit "e1")
       (mkChoicePayload (lit "u6") (Some (lit "A")) [] None NoFile (Some false)));
     Dispatch (AddChoice (lit "e1")
       (mkChoicePayload (lit "u7") (Some (lit "B")) [] None NoFile (Some false)));
     Dispatch (AddGridRow (lit "e1") (mkRowPayload 1 [] None NoFile));
     Dispatch (AddGridRow (lit "e1") (mkRowPayload 2 [] None NoFile));
     AwaitAll]
  /\ awaitedBeforeCreates false
       (events (handleSaveCurrentQuestion typeChanged allSucceed)) = false.
Proof. vm_compute. split; reflexivity. Qed.

(** C4 (amended): when the question type of an existing, valid entry
    differs from the snapshot, the save of the question dispatches the
    entry update first, then the deletion of every persisted choice the
    entry no longer has, and then a batch that holds the creation of every
    new choice and of every new grid row and no entry update or choice
    deletion; the first await comes after that batch, and after it only
    follow-up entries are created: no entry update, no choice deletion,
    no choice creation and no grid row creation.  The creations are thus
    dispatched after the update and the deletions in program order, in the
    same batch, without waiting for them to complete. *)
Theorem C4_type_change_dispatch_order :
  forall (st : FormState) (succeeds : nat -> bool)
         (cur orig : SurveyEntryForm) (entryId : jsstring),
    entryAt (sections st) (selectedSection st) (selectedQuestion st) = Some cur ->
    idOf (entry_id cur) = Some entryId ->
    isValid (validateSurveyEntry cur) = true ->
    entryAt (originalSectionsSnapshot st) (selectedSection st)
            (selectedQuestion st) = Some orig ->
    questionType cur <> questionType orig ->
    exists batch tail,
      events (handleSaveCurrentQuestion st succeeds)
      = Dispatch (UpdateEntry entryId (entryUpdateData cur))
        :: map Dispatch (map fst (deleteOldChoices cur (Some orig)))
        ++ map Dispatch batch ++ AwaitAll :: tail
      /\ (forall oc id,
            In oc (choices orig) -> idOf (choice_id oc) = Some id ->
            hasId (map choice_id (choices cur)) id = false ->
            In (DeleteChoice id) (map fst (deleteOldChoices cur (Some orig))))
      /\ (forall choice ci,
            nth_error (choices cur) ci = Some choice ->
            idOf (choice_id choice) = None ->
            In (AddChoice entryId (choiceData choice ci)) batch)
      /\ (forall row ri,
            nth_error (gridRows cur) ri = Some row -> idOf (row_id row) = None ->
            In (AddGridRow entryId (rowData row ri)) batch)
      /\ (forall c, In c batch -> isEntryUpdateOrChoiceDelete c = false)
      /\ (forall c, In (Dispatch c) tail ->
                    (exists d, c = AddEntry (selectedSectionId st) d)
                    /\ isCreateRow c = false
                    /\ isEntryUpdateOrChoiceDelete c = false).
Proof.
  intros st succeeds cur orig entryId Hcur Hid Hvalid Horig Htype.
  destruct (handleSaveCurrentQuestion_events st succeeds cur entryId
              Hcur Hid Hvalid) as (tail & Hev & Htail & _).
  rewrite Horig in Hev.
  exists (map fst (concat (mapi (saveChoice entryId (Some orig)) (choices cur))
                   ++ deleteOldGridRows cur (Some orig)
                   ++ concat (mapi (saveGridRow entryId (Some orig)) (gridRows cur)))),
         tail.
  split.
  { rewrite Hev. unfold basicOperations.
    rewrite (hasEntryChanged_type cur orig Htype).
    cbn [app map fst rejects]. f_equal.
    rewrite !map_app, !map_map, <- !app_assoc. reflexivity. }
  split; [intros oc id; apply deleteOldChoices_complete|].
  split.
  { intros choice ci Hchoice Hnew. apply in_map_iff.
    exists (rejects (AddChoice entryId (choiceData choice ci))).
    split; [reflexivity|].
    apply in_or_app. left.
    apply (in_concat_mapi (saveChoice entryId (Some orig)) (choices cur)
                          ci choice _ Hchoice).
    unfold saveChoice. rewrite Hnew. now left. }
  split.
  { intros row ri Hrow Hnew. apply in_map_iff.
    exists (rejects (AddGridRow entryId (rowData row ri))).
    split; [reflexivity|].
    apply in_or_app. right. apply in_or_app. right.
    apply (in_concat_mapi (saveGridRow entryId (Some orig)) (gridRows cur)
                          ri row _ Hrow).
    unfold saveGridRow. rewrite Hnew. now left. }
  split; [intros c; apply later_operations_kind|].
  intros c Hc. apply Htail in Hc. destruct Hc as [d ->].
  split; [now exists d|]. split; reflexivity.
Qed.

Lemma C4_type_change_dispatch_order_witness :
  exists batch tail,
    events (handleSaveCurrentQuestion typeChanged allSucceed)
    = Dispatch (UpdateEntry (lit "e1")
                  (entryUpdateData
                     (handleQuestionTypeChange GRID (lit "u6") (lit "u7")
                        (entryToForm (followUpsOfSection sectionS1) mainE1))))
      :: map Dispatch [DeleteChoice (lit "c1"); DeleteChoice (lit "c2")]
      ++ map Dispatch batch ++ AwaitAll :: tail
    /\ In (AddChoice (lit "e1")
             (mkChoicePayload (lit "u6") (Some (lit "A")) [] None NoFile
                              (Some false))) batch
    /\ In (AddGridRow (lit "e1") (mkRowPayload 1 [] None NoFile)) batch
    /\ (forall c, In c batch -> isEntryUpdateOrChoiceDelete c = false).
Proof.
  destruct (C4_type_change_dispatch_order typeChanged allSucceed
              (handleQuestionTypeChange GRID (lit "u6") (lit "u7")
                 (entryToForm (followUpsOfSection sectionS1) mainE1))
              (jsonEntry (entryToForm (followUpsOfSection sectionS1) mainE1))
              (lit "e1") eq_refl eq_refl eq_refl eq_refl)
    as (batch & tail & Hev & _ & Hchoices & Hrows & Hbatch & _).
  - discriminate.
  - exists batch, tail. split; [exact Hev|].
    split; [|split; [|exact Hbatch]].
    + apply (Hchoices (emptyChoice (lit "u6") (Some 0)) 0); reflexivity.
    + apply (Hrows (mkRowForm None 1 [] None NoFile) 0); reflexivity.
Defined.

(** C6, as stated, fails: in [mixedReference] the parent question e1 is on
    the server and the triggering choice n-c3 is new; the save raises no
    error, reports success and dispatches the creation of the follow-up
    with the client identifiers of the parent and of the choice. *)
Lemma C6_counterexample_mixed_reference_created :
  events (handleSaveCurrentQuestion mixedReference allSucceed)
  = [Dispatch (AddChoice (lit "e1")
       (mkChoicePayload (lit "n-c3") (Some (lit "C")) (lit "Maybe") None NoFile
                        (Some false)));
     AwaitAll;
     Dispatch (AddEntry (Some (lit "s1"))
       (mkEntryPayload (lit "n-fu3") (lit "Why maybe?") (Some 5%Z) None NoFile
          TEXT false None [] [] true
          (Some (lit "e1")) (Some [lit "n-c3"]) None None));
     AwaitAll]
  /\ sq_toasts (handleSaveCurrentQuestion mixedReference allSucceed)
     = [(TSuccess, lit "Question saved successfully!")].
Proof. vm_compute. split; reflexivity. Qed.

(** C6 (amended): for a new follow-up (no server id) embedded in a new
    choice (no server id) of a valid entry that exists on the server, the
    save of the question raises no sequencing error.  The creation of the
    new choice is dispatched in the first batch, which creates no entry;
    once that batch has settled without a rejection, the save dispatches
    the creation of the follow-up with [parentQuestionClientId] set to the
    parent's clientId and [triggerChoiceClientIds] set to the choice's
    clientId, no server identifier, and reports success. *)
Theorem C6_mixed_reference_uses_client_ids :
  forall (st : FormState) (succeeds : nat -> bool)
         (cur : SurveyEntryForm) (entryId : jsstring)
         (choice : SurveyChoiceForm) (ci : nat) (followUp : SurveyEntryForm),
    entryAt (sections st) (selectedSection st) (selectedQuestion st) = Some cur ->
    idOf (entry_id cur) = Some entryId ->
    isValid (validateSurveyEntry cur) = true ->
    anyRejection 0 succeeds
      (basicOperations entryId cur
         (entryAt (originalSectionsSnapshot st) (selectedSection st)
                  (selectedQuestion st))) = false ->
    nth_error (choices cur) ci = Some choice ->
    activeFollowUp choice = Some followUp ->
    truthyStr (entry_id followUp) = false ->
    idOf (choice_id choice) = None ->
    exists (first : list ApiCall) (tail : list Event) (n : Z),
      events (handleSaveCurrentQuestion st succeeds)
      = map Dispatch first ++ AwaitAll :: tail
      /\ In (AddChoice entryId (choiceData choice ci)) first
      /\ Forall (fun c => isEntryCreate c = false) first
      /\ In (Dispatch (AddEntry (selectedSectionId st)
                         (followUpData followUp n
                            (Some (entry_clientId cur))
                            (Some (choice_clientId choice)) None None)))
            tail
      /\ sq_toasts (handleSaveCurrentQuestion st succeeds)
         = [(TSuccess, lit "Question saved successfully!")].
Proof.
  intros st succeeds cur entryId choice ci followUp
         Hcur Hid Hvalid Hok Hnth Hact Hnew Hchoice.
  pose proof (nth_error_In _ _ Hnth) as Hin.
  destruct (followUpStep_new_choice (selectedSectionId st) entryId cur
              (getNextQuestionNumber (sections st)) (choices cur)
              choice followUp Hin Hact Hnew Hchoice ([], 0%Z)) as [n Hn].
  change (In (AddEntry (selectedSectionId st)
                (followUpData followUp n (Some (entry_clientId cur))
                   (Some (choice_clientId choice)) None None))
             (followUpOperations st entryId cur)) in Hn.
  destruct (handleSaveCurrentQuestion_events st succeeds cur entryId
              Hcur Hid Hvalid) as (tail & Hev & _ & Htail).
  set (orig := entryAt (originalSectionsSnapshot st) (selectedSection st)
                       (selectedQuestion st)) in *.
  exists (map fst (basicOperations entryId cur orig)), tail, n.
  split; [now rewrite Hev, map_map|].
  split.
  { apply in_map_iff.
    exists (rejects (AddChoice entryId (choiceData choice ci))).
    split; [reflexivity|].
    unfold basicOperations.
    apply in_or_app. right. apply in_or_app. right. apply in_or_app. left.
    apply (in_concat_mapi _ _ ci choice); [exact Hnth|].
    unfold saveChoice. rewrite Hchoice. now left. }
  split.
  { apply Forall_forall. intros c Hc.
    apply in_map_iff in Hc. destruct Hc as [p [<- Hp]].
    now apply (basicOperations_kinds entryId cur orig). }
  split; [apply (Htail Hok); exact Hn|].
  unfold handleSaveCurrentQuestion. rewrite Hcur, Hid, Hvalid. fold orig.
  rewrite Hok. cbn [negb].
  destruct (followUpOperations st entryId cur) as [|c fus]; [contradiction|].
  replace (0 <? _ + length (c :: fus)) with true; [reflexivity|].
  symmetry. apply Nat.ltb_lt. cbn [length]. lia.
Qed.

Lemma C6_mixed_reference_uses_client_ids_witness :
  exists (first : list ApiCall) (tail : list Event) (n : Z),
    events (handleSaveCurrentQuestion mixedReference allSucceed)
    = map Dispatch first ++ AwaitAll :: tail
    /\ In (AddChoice (lit "e1") (choiceData newChoiceWithFollowUp 2)) first
    /\ Forall (fun c => isEntryCreate c = false) first
    /\ In (Dispatch (AddEntry (Some (lit "s1"))
                       (followUpData followUpOfNewChoice n
                          (Some (lit "e1")) (Some (lit "n-c3")) None None)))
          tail
    /\ sq_toasts (handleSaveCurrentQuestion mixedReference allSucceed)
       = [(TSuccess, lit "Question saved successfully!")].
Proof.
  apply (C6_mixed_reference_uses_client_ids mixedReference allSucceed
           (appendChoice newChoiceWithFollowUp
              (entryToForm (followUpsOfSection sectionS1) mainE1))
           (lit "e1") newChoiceWithFollowUp 2 followUpOfNewChoice);
    reflexivity.
Defined.

(* ================================================================== *)
(** * Further properties of the form logic *)
(* ================================================================== *)

(** ** What validateSurveyEntry accepts *)

Lemma pushIf_empty (c : bool) (msg : string) (errs : list jsstring) :
  (length (pushIf c msg errs) =? 0) = negb c && (length errs =? 0).
Proof.
  unfold pushIf. destruct c; cbn [negb andb]; [|reflexivity].
  rewrite length_app. cbn [length]. apply Nat.eqb_neq. lia.
Qed.

Lemma some_filtered {A} (p : A -> bool) (l : list A) :
  (0 <? length (filter p l)) = negb (forallb (fun x => negb (p x)) l).
Proof.
  induction l as [|a l IH]; [reflexivity|].
  cbn [filter forallb]. destruct (p a); cbn [negb andb length]; auto.
Qed.

Lemma empty_choices_filled (l : list SurveyChoiceForm) :
  (0 <? length (filter (fun c => blank (choiceText c)
                                 && negb (truthyStr (choiceImage c))
                                 && negb (truthyFile (choiceImageFile c))) l))
  = negb (forallb choiceFilled l).
Proof.
  induction l as [|c l IH]; [reflexivity|].
  cbn [filter forallb]. unfold choiceFilled at 1.
  destruct (blank (choiceText c)), (truthyStr (choiceImage c)),
           (truthyFile (choiceImageFile c));
    cbn [negb andb orb length]; auto.
Qed.

Lemma isValid_acceptableb (e : SurveyEntryForm) :
  isValid (validateSurveyEntry e) = acceptableb e.
Proof.
  unfold validateSurveyEntry, acceptableb. cbn [isValid].
  rewrite empty_choices_filled. unfold followUpConfigured.
  generalize (blank (question e)) (length (choices e) <? 2)
             (forallb choiceFilled (choices e)) (length (gridRows e) <? 2)
             (truthyStr (parentQuestionClientId e))
             (truthyStr (parentQuestionId e))
             (missingOrEmpty (triggerChoiceClientIds e))
             (missingOrEmpty (triggerChoiceIds e)).
  intros bq bl bf br p1 p2 m1 m2.
  destruct (isFollowUp e), (questionType e); cbn [qtype_eqb orb];
    rewrite ?pushIf_empty; cbn [length Nat.eqb];
    destruct bq, bl, bf, br, p1, p2, m1, m2; reflexivity.
Qed.

Lemma at_least_two (n : nat) : negb (n <? 2) = true <-> 2 <= n.
Proof.
  rewrite negb_true_iff, Nat.ltb_ge. reflexivity.
Qed.

Lemma forallb_Forall {A} (p : A -> bool) (l : list A) :
  forallb p l = true <-> Forall (fun x => p x = true) l.
Proof. rewrite forallb_forall, Forall_forall. reflexivity. Qed.

(** X1: [validateSurveyEntry] accepts exactly the entries with a
    non-blank question that, when RADIO or CHECKBOX, have at least two
    choices each with text, an image or an image file; when GRID, have at
    least two choices and two rows (the texts of grid choices and rows are
    not looked at); and, when flagged as a follow-up, name a parent and a
    trigger choice. *)
Theorem X1_validateSurveyEntry_accepts :
  forall e : SurveyEntryForm,
    isValid (validateSurveyEntry e) = true <-> entryAcceptable e.
Proof.
  intros e. rewrite isValid_acceptableb. unfold acceptableb, entryAcceptable.
  rewrite !andb_true_iff, negb_true_iff.
  destruct (questionType e) eqn:Ht; destruct (isFollowUp e) eqn:Hfu;
    cbn [qtype_eqb orb];
    rewrite ?andb_true_iff, ?at_least_two, ?forallb_Forall;
    (split; intros H; repeat split; intros;
     first [ assumption | reflexivity | tauto
           | exfalso; intuition discriminate
           | intuition auto ]).
Qed.

Lemma X1_validateSurveyEntry_accepts_witness :
  entryAcceptable filledQuestion.
Proof.
  apply (proj1 (X1_validateSurveyEntry_accepts filledQuestion)).
  reflexivity.
Defined.

(** ** What validateForm accepts *)

Lemma firstError_none {A} (body : A -> nat -> option jsstring) (l : list A) :
  forall i, firstError i body l = None ->
            forall x, In x l -> exists k, body x k = None.
Proof.
  induction l as [|a l IH]; intros i H x Hx; [contradiction|].
  cbn [firstError] in H. destruct (body a i) eqn:Ha; [discriminate|].
  destruct Hx as [<-|Hx]; [now exists i|]. now apply (IH (S i)).
Qed.

Lemma firstError_all_none {A} (body : A -> nat -> option jsstring) (l : list A) :
  (forall x k, In x l -> body x k = None) ->
  forall i, firstError i body l = None.
Proof.
  intros H. induction l as [|a l IH]; intros i; [reflexivity|].
  cbn [firstError]. rewrite (H a i) by now left.
  apply IH. intros x k Hx. apply H. now right.
Qed.

Lemma validateSection_none (s : SurveySectionForm) (k : nat) :
  validateSection s k = None <->
  blank (title s) = false /\ entries s <> []
  /\ forall e, In e (checkedEntries s) -> isValid (validateSurveyEntry e) = true.
Proof.
  unfold validateSection. split.
  - intros H. destruct (blank (title s)); [discriminate|].
    destruct (entries s) as [|q0 qs] eqn:Hes; [discriminate|].
    cbn [length Nat.eqb] in H. rewrite <- Hes in *.
    split; [reflexivity|]. split; [rewrite Hes; discriminate|].
    intros e He. unfold checkedEntries in He. apply in_flat_map in He.
    destruct He as [q [Hq He]].
    destruct (firstError_none _ _ 0 H q Hq) as [j Hj].
    unfold validateQuestion in Hj.
    destruct (isValid (validateSurveyEntry q)) eqn:Hvalid; [|discriminate].
    cbn [negb] in Hj. destruct He as [<-|He]; [exact Hvalid|].
    apply in_flat_map in He. destruct He as [c [Hc He]].
    destruct (firstError_none _ _ 0 Hj c Hc) as [j' Hj'].
    unfold validateChoiceFollowUp in Hj'.
    destruct (activeFollowUp c) as [f|]; [|contradiction].
    destruct He as [<-|[]].
    destruct (isValid (validateSurveyEntry f)); [reflexivity|discriminate].
  - intros (Htitle & Hentries & Hall). rewrite Htitle.
    destruct (entries s) as [|q0 qs] eqn:Hes; [now elim Hentries|].
    cbn [length Nat.eqb]. rewrite <- Hes.
    apply firstError_all_none. intros q j Hq. unfold validateQuestion.
    rewrite (Hall q).
    2:{ unfold checkedEntries. apply in_flat_map. exists q. split; auto. now left. }
    cbn [negb]. apply firstError_all_none. intros c j' Hc.
    unfold validateChoiceFollowUp.
    destruct (activeFollowUp c) as [f|] eqn:Hact; [|reflexivity].
    rewrite (Hall f); [reflexivity|].
    unfold checkedEntries. apply in_flat_map. exists q. split; auto.
    right. apply in_flat_map. exists c. split; auto. rewrite Hact. now left.
Qed.

(** X2: [validateForm] lets the save proceed exactly when the survey name
    is not blank, there is at least one section, and every section has a
    non-blank title, at least one question, and only valid questions and
    embedded follow-ups. *)
Theorem X2_validateForm_accepts :
  forall st : FormState, validateForm st = None <-> formAcceptable st.
Proof.
  intros st. unfold validateForm, formAcceptable. split.
  - intros H. destruct (blank (surveyName st)); [discriminate|].
    destruct (sections st) as [|s0 ss] eqn:Hs; [discriminate|].
    cbn [length Nat.eqb] in H. rewrite <- Hs in *.
    split; [reflexivity|]. split; [rewrite Hs; discriminate|].
    intros s Hin. destruct (firstError_none _ _ 0 H s Hin) as [k Hk].
    now apply (validateSection_none s k).
  - intros (Hname & Hsecs & Hall). rewrite Hname.
    destruct (sections st) as [|s0 ss] eqn:Hs; [now elim Hsecs|].
    cbn [length Nat.eqb]. rewrite <- Hs in *.
    apply firstError_all_none. intros s k Hin.
    apply validateSection_none. now apply Hall.
Qed.

Lemma X2_validateForm_accepts_witness : formAcceptable loadedSample.
Proof.
  apply (proj1 (X2_validateForm_accepts loadedSample)).
  vm_compute. reflexivity.
Defined.

(** ** The legacy validator, type changes and fresh questions *)

Lemma pushIf_length (c : bool) (msg : string) (errs : list jsstring) :
  length (pushIf c msg errs) = length errs + (if c then 1 else 0).
Proof.
  unfold pushIf. destruct c; [|lia]. now rewrite length_app.
Qed.

Lemma legacy_empty_choices (cs : list SurveyChoiceForm) :
  Forall (fun c => truthyStr (choiceImage c) = false
                   /\ truthyFile (choiceImageFile c) = false) cs ->
  length (filter (fun c => blank (choiceText c)
                           && negb (truthyStr (choiceImage c))
                           && negb (truthyFile (choiceImageFile c))) cs)
  = length (filter blank (map choiceText cs)).
Proof.
  induction 1 as [|c cs [Himg Hfile] _ IH]; [reflexivity|].
  cbn [filter map]. rewrite Himg, Hfile. cbn [negb]. rewrite !andb_true_r.
  destruct (blank (choiceText c)); cbn [length]; now rewrite IH.
Qed.

(** X3: on an entry that is not a follow-up and whose choices carry no
    image, [validateSurveyEntry] and the legacy validator applied to the
    texts of the entry report the same number of errors, and so agree on
    validity. *)
Theorem X3_validator_agrees_with_legacy :
  forall e : SurveyEntryForm,
    isFollowUp e = false ->
    Forall (fun c => truthyStr (choiceImage c) = false
                     /\ truthyFile (choiceImageFile c) = false) (choices e) ->
    length (errors (validateSurveyEntry e))
    = length (errors (validateSurveyEntryLegacy (toLegacy e)))
    /\ isValid (validateSurveyEntry e)
       = isValid (validateSurveyEntryLegacy (toLegacy e)).
Proof.
  intros e Hfu Himg.
  assert (Hlen : length (errors (validateSurveyEntry e))
                 = length (errors (validateSurveyEntryLegacy (toLegacy e)))).
  { unfold validateSurveyEntry, validateSurveyEntryLegacy, toLegacy.
    cbn [errors le_question le_questionType le_choices le_rows].
    rewrite Hfu, (legacy_empty_choices _ Himg), !length_map.
    destruct (questionType e); cbn [qtype_eqb orb];
      rewrite ?pushIf_length; reflexivity. }
  split; [exact Hlen|].
  unfold validateSurveyEntry in *. unfold validateSurveyEntryLegacy in *.
  cbn [isValid errors] in *. now rewrite Hlen.
Qed.

Lemma X3_validator_agrees_with_legacy_witness :
  length (errors (validateSurveyEntry badEntry))
  = length (errors (validateSurveyEntryLegacy (toLegacy badEntry)))
  /\ isValid (validateSurveyEntry badEntry)
     = isValid (validateSurveyEntryLegacy (toLegacy badEntry)).
Proof.
  apply (X3_validator_agrees_with_legacy badEntry).
  - reflexivity.
  - constructor.
Defined.

Lemma valid_parts (e : SurveyEntryForm) :
  isValid (validateSurveyEntry e) = true ->
  blank (question e) = false
  /\ (if isFollowUp e then followUpConfigured e else true) = true.
Proof.
  rewrite isValid_acceptableb. unfold acceptableb.
  rewrite !andb_true_iff, negb_true_iff. tauto.
Qed.

(** X4: switching the type of a valid question in the editor keeps it
    valid when the new type is GRID or TEXT; when the new type is RADIO or
    CHECKBOX the question gets two empty choices and fails validation with
    exactly one error, the one about choices without text or image. *)
Theorem X4_type_change_validity :
  forall (e : SurveyEntryForm) (u1 u2 : jsstring),
    isValid (validateSurveyEntry e) = true ->
    isValid (validateSurveyEntry (handleQuestionTypeChange GRID u1 u2 e)) = true
    /\ isValid (validateSurveyEntry (handleQuestionTypeChange TEXT u1 u2 e)) = true
    /\ errors (validateSurveyEntry (handleQuestionTypeChange RADIO u1 u2 e))
       = [lit "All choices must have text or an image"]
    /\ errors (validateSurveyEntry (handleQuestionTypeChange CHECKBOX u1 u2 e))
       = [lit "All choices must have text or an image"].
Proof.
  intros e u1 u2 Hvalid.
  destruct (valid_parts e Hvalid) as [Hq Hfu].
  repeat split.
  - rewrite isValid_acceptableb. unfold acceptableb, followUpConfigured in *.
    cbn [handleQuestionTypeChange question questionType choices gridRows
         isFollowUp parentQuestionClientId parentQuestionId
         triggerChoiceClientIds triggerChoiceIds getDefaultQuestionFields
         fst snd qtype_eqb orb length Nat.ltb Nat.leb negb andb].
    now rewrite Hq, Hfu.
  - rewrite isValid_acceptableb. unfold acceptableb, followUpConfigured in *.
    cbn [handleQuestionTypeChange question questionType choices gridRows
         isFollowUp parentQuestionClientId parentQuestionId
         triggerChoiceClientIds triggerChoiceIds getDefaultQuestionFields
         fst snd qtype_eqb orb length Nat.ltb Nat.leb negb andb].
    now rewrite Hq, Hfu.
  - unfold validateSurveyEntry, followUpConfigured in *.
    cbn [handleQuestionTypeChange question questionType choices gridRows
         isFollowUp parentQuestionClientId parentQuestionId
         triggerChoiceClientIds triggerChoiceIds getDefaultQuestionFields
         fst snd qtype_eqb orb errors].
    rewrite Hq. cbn.
    destruct (isFollowUp e); [|reflexivity].
    apply andb_true_iff in Hfu. destruct Hfu as [Hp Ht].
    apply orb_true_iff in Hp. apply orb_true_iff in Ht.
    destruct (truthyStr (parentQuestionClientId e)),
             (truthyStr (parentQuestionId e)),
             (missingOrEmpty (triggerChoiceClientIds e)),
             (missingOrEmpty (triggerChoiceIds e));
      cbn in Hp, Ht |- *; try reflexivity;
      try (destruct Hp; discriminate); try (destruct Ht; discriminate).
  - unfold validateSurveyEntry, followUpConfigured in *.
    cbn [handleQuestionTypeChange question questionType choices gridRows
         isFollowUp parentQuestionClientId parentQuestionId
         triggerChoiceClientIds triggerChoiceIds getDefaultQuestionFields
         fst snd qtype_eqb orb errors].
    rewrite Hq. cbn.
    destruct (isFollowUp e); [|reflexivity].
    apply andb_true_iff in Hfu. destruct Hfu as [Hp Ht].
    apply orb_true_iff in Hp. apply orb_true_iff in Ht.
    destruct (truthyStr (parentQuestionClientId e)),
             (truthyStr (parentQuestionId e)),
             (missingOrEmpty (triggerChoiceClientIds e)),
             (missingOrEmpty (triggerChoiceIds e));
      cbn in Hp, Ht |- *; try reflexivity;
      try (destruct Hp; discriminate); try (destruct Ht; discriminate).
Qed.

Lemma X4_type_change_validity_witness :
  isValid (validateSurveyEntry
             (handleQuestionTypeChange GRID (lit "u6") (lit "u7") filledQuestion))
  = true
  /\ isValid (validateSurveyEntry
                (handleQuestionTypeChange TEXT (lit "u6") (lit "u7") filledQuestion))
     = true
  /\ errors (validateSurveyEntry
               (handleQuestionTypeChange RADIO (lit "u6") (lit "u7") filledQuestion))
     = [lit "All choices must have text or an image"]
  /\ errors (validateSurveyEntry
               (handleQuestionTypeChange CHECKBOX (lit "u6") (lit "u7") filledQuestion))
     = [lit "All choices must have text or an image"].
Proof.
  apply (X4_type_change_validity filledQuestion (lit "u6") (lit "u7")).
  reflexivity.
Defined.

Lemma emptyEntry_invalid (u0 u1 u2 : jsstring) (n : option Z) :
  isValid (validateSurveyEntry (emptyEntry u0 u1 u2 n)) = false.
Proof. reflexivity. Qed.

Lemma handleSubmit_blocked (st : FormState) (succeeds : nat -> bool)
      (s : SurveySectionForm) (e : SurveyEntryForm) :
  In s (sections st) -> In e (checkedEntries s) ->
  isValid (validateSurveyEntry e) = false ->
  calls (handleSubmit st succeeds) = []
  /\ nextState (handleSubmit st succeeds) = st.
Proof.
  intros Hs He Hbad.
  destruct (validateForm st) as [err|] eqn:Hv.
  - rewrite (handleSubmit_invalid st succeeds err Hv). split; reflexivity.
  - exfalso. now apply (validateForm_some st s e Hs He Hbad).
Qed.

Lemma mapi_from_length {A B} (f : A -> nat -> B) (l : list A) :
  forall k, length (mapi_from k f l) = length l.
Proof. induction l as [|a l IH]; intros k; cbn; auto. Qed.

Lemma nth_error_mapi_from {A B} (f : A -> nat -> B) (l : list A) :
  forall i k x, nth_error l k = Some x ->
                nth_error (mapi_from i f l) k = Some (f x (i + k)).
Proof.
  induction l as [|a l IH]; intros i k x H; [now destruct k|].
  destruct k as [|k]; cbn in H |- *.
  - injection H as ->. now rewrite Nat.add_0_r.
  - rewrite <- Nat.add_succ_comm. now apply IH.
Qed.

(** X5: a section added by [addSection] and a question added by
    [addQuestion] start with an empty question text, so as long as the
    text is not filled in, [handleSubmit] dispatches no call and leaves
    the state as it is, in create mode and in edit mode alike. *)
Theorem X5_fresh_question_blocks_save :
  forall (st : FormState) (u0 u1 u2 : jsstring) (succeeds : nat -> bool),
    (calls (handleSubmit (addSection st u0 u1 u2) succeeds) = []
     /\ nextState (handleSubmit (addSection st u0 u1 u2) succeeds)
        = addSection st u0 u1 u2)
    /\ forall (sectionIndex : nat) (st' : FormState),
         addQuestion st sectionIndex u0 u1 u2 = Some st' ->
         calls (handleSubmit st' succeeds) = []
         /\ nextState (handleSubmit st' succeeds) = st'.
Proof.
  intros st u0 u1 u2 succeeds. split.
  - apply handleSubmit_blocked
      with (s := withEntries
                   (emptySection u0 u1 u2 (Some (length (sections st) + 1)))
                   [emptyEntry u0 u1 u2 (Some (getNextQuestionNumber (sections st)))])
           (e := emptyEntry u0 u1 u2 (Some (getNextQuestionNumber (sections st)))).
    + cbn [addSection withSelection withSections sections].
      apply in_or_app. right. now left.
    + cbn. now left.
    + apply emptyEntry_invalid.
  - intros i st' Hadd. unfold addQuestion in Hadd.
    destruct (nth_error (sections st) i) as [s|] eqn:Hs; [|discriminate].
    injection Hadd as <-.
    apply handleSubmit_blocked
      with (s := withEntries s
                   (entries s
                    ++ [emptyEntry u0 u1 u2 (Some (getNextQuestionNumber (sections st)))]))
           (e := emptyEntry u0 u1 u2 (Some (getNextQuestionNumber (sections st)))).
    + cbn [withSelection withSections sections].
      pose proof (nth_error_mapi_from
                    (fun section j =>
                       if j =? i
                       then withEntries section
                              (entries section
                               ++ [emptyEntry u0 u1 u2
                                     (Some (getNextQuestionNumber (sections st)))])
                       else section)
                    (sections st) 0 i s Hs) as Hnth.
      cbn [Nat.add] in Hnth. rewrite Nat.eqb_refl in Hnth.
      eapply nth_error_In. exact Hnth.
    + unfold checkedEntries. cbn [withEntries entries].
      apply in_flat_map.
      exists (emptyEntry u0 u1 u2 (Some (getNextQuestionNumber (sections st)))).
      split; [apply in_or_app; right; now left|now left].
    + apply emptyEntry_invalid.
Qed.

Lemma X5_fresh_question_blocks_save_witness :
  exists st',
    addQuestion loadedSample 0 (lit "u6") (lit "u7") (lit "u8") = Some st'
    /\ calls (handleSubmit st' allSucceed) = []
    /\ nextState (handleSubmit st' allSucceed) = st'.
Proof.
  destruct (addQuestion loadedSample 0 (lit "u6") (lit "u7") (lit "u8"))
    as [st'|] eqn:Hadd; [|discriminate Hadd].
  exists st'. split; [reflexivity|].
  apply (proj2 (X5_fresh_question_blocks_save loadedSample
                  (lit "u6") (lit "u7") (lit "u8") allSucceed) 0 st').
  exact Hadd.
Defined.

(** ** What the detectors compare *)

Lemma ostr_eqb_eq (a b : option jsstring) : ostr_eqb a b = true <-> a = b.
Proof.
  destruct a as [x|], b as [y|]; cbn; try (split; congruence).
  rewrite str_eqb_eq. split; congruence.
Qed.

Lemma obool_eqb_eq (a b : option bool) : obool_eqb a b = true <-> a = b.
Proof.
  destruct a as [[|]|], b as [[|]|]; cbn; split; congruence.
Qed.

Lemma qtype_eqb_eq (a b : SurveyQuestionType) : qtype_eqb a b = true <-> a = b.
Proof. destruct a, b; cbn; split; congruence. Qed.

Lemma entry_unchanged_iff (c o : SurveyEntryForm) :
  hasEntryChanged c o = false <->
  question c = question o /\ questionType c = questionType o
  /\ isRequired c = isRequired o
  /\ entry_hasTextInput c = entry_hasTextInput o
  /\ instanceofFile (questionImageFile c) = false
  /\ questionImage c = questionImage o.
Proof.
  unfold hasEntryChanged.
  rewrite <- (str_eqb_eq (question c) (question o)),
          <- (qtype_eqb_eq (questionType c) (questionType o)),
          <- (Bool.eqb_true_iff (isRequired c) (isRequired o)),
          <- (obool_eqb_eq (entry_hasTextInput c) (entry_hasTextInput o)),
          <- (ostr_eqb_eq (questionImage c) (questionImage o)).
  destruct (str_eqb (question c) (question o)),
           (qtype_eqb (questionType c) (questionType o)),
           (Bool.eqb (isRequired c) (isRequired o)),
           (obool_eqb (entry_hasTextInput c) (entry_hasTextInput o)),
           (instanceofFile (questionImageFile c)),
           (ostr_eqb (questionImage c) (questionImage o));
    cbn [negb]; intuition congruence.
Qed.

Lemma choice_unchanged_iff (c o : SurveyChoiceForm) :
  hasChoiceChanged c o = false <->
  choiceText c = choiceText o /\ choiceOrder c = choiceOrder o
  /\ choice_hasTextInput c = choice_hasTextInput o
  /\ instanceofFile (choiceImageFile c) = false
  /\ choiceImage c = choiceImage o.
Proof.
  unfold hasChoiceChanged.
  rewrite <- (str_eqb_eq (choiceText c) (choiceText o)),
          <- (ostr_eqb_eq (choiceOrder c) (choiceOrder o)),
          <- (obool_eqb_eq (choice_hasTextInput c) (choice_hasTextInput o)),
          <- (ostr_eqb_eq (choiceImage c) (choiceImage o)).
  destruct (str_eqb (choiceText c) (choiceText o)),
           (ostr_eqb (choiceOrder c) (choiceOrder o)),
           (obool_eqb (choice_hasTextInput c) (choice_hasTextInput o)),
           (instanceofFile (choiceImageFile c)),
           (ostr_eqb (choiceImage c) (choiceImage o));
    cbn [negb]; intuition congruence.
Qed.

Lemma row_unchanged_iff (c o : SurveyGridRowForm) :
  hasGridRowChanged c o = false <->
  rowText c = rowText o /\ rowNumber c = rowNumber o
  /\ instanceofFile (rowImageFile c) = false
  /\ rowImage c = rowImage o.
Proof.
  unfold hasGridRowChanged.
  rewrite <- (str_eqb_eq (rowText c) (rowText o)),
          <- (Z.eqb_eq (rowNumber c) (rowNumber o)),
          <- (ostr_eqb_eq (rowImage c) (rowImage o)).
  destruct (str_eqb (rowText c) (rowText o)),
           (Z.eqb (rowNumber c) (rowNumber o)),
           (instanceofFile (rowImageFile c)),
           (ostr_eqb (rowImage c) (rowImage o));
    cbn [negb]; intuition congruence.
Qed.

Lemma section_unchanged_iff (c o : SurveySectionForm) :
  hasSectionChanged c o = false <->
  title c = title o /\ description c = description o.
Proof.
  unfold hasSectionChanged.
  rewrite <- (str_eqb_eq (title c) (title o)),
          <- (ostr_eqb_eq (description c) (description o)).
  destruct (str_eqb (title c) (title o)),
           (ostr_eqb (description c) (description o));
    cbn [negb orb]; intuition congruence.
Qed.

(** X6: each detector reports no change exactly when the fields it
    compares are equal and the current node holds no [File]: question,
    type, required flag, free-text flag and image for an entry; text,
    order letter, free-text flag and image for a choice; text, row number
    and image for a grid row; title and description for a section.  The
    choices, rows, question number and follow-up links of an entry, and
    the section number, are not compared. *)
Theorem X6_detectors_compare_fields :
  (forall c o : SurveyEntryForm,
      hasEntryChanged c o = false <->
      question c = question o /\ questionType c = questionType o
      /\ isRequired c = isRequired o
      /\ entry_hasTextInput c = entry_hasTextInput o
      /\ instanceofFile (questionImageFile c) = false
      /\ questionImage c = questionImage o)
  /\ (forall c o : SurveyChoiceForm,
         hasChoiceChanged c o = false <->
         choiceText c = choiceText o /\ choiceOrder c = choiceOrder o
         /\ choice_hasTextInput c = choice_hasTextInput o
         /\ instanceofFile (choiceImageFile c) = false
         /\ choiceImage c = choiceImage o)
  /\ (forall c o : SurveyGridRowForm,
         hasGridRowChanged c o = false <->
         rowText c = rowText o /\ rowNumber c = rowNumber o
         /\ instanceofFile (rowImageFile c) = false
         /\ rowImage c = rowImage o)
  /\ (forall c o : SurveySectionForm,
         hasSectionChanged c o = false <->
         title c = title o /\ description c = description o).
Proof.
  split; [exact entry_unchanged_iff|].
  split; [exact choice_unchanged_iff|].
  split; [exact row_unchanged_iff|exact section_unchanged_iff].
Qed.

Lemma X6_detectors_compare_fields_witness :
  hasEntryChanged filledQuestion (jsonEntry filledQuestion) = false.
Proof.
  apply (proj2 (proj1 X6_detectors_compare_fields
                  filledQuestion (jsonEntry filledQuestion))).
  repeat split.
Defined.

(** ** The flattened payload *)

Lemma flatChoice_ordered (c : SurveyChoiceForm) (ci : nat) :
  truthyStr (cp_choiceOrder (flatChoice c ci)) = true.
Proof.
  cbn [flatChoice cp_choiceOrder]. unfold orderOr.
  destruct (choiceOrder c) as [[|x r]|]; reflexivity.
Qed.

Lemma flatRow_numbered (r : SurveyGridRowForm) (ri : nat) :
  rp_rowNumber (flatRow r ri) <> 0%Z.
Proof.
  cbn [flatRow rp_rowNumber]. unfold numOr.
  destruct (rowNumber r =? 0)%Z eqn:H; [lia|]. now apply Z.eqb_neq.
Qed.

Lemma mapi_Forall {A B} (P : B -> Prop) (f : A -> nat -> B) (l : list A) :
  (forall x i, P (f x i)) -> Forall P (mapi f l).
Proof.
  intros H. apply Forall_forall. intros y Hy.
  apply in_mapi_from_inv in Hy. destruct Hy as (x & k & _ & ->). apply H.
Qed.

Lemma flatChoice_sent (c : SurveyChoiceForm) (k : nat) :
  choiceSentAs c k (flatChoice c k).
Proof.
  unfold choiceSentAs. cbn [flatChoice cp_clientId cp_choiceText cp_choiceOrder].
  repeat split. unfold orderOr.
  destruct (choiceOrder c) as [[|x r]|]; reflexivity.
Qed.

Lemma flatRow_sent (r : SurveyGridRowForm) (k : nat) :
  rowSentAs r k (flatRow r k).
Proof.
  unfold rowSentAs. cbn [flatRow rp_rowText rp_rowNumber]. split; [reflexivity|].
  unfold numOr. destruct (rowNumber r =? 0)%Z; reflexivity.
Qed.

Lemma carries_flattened (e : SurveyEntryForm) (p : EntryPayload) :
  ep_clientId p = entry_clientId e ->
  ep_choices p = mapi flatChoice (choices e) ->
  ep_gridRows p = mapi flatRow (gridRows e) ->
  carries e p.
Proof.
  intros Hid Hcs Hrs. unfold carries. rewrite Hcs, Hrs.
  split; [exact Hid|]. unfold mapi. rewrite !mapi_from_length.
  split; [reflexivity|]. split; [reflexivity|]. split.
  - intros k c Hc. exists (flatChoice c k). split; [|apply flatChoice_sent].
    now rewrite (nth_error_mapi_from flatChoice (choices e) 0 k c Hc).
  - intros k r Hr. exists (flatRow r k). split; [|apply flatRow_sent].
    now rewrite (nth_error_mapi_from flatRow (gridRows e) 0 k r Hr).
Qed.

(** X8: every payload [flattenEntriesForPayload] emits comes from a
    question of the list or from the follow-up extracted from one of its
    choices, and carries the choices and grid rows of that entry position
    by position: each choice with its own order, or the letter of its
    position when it has none, and each grid row with its own row number,
    or its position plus one when the number is zero.  So every choice
    sent has a non-empty order and every row sent a non-zero number. *)
Theorem X8_flatten_orders_and_row_numbers :
  forall entries : list SurveyEntryForm,
    Forall (fun p => payloadOrdered p
                     /\ exists e, flattenedFrom entries e /\ carries e p)
           (flattenEntriesForPayload entries).
Proof.
  intros es. rewrite flatten_blocks. apply Forall_forall. intros p Hp.
  apply in_numberFrom in Hp. destruct Hp as (q & k & Hq & ->).
  apply in_flat_map in Hq. destruct Hq as [e [He Hq]].
  unfold payloadOrdered. cbn [setNumber ep_choices ep_gridRows].
  destruct Hq as [<-|Hq].
  - split.
    + cbn [flatMain ep_choices ep_gridRows]. split.
      * apply mapi_Forall. apply flatChoice_ordered.
      * apply mapi_Forall. apply flatRow_numbered.
    + exists e. split; [now left|].
      now apply carries_flattened.
  - unfold followUpsOf in Hq. apply in_flat_map in Hq.
    destruct Hq as [c [Hc Hq]].
    destruct (activeFollowUp c) as [fu|] eqn:Hact; [|contradiction].
    destruct Hq as [<-|[]]. split.
    + cbn [flatFollowUp ep_choices ep_gridRows]. split.
      * apply mapi_Forall. apply flatChoice_ordered.
      * apply mapi_Forall. apply flatRow_numbered.
    + exists fu. split; [right; now exists e, c|].
      now apply carries_flattened.
Qed.

Lemma followUpsOf_count (e : SurveyEntryForm) :
  length (followUpsOf e) = countFollowUps e.
Proof.
  unfold followUpsOf, countFollowUps.
  induction (choices e) as [|c cs IH]; [reflexivity|].
  cbn [flat_map filter]. destruct (activeFollowUp c); cbn [app length]; lia.
Qed.

Lemma count_entries_fold (es : list SurveyEntryForm) :
  forall t, fold_left (fun t entry => t + countFollowUps entry) es t
            + length es
            = t + length (flat_map block es).
Proof.
  induction es as [|e es IH]; intros t; [cbn; lia|].
  cbn [fold_left flat_map length]. rewrite length_app.
  unfold block at 1. cbn [length]. rewrite followUpsOf_count.
  specialize (IH (t + countFollowUps e)). lia.
Qed.

Lemma fold_left_add_start (es : list SurveyEntryForm) :
  forall t k, fold_left (fun t entry => t + countFollowUps entry) es (t + k)
              = fold_left (fun t entry => t + countFollowUps entry) es t + k.
Proof.
  induction es as [|e es IH]; intros t k; [reflexivity|].
  cbn [fold_left].
  replace (t + k + countFollowUps e) with (t + countFollowUps e + k) by lia.
  apply IH.
Qed.

Lemma count_sections_fold (secs : list SurveySectionForm) :
  forall t,
    fold_left (fun total section =>
                 fold_left (fun t entry => t + countFollowUps entry)
                           (entries section)
                           (total + length (entries section)))
              secs t
    = t + length (flat_map (fun s => flattenEntriesForPayload (entries s)) secs).
Proof.
  induction secs as [|s secs IH]; intros t; [cbn; lia|].
  cbn [fold_left flat_map]. rewrite IH, length_app, flatten_blocks.
  rewrite numberFrom_length, fold_left_add_start.
  pose proof (count_entries_fold (entries s) t). lia.
Qed.

(** X9: [getNextQuestionNumber] is one more than the number of payloads
    [flattenEntriesForPayload] emits for all sections together: it counts
    every question and every follow-up that the flattening extracts, and
    nothing else. *)
Theorem X9_next_number_counts_flattened :
  forall secs : list SurveySectionForm,
    getNextQuestionNumber secs
    = (Z.of_nat (length (flat_map (fun s => flattenEntriesForPayload (entries s))
                                  secs)) + 1)%Z.
Proof.
  intros secs. unfold getNextQuestionNumber.
  now rewrite count_sections_fold.
Qed.

Lemma mapi_from_numbers {A B C} (g : B -> C) (f : A -> nat -> B)
      (h : nat -> C) (l : list A) :
  (forall x i, g (f x i) = h i) ->
  forall i, map g (mapi_from i f l) = map h (seq i (length l)).
Proof.
  intros H. induction l as [|x l IH]; intros i; [reflexivity|].
  cbn [mapi_from map length seq]. now rewrite H, IH.
Qed.

(** X11: the section numbers sent are dense: the payload of a new survey
    numbers its sections 1, 2, ..., n by position, whatever their own
    [sectionNumber], and the bulk payload of an edit numbers the new
    sections from the original section count plus one. *)
Theorem X11_section_numbers_dense :
  forall (st : FormState) (count : nat) (newSections : list SurveySectionForm),
    map sp_sectionNumber (csp_sections (createPayload st))
    = map (fun i => Z.of_nat (S i)) (seq 0 (length (sections st)))
    /\ map sp_sectionNumber (bulkPayload count newSections)
       = map (fun i => Z.of_nat (count + S i)) (seq 0 (length newSections)).
Proof.
  intros st count newSections. split.
  - cbn [createPayload csp_sections]. unfold mapi.
    apply mapi_from_numbers. intros x i. cbn [sp_sectionNumber]. lia.
  - unfold bulkPayload, mapi.
    apply mapi_from_numbers. intros x i. cbn [sp_sectionNumber]. lia.
Qed.

Lemma filter_all {A} (p : A -> bool) (l : list A) :
  forallb p l = true -> filter p l = l.
Proof.
  induction l as [|a l IH]; [reflexivity|]. cbn [forallb filter].
  intros H. apply andb_true_iff in H. destruct H as [Ha Hl].
  now rewrite Ha, IH.
Qed.

Lemma filter_none {A} (p : A -> bool) (l : list A) :
  forallb (fun x => negb (p x)) l = true -> filter p l = [].
Proof.
  induction l as [|a l IH]; [reflexivity|]. cbn [forallb filter].
  intros H. apply andb_true_iff in H. destruct H as [Ha Hl].
  apply negb_true_iff in Ha. now rewrite Ha, IH.
Qed.

Lemma map_mapi {A B C} (g : B -> C) (f : A -> nat -> B) (h : A -> C)
      (l : list A) :
  (forall x i, g (f x i) = h x) -> map g (mapi f l) = map h l.
Proof. intros H. unfold mapi. now apply map_mapi_from. Qed.

Lemma plain_entry_block (e : SurveyEntryResponse) :
  followUpsOf (entryToForm [] e) = [].
Proof.
  unfold followUpsOf. cbn [entryToForm choices].
  induction (er_choices e) as [|c cs IH]; [reflexivity|].
  cbn [map flat_map]. rewrite IH. reflexivity.
Qed.

Lemma plain_entry_matches (e : SurveyEntryResponse) (n : Z) :
  payloadMatches e (setNumber n (flatMain (entryToForm [] e) 0)).
Proof.
  unfold payloadMatches.
  cbn [setNumber flatMain entryToForm ep_clientId ep_question ep_questionType
       ep_isRequired ep_isFollowUp ep_choices ep_gridRows entry_clientId
       question questionType isRequired choices gridRows].
  repeat split.
  - rewrite (map_mapi cp_clientId flatChoice choice_clientId) by reflexivity.
    rewrite map_map. reflexivity.
  - rewrite (map_mapi cp_choiceText flatChoice choiceText) by reflexivity.
    rewrite map_map. reflexivity.
  - rewrite (map_mapi rp_rowText flatRow rowText) by reflexivity.
    rewrite map_map. reflexivity.
Qed.

Lemma plain_entries_flatten (es : list SurveyEntryResponse) :
  forall n, Forall2 payloadMatches es
                    (numberFrom n (flat_map block (map (entryToForm []) es))).
Proof.
  induction es as [|e es IH]; intros n; [constructor|].
  cbn [map flat_map]. unfold block at 1. rewrite plain_entry_block.
  cbn [app numberFrom]. constructor; [apply plain_entry_matches|apply IH].
Qed.

(** X10: for a section of the response that holds no follow-up entry,
    loading it with [transformResponseToForm] and flattening it again
    with [flattenEntriesForPayload] gives one payload per entry, in the
    same order, with the server id as clientId, the same question, type,
    required flag, choice ids, choice texts and row texts, none flagged as
    a follow-up, numbered 1, 2, ..., n. *)
Theorem X10_load_then_flatten :
  forall sec : SurveySectionResponse,
    forallb (fun e => negb (er_isFollowUp e)) (sr_entries sec) = true ->
    Forall2 payloadMatches (sr_entries sec)
            (flattenEntriesForPayload (entries (sectionToForm sec)))
    /\ map ep_questionNumber
           (flattenEntriesForPayload (entries (sectionToForm sec)))
       = map (fun i => Some (Z.of_nat (S i))) (seq 0 (length (sr_entries sec))).
Proof.
  intros sec Hplain.
  assert (Hflat : flattenEntriesForPayload (entries (sectionToForm sec))
                  = numberFrom 1 (flat_map block
                                    (map (entryToForm []) (sr_entries sec)))).
  { rewrite flatten_blocks. cbn [sectionToForm entries].
    rewrite (filter_all _ _ Hplain), (filter_none _ _ Hplain). reflexivity. }
  rewrite Hflat. split; [apply plain_entries_flatten|].
  pose proof (plain_entries_flatten (sr_entries sec) 1) as Hall.
  apply Forall2_length in Hall.
  rewrite numberFrom_numbers. rewrite numberFrom_length in Hall.
  rewrite <- Hall. apply map_ext. intros i. f_equal. lia.
Qed.

Lemma X10_load_then_flatten_witness :
  Forall2 payloadMatches [mainE1]
          (flattenEntriesForPayload
             (entries (sectionToForm
                         (mkSectionResponse (lit "s1") (lit "Attendance") None 1
                                            [mainE1]))))
  /\ map ep_questionNumber
         (flattenEntriesForPayload
            (entries (sectionToForm
                        (mkSectionResponse (lit "s1") (lit "Attendance") None 1
                                           [mainE1]))))
     = [Some 1%Z].
Proof.
  apply (X10_load_then_flatten
           (mkSectionResponse (lit "s1") (lit "Attendance") None 1 [mainE1])).
  reflexivity.
Defined.

(** ** The calls and the outcomes of handleSubmit *)

Lemma planEdit_positive (st : FormState) (p : Planned) :
  In p (planEdit st) -> 0 < snd p.
Proof.
  intros Hp. unfold planEdit in Hp.
  repeat (apply in_app_or in Hp; destruct Hp as [Hp|Hp]);
    try (apply in_map_iff in Hp; destruct Hp as [x [<- _]]; cbn; lia).
  unfold addNewSections in Hp.
  destruct (0 <? length _) eqn:Hlen; [|contradiction].
  destruct Hp as [<-|[]]. cbn. now apply Nat.ltb_lt in Hlen.
Qed.

Lemma planEdit_total_positive (st : FormState) :
  planEdit st <> [] -> 0 < totalChanges (planEdit st).
Proof.
  intros Hne. pose proof (planEdit_positive st) as Hpos.
  destruct (planEdit st) as [|p r]; [now elim Hne|].
  specialize (Hpos p (or_introl eq_refl)).
  unfold totalChanges. cbn [fold_right]. lia.
Qed.

Lemma tally_all_succeed (succeeds : nat -> bool) (p : list Planned) :
  (forall i, succeeds i = true) ->
  forall i, tally i succeeds p = (totalChanges p, 0).
Proof.
  intros Hall. induction p as [|[c w] p IH]; intros i; [reflexivity|].
  cbn [tally]. rewrite IH, Hall. reflexivity.
Qed.

Lemma tally_all_fail (succeeds : nat -> bool) (p : list Planned) :
  (forall i, succeeds i = false) ->
  forall i, tally i succeeds p = (0, totalChanges p).
Proof.
  intros Hall. induction p as [|[c w] p IH]; intros i; [reflexivity|].
  cbn [tally]. rewrite IH, Hall. reflexivity.
Qed.

Lemma update_is_submit_call (st : FormState) (c : ApiCall) :
  isEditMode st = true -> isUpdateCall c -> isSubmitCall st c.
Proof. intros Hedit. destruct c; cbn; tauto. Qed.

(** X12: [handleSubmit] never deletes anything and never creates a choice
    or a grid row: in create mode it sends at most the one call that
    creates the survey, and in edit mode only updates, the bulk creation
    of sections and the creation of entries.  A choice or row added to a
    question that is already on the server is therefore not sent by it. *)
Theorem X12_handleSubmit_call_kinds :
  forall (st : FormState) (succeeds : nat -> bool),
    Forall (isSubmitCall st) (calls (handleSubmit st succeeds))
    /\ (isEditMode st = false -> length (calls (handleSubmit st succeeds)) <= 1).
Proof.
  intros st succeeds.
  destruct (validateForm st) as [err|] eqn:Hvalid.
  { rewrite (handleSubmit_invalid st succeeds err Hvalid). cbn. split; auto. }
  destruct (isEditMode st) eqn:Hedit.
  - split; [|discriminate].
    rewrite (handleSubmit_calls_planned st succeeds Hedit Hvalid).
    unfold planEdit. rewrite !map_app, !map_map. cbn [fst single].
    rewrite !map_id.
    repeat (apply Forall_app; split).
    + eapply Forall_impl; [|apply detectSections_updates].
      intros c. now apply update_is_submit_call.
    + eapply Forall_impl; [|apply detectQuestions_updates].
      intros c. now apply update_is_submit_call.
    + unfold addNewSections. destruct (0 <? length _); cbn; auto.
    + eapply Forall_impl; [|apply addNewEntries_sources].
      intros c (s & e & _ & _ & _ & ->). exact Hedit.
  - unfold handleSubmit. rewrite Hvalid, Hedit. cbn. split; auto.
Qed.

(** X13: when an edit-mode save has changes to send, calls no update
    hook twice (so that every promise of the save resolves) and every call
    succeeds, the success toast counts all the detected changes, the
    survey data is refreshed, the working tree is kept, and the snapshot
    and the original counts are taken from the working tree (the snapshot
    is its JSON copy). *)
Theorem X13_full_success_commits_snapshot :
  forall (st : FormState) (succeeds : nat -> bool),
    isEditMode st = true -> validateForm st = None ->
    planEdit st <> [] ->
    allResolve (map fst (planEdit st)) = true ->
    (forall i, succeeds i = true) ->
    handleSubmit st succeeds
    = mkSubmitResult (map fst (planEdit st))
        [(TSuccess, lit "All " ++ showNat (totalChanges (planEdit st))
                    ++ lit " change(s) saved successfully")]
        true (commitSnapshot st)
    /\ sections (commitSnapshot st) = sections st
    /\ synced (commitSnapshot st).
Proof.
  intros st succeeds Hedit Hvalid Hplan Hres Hall.
  pose proof (planEdit_total_positive st Hplan) as Hpos.
  split; [|split; [reflexivity|apply commitSnapshot_synced]].
  unfold handleSubmit. rewrite Hvalid, Hedit, Hres. cbn [negb].
  rewrite (tally_all_succeed succeeds (planEdit st) Hall 0).
  replace (totalChanges (planEdit st) =? 0) with false
    by (symmetry; apply Nat.eqb_neq; lia).
  reflexivity.
Qed.

Lemma X13_full_success_commits_snapshot_witness :
  handleSubmit twoEdits allSucceed
  = mkSubmitResult (map fst (planEdit twoEdits))
      [(TSuccess, lit "All " ++ showNat (totalChanges (planEdit twoEdits))
                  ++ lit " change(s) saved successfully")]
      true (commitSnapshot twoEdits)
  /\ sections (commitSnapshot twoEdits) = sections twoEdits
  /\ synced (commitSnapshot twoEdits).
Proof.
  apply (X13_full_success_commits_snapshot twoEdits allSucceed).
  - reflexivity.
  - vm_compute. reflexivity.
  - vm_compute. discriminate.
  - vm_compute. reflexivity.
  - reflexivity.
Defined.

(** X14: when an edit-mode save has changes to send, calls no update
    hook twice (so that every promise of the save resolves) and every call
    fails, the error toast counts all the detected changes, no refresh is
    asked for, and the state, snapshot included, is left as it was. *)
Theorem X14_total_failure_keeps_state :
  forall (st : FormState) (succeeds : nat -> bool),
    isEditMode st = true -> validateForm st = None ->
    planEdit st <> [] ->
    allResolve (map fst (planEdit st)) = true ->
    (forall i, succeeds i = false) ->
    handleSubmit st succeeds
    = mkSubmitResult (map fst (planEdit st))
        [(TError, lit "Failed to save " ++ showNat (totalChanges (planEdit st))
                  ++ lit " change(s)")]
        false st.
Proof.
  intros st succeeds Hedit Hvalid Hplan Hres Hall.
  pose proof (planEdit_total_positive st Hplan) as Hpos.
  unfold handleSubmit. rewrite Hvalid, Hedit, Hres. cbn [negb].
  rewrite (tally_all_fail succeeds (planEdit st) Hall 0).
  replace (totalChanges (planEdit st) =? 0) with false
    by (symmetry; apply Nat.eqb_neq; lia).
  cbn [Nat.ltb Nat.leb].
  reflexivity.
Qed.

Lemma X14_total_failure_keeps_state_witness :
  handleSubmit twoEdits allFail
  = mkSubmitResult (map fst (planEdit twoEdits))
      [(TError, lit "Failed to save " ++ showNat (totalChanges (planEdit twoEdits))
                ++ lit " change(s)")]
      false twoEdits.
Proof.
  apply (X14_total_failure_keeps_state twoEdits allFail).
  - reflexivity.
  - vm_compute. reflexivity.
  - vm_compute. discriminate.
  - vm_compute. reflexivity.
  - reflexivity.
Defined.

(** ** Edits of a loaded survey and the calls they lead to *)

Lemma mapi_from_same {A} (f : A -> nat -> A) (l : list A) :
  forall k, (forall x j, k <= j -> f x j = x) -> mapi_from k f l = l.
Proof.
  induction l as [|a l IH]; intros k H; [reflexivity|].
  cbn [mapi_from]. rewrite H by lia. f_equal. apply IH.
  intros x j Hj. apply H. lia.
Qed.

Lemma mapi_from_replace {A} (g : A -> A) (l1 : list A) (s : A) (l2 : list A) :
  forall k,
    mapi_from k (fun x j => if j =? k + length l1 then g x else x)
              (l1 ++ s :: l2)
    = l1 ++ g s :: l2.
Proof.
  induction l1 as [|a l1 IH]; intros k.
  - cbn [app length mapi_from]. rewrite Nat.add_0_r, Nat.eqb_refl. f_equal.
    apply mapi_from_same. intros x j Hj.
    replace (j =? k) with false; [reflexivity|].
    symmetry. apply Nat.eqb_neq. lia.
  - cbn [app length mapi_from].
    replace (k =? k + S (length l1)) with false
      by (symmetry; apply Nat.eqb_neq; lia).
    f_equal. rewrite <- (IH (S k)).
    f_equal. (* the two index tests agree *)
    replace (S k + length l1) with (k + S (length l1)) by lia. reflexivity.
Qed.

Lemma mapi_replace {A} (g : A -> A) (l : list A) (i : nat) (s : A) :
  nth_error l i = Some s ->
  exists l1 l2,
    l = l1 ++ s :: l2 /\ length l1 = i
    /\ mapi (fun x j => if j =? i then g x else x) l = l1 ++ g s :: l2.
Proof.
  intros H. apply nth_error_split in H. destruct H as (l1 & l2 & -> & <-).
  exists l1, l2. repeat split. unfold mapi.
  apply (mapi_from_replace g l1 s l2 0).
Qed.

Lemma detectSections_app (a b a' b' : list SurveySectionForm) :
  length a = length a' ->
  forall k, detectSections k (a ++ b) (a' ++ b')
            = detectSections k a a' ++ detectSections (k + length a) b b'.
Proof.
  revert a'. induction a as [|x a IH]; intros [|x' a'] Hlen k;
    try discriminate.
  - cbn. now rewrite Nat.add_0_r.
  - cbn [app detectSections length]. rewrite <- app_assoc. f_equal.
    rewrite IH by (cbn in Hlen; lia). do 2 f_equal. lia.
Qed.

Lemma detectQuestions_app (a b a' b' : list SurveySectionForm) :
  length a = length a' ->
  detectQuestions (a ++ b) (a' ++ b')
  = detectQuestions a a' ++ detectQuestions b b'.
Proof.
  revert a'. induction a as [|x a IH]; intros [|x' a'] Hlen;
    try discriminate; [reflexivity|].
  cbn [app detectQuestions]. rewrite <- app_assoc. f_equal.
  apply IH. cbn in Hlen. lia.
Qed.

Lemma addNewEntries_app (counts : list nat) (a b : list SurveySectionForm) :
  forall k, addNewEntries k counts (a ++ b)
            = addNewEntries k counts a ++ addNewEntries (k + length a) counts b.
Proof.
  induction a as [|x a IH]; intros k.
  - cbn. now rewrite Nat.add_0_r.
  - cbn [app addNewEntries length]. rewrite <- app_assoc. f_equal.
    rewrite IH. do 2 f_equal. lia.
Qed.

Lemma addNewEntries_no_growth (counts : list nat) (secs : list SurveySectionForm) :
  forall k,
    (forall j s, nth_error secs j = Some s ->
                 length (entries s) <= nth (k + j) counts 0) ->
    addNewEntries k counts secs = [].
Proof.
  induction secs as [|s secs IH]; intros k H; [reflexivity|].
  cbn [addNewEntries].
  specialize (H 0 s eq_refl) as H0. rewrite Nat.add_0_r in H0.
  replace (nth k counts 0 <? length (entries s)) with false
    by (symmetry; apply Nat.ltb_ge; exact H0).
  cbn [andb app]. apply IH. intros j x Hj.
  specialize (H (S j) x Hj). now rewrite <- Nat.add_succ_comm in H.
Qed.

Lemma nth_map_length (secs : list SurveySectionForm) (j : nat)
      (s : SurveySectionForm) :
  nth_error secs j = Some s ->
  nth j (map (fun x => length (entries x)) secs) 0 = length (entries s).
Proof.
  revert j. induction secs as [|a secs IH]; intros [|j] H;
    try discriminate; cbn in H |- *.
  - now injection H as ->.
  - now apply IH.
Qed.

Lemma noPendingUploads_app (a b : list SurveySectionForm) :
  noPendingUploads (a ++ b) = noPendingUploads a && noPendingUploads b.
Proof. unfold noPendingUploads. apply forallb_app. Qed.

Lemma jsonSections_app (a b : list SurveySectionForm) :
  jsonSections (a ++ b) = jsonSections a ++ jsonSections b.
Proof. unfold jsonSections. apply map_app. Qed.

Lemma jsonSections_length (a : list SurveySectionForm) :
  length (jsonSections a) = length a.
Proof. unfold jsonSections. apply length_map. Qed.

Lemma clean_sections_split (l1 : list SurveySectionForm) (s : SurveySectionForm)
      (l2 : list SurveySectionForm) :
  noPendingUploads (l1 ++ s :: l2) = true ->
  noPendingUploads l1 = true /\ forallb entryClean (entries s) = true
  /\ noPendingUploads l2 = true.
Proof.
  rewrite noPendingUploads_app. intros H.
  apply andb_true_iff in H. destruct H as [H1 H]. split; [exact H1|].
  unfold noPendingUploads in H. cbn [forallb] in H.
  now apply andb_true_iff in H.
Qed.

Lemma counts_before (l1 : list SurveySectionForm) (s : SurveySectionForm)
      (l2 : list SurveySectionForm) :
  addNewEntries 0 (map (fun x => length (entries x)) (l1 ++ s :: l2)) l1 = [].
Proof.
  apply addNewEntries_no_growth. intros j x Hj. cbn [Nat.add].
  rewrite (nth_map_length (l1 ++ s :: l2) j x); [lia|].
  rewrite nth_error_app1; [exact Hj|].
  apply nth_error_Some. congruence.
Qed.

Lemma counts_after (l1 : list SurveySectionForm) (s : SurveySectionForm)
      (l2 : list SurveySectionForm) :
  addNewEntries (length l1 + 1)
                (map (fun x => length (entries x)) (l1 ++ s :: l2)) l2 = [].
Proof.
  apply addNewEntries_no_growth. intros j x Hj.
  rewrite (nth_map_length (l1 ++ s :: l2) (length l1 + 1 + j) x); [lia|].
  rewrite nth_error_app2 by lia.
  replace (length l1 + 1 + j - length l1) with (S j) by lia. exact Hj.
Qed.

Lemma detectSections_replaced (l1 : list SurveySectionForm)
      (s s' : SurveySectionForm) (l2 : list SurveySectionForm) :
  detectSections 0 (l1 ++ s' :: l2) (jsonSections (l1 ++ s :: l2))
  = detectSections (length l1) [s'] [jsonSection s].
Proof.
  rewrite jsonSections_app.
  rewrite detectSections_app by (symmetry; apply jsonSections_length).
  rewrite detectSections_json. cbn [app Nat.add jsonSections map].
  cbn [detectSections]. fold (jsonSections l2).
  now rewrite detectSections_json.
Qed.

Lemma detectQuestions_replaced (l1 : list SurveySectionForm)
      (s s' : SurveySectionForm) (l2 : list SurveySectionForm) :
  noPendingUploads l1 = true -> noPendingUploads l2 = true ->
  detectQuestions (l1 ++ s' :: l2) (jsonSections (l1 ++ s :: l2))
  = detectEntries (entries s') (map jsonEntry (entries s)).
Proof.
  intros H1 H2. rewrite jsonSections_app.
  rewrite detectQuestions_app by (symmetry; apply jsonSections_length).
  rewrite (detectQuestions_json l1 H1). cbn [app jsonSections map].
  cbn [detectQuestions jsonSection entries]. fold (jsonSections l2).
  rewrite (detectQuestions_json l2 H2). now rewrite app_nil_r.
Qed.

Lemma addNewEntries_replaced (l1 : list SurveySectionForm)
      (s s' : SurveySectionForm) (l2 : list SurveySectionForm) :
  addNewEntries 0 (map (fun x => length (entries x)) (l1 ++ s :: l2))
                (l1 ++ s' :: l2)
  = addNewEntries (length l1)
                  (map (fun x => length (entries x)) (l1 ++ s :: l2)) [s'].
Proof.
  rewrite addNewEntries_app, (counts_before l1 s l2). cbn [app Nat.add].
  change (s' :: l2) with ([s'] ++ l2).
  rewrite addNewEntries_app. cbn [length].
  rewrite (counts_after l1 s l2). now rewrite app_nil_r.
Qed.

(** The plan of a state that differs from a synced, file-free one in one
    section only. *)
Lemma planEdit_replaced (st st' : FormState)
      (l1 : list SurveySectionForm) (s s' : SurveySectionForm)
      (l2 : list SurveySectionForm) :
  synced st -> noPendingUploads (sections st) = true ->
  sections st = l1 ++ s :: l2 ->
  sections st' = l1 ++ s' :: l2 ->
  originalSectionsSnapshot st' = originalSectionsSnapshot st ->
  originalSectionsCount st' = originalSectionsCount st ->
  originalQuestionCounts st' = originalQuestionCounts st ->
  planEdit st'
  = map single
        (detectSections (length l1) [s'] [jsonSection s]
         ++ detectEntries (entries s') (map jsonEntry (entries s))
         ++ addNewEntries (length l1) (originalQuestionCounts st) [s']).
Proof.
  intros (Hsnap & Hcount & Hcounts) Hclean Hsecs Hsecs' Hsnap' Hcount' Hcounts'.
  rewrite Hsecs in Hclean.
  destruct (clean_sections_split l1 s l2 Hclean) as (Hc1 & _ & Hc2).
  unfold planEdit, addNewSections.
  rewrite Hsnap', Hcount', Hcounts', Hsnap, Hcount, Hcounts, Hsecs, Hsecs'.
  assert (Hlen : length (l1 ++ s :: l2) = length (l1 ++ s' :: l2))
    by (rewrite !length_app; reflexivity).
  rewrite Hlen, skipn_all, firstn_all. cbn [length Nat.ltb Nat.leb app].
  rewrite detectSections_replaced, (detectQuestions_replaced l1 s s' l2 Hc1 Hc2),
          addNewEntries_replaced.
  rewrite !map_app. reflexivity.
Qed.

Lemma str_eqb_neq (a b : jsstring) : a <> b -> str_eqb a b = false.
Proof. unfold str_eqb. destruct (jsstring_eq_dec a b); congruence. Qed.

(** X15: on a loaded survey that is in step with its snapshot and has no
    file attached, retitling a section that has a server id makes the
    save send exactly one call, the update of that section with the new
    title, its description and its section number (its own, or its
    position plus one). *)
Theorem X15_title_edit_one_update :
  forall (st : FormState) (succeeds : nat -> bool) (i : nat)
         (s : SurveySectionForm) (id newTitle : jsstring),
    isEditMode st = true -> synced st ->
    noPendingUploads (sections st) = true ->
    nth_error (sections st) i = Some s ->
    idOf (section_id s) = Some id ->
    newTitle <> title s ->
    validateForm (updateSectionTitle st i newTitle) = None ->
    calls (handleSubmit (updateSectionTitle st i newTitle) succeeds)
    = [UpdateSection id
         (mkUpdateSectionData newTitle (description s)
            (sectionNumberOr (sectionNumber s) i))].
Proof.
  intros st succeeds i s id t Hedit Hsync Hclean Hs Hid Hne Hvalid.
  rewrite handleSubmit_calls_planned by assumption.
  destruct (mapi_replace
              (fun section => mkSectionForm t (description section)
                                (sectionNumber section) (entries section)
                                (section_id section))
              (sections st) i s Hs) as (l1 & l2 & Hsecs & Hlen & Hnew).
  rewrite (planEdit_replaced st (updateSectionTitle st i t) l1 s
             (mkSectionForm t (description s) (sectionNumber s) (entries s)
                            (section_id s)) l2 Hsync Hclean Hsecs Hnew
             eq_refl eq_refl eq_refl).
  rewrite Hsecs in Hclean.
  destruct (clean_sections_split l1 s l2 Hclean) as (_ & Hcs & _).
  destruct Hsync as (_ & _ & Hcounts).
  cbn [detectSections section_id entries]. rewrite Hid.
  unfold hasSectionChanged. cbn [title description jsonSection].
  rewrite (str_eqb_neq _ _ Hne). cbn [negb orb app].
  rewrite detectEntries_json by assumption.
  rewrite addNewEntries_no_growth.
  - cbn [app map fst single sectionNumber]. now rewrite Hlen.
  - intros [|j] x Hj; [|now destruct j]. injection Hj as <-.
    cbn [entries]. rewrite Nat.add_0_r, Hcounts, Hlen.
    rewrite (nth_map_length (sections st) i s Hs). lia.
Qed.

Lemma X15_title_edit_one_update_witness :
  calls (handleSubmit (updateSectionTitle loadedSample 0 (lit "Presence"))
                      allSucceed)
  = [UpdateSection (lit "s1")
       (mkUpdateSectionData (lit "Presence") None
          (sectionNumberOr (Some 1%Z) 0))].
Proof.
  apply (X15_title_edit_one_update loadedSample allSucceed 0
           (sectionToForm sectionS1) (lit "s1") (lit "Presence")).
  - reflexivity.
  - repeat split.
  - reflexivity.
  - reflexivity.
  - reflexivity.
  - discriminate.
  - vm_compute. reflexivity.
Defined.

Lemma mapi_replace_at {A} (g : A -> A) (l1 : list A) (s : A) (l2 : list A) :
  mapi (fun x j => if j =? length l1 then g x else x) (l1 ++ s :: l2)
  = l1 ++ g s :: l2.
Proof. unfold mapi. apply (mapi_from_replace g l1 s l2 0). Qed.

Lemma detectEntries_prefix (es extra : list SurveyEntryForm) :
  forallb entryClean es = true ->
  detectEntries (es ++ extra) (map jsonEntry es) = [].
Proof.
  induction es as [|e es IH]; intros H.
  - destruct extra; reflexivity.
  - cbn [forallb] in H. apply andb_true_iff in H. destruct H as [He Hes].
    cbn [app map detectEntries]. now rewrite detectEntry_json, IH.
Qed.

Lemma skipn_length_app {A} (a b : list A) : skipn (length a) (a ++ b) = b.
Proof. induction a as [|x a IH]; [reflexivity|exact IH]. Qed.

(** X16: on a loaded survey that is in step with its snapshot and has no
    file attached, a question added with [addQuestion] to a section that
    has a server id, then edited in place, makes the save send exactly one
    call: the creation of that entry in that section, with the entry as
    edited. *)
Theorem X16_added_question_one_create :
  forall (st st1 : FormState) (succeeds : nat -> bool) (i : nat)
         (s : SurveySectionForm) (u0 u1 u2 : jsstring)
         (merge : SurveyEntryForm -> SurveyEntryForm),
    isEditMode st = true -> synced st ->
    noPendingUploads (sections st) = true ->
    nth_error (sections st) i = Some s ->
    truthyStr (section_id s) = true ->
    addQuestion st i u0 u1 u2 = Some st1 ->
    validateForm (updateQuestion st1 i (length (entries s)) merge) = None ->
    calls (handleSubmit (updateQuestion st1 i (length (entries s)) merge)
                        succeeds)
    = [AddEntry (section_id s)
         (newEntryData
            (merge (emptyEntry u0 u1 u2
                      (Some (getNextQuestionNumber (sections st))))))].
Proof.
  intros st st1 succeeds i s u0 u1 u2 m Hedit Hsync Hclean Hs Hid Hadd Hvalid.
  unfold addQuestion in Hadd. rewrite Hs in Hadd. injection Hadd as <-.
  set (fresh := emptyEntry u0 u1 u2 (Some (getNextQuestionNumber (sections st)))) in *.
  pose proof Hs as Hsplit. apply nth_error_split in Hsplit.
  destruct Hsplit as (l1 & l2 & Hsecs & Hlen). subst i.
  set (st2 := updateQuestion _ _ _ _) in *.
  assert (Hst2 : sections st2
                 = l1 ++ withEntries (withEntries s (entries s ++ [fresh]))
                                     (entries s ++ [m fresh]) :: l2).
  { unfold st2, updateQuestion.
    cbn [withSections withSelection sections].
    rewrite Hsecs, mapi_replace_at.
    rewrite (mapi_replace_at
               (fun section =>
                  withEntries section
                    (mapi (fun entry qI =>
                             if qI =? length (entries s) then m entry else entry)
                          (entries section)))
               l1 (withEntries s (entries s ++ [fresh])) l2).
    cbn [withEntries entries]. now rewrite mapi_replace_at. }
  rewrite handleSubmit_calls_planned by assumption.
  rewrite (planEdit_replaced st st2 l1 s _ l2 Hsync Hclean Hsecs Hst2
             eq_refl eq_refl eq_refl).
  rewrite Hsecs in Hclean.
  destruct (clean_sections_split l1 s l2 Hclean) as (_ & Hcs & _).
  destruct Hsync as (_ & _ & Hcounts).
  cbn [detectSections withEntries section_id entries title description
       jsonSection].
  unfold hasSectionChanged. cbn [title description].
  rewrite str_eqb_refl, ostr_eqb_refl. cbn [negb orb].
  rewrite (detectEntries_prefix _ _ Hcs).
  cbn [addNewEntries withEntries entries section_id].
  rewrite Hcounts, (nth_map_length (sections st) (length l1) s Hs), Hid.
  rewrite length_app. cbn [length].
  replace (length (entries s) <? length (entries s) + 1) with true
    by (symmetry; apply Nat.ltb_lt; lia).
  cbn [andb]. rewrite skipn_length_app.
  destruct (idOf (section_id s)); reflexivity.
Qed.

Lemma X16_added_question_one_create_witness :
  calls (handleSubmit
           (updateQuestion withAddedQuestion 0
              (length (entries (sectionToForm sectionS1)))
              (fun _ => newQuestion2))
           allSucceed)
  = [AddEntry (section_id (sectionToForm sectionS1))
              (newEntryData newQuestion2)].
Proof.
  apply (X16_added_question_one_create loadedSample withAddedQuestion
           allSucceed 0 (sectionToForm sectionS1)
           (lit "u6") (lit "u7") (lit "u8") (fun _ => newQuestion2)).
  - reflexivity.
  - repeat split.
  - reflexivity.
  - reflexivity.
  - reflexivity.
  - reflexivity.
  - vm_compute. reflexivity.
Defined.

Lemma removeAt_length {A} (l : list A) :
  forall i, i < length l -> S (length (removeAt i l)) = length l.
Proof.
  induction l as [|a l IH]; intros i Hi; [cbn in Hi; lia|].
  destruct i as [|i]; [reflexivity|].
  cbn [removeAt length]. rewrite IH; [reflexivity|]. cbn in Hi. lia.
Qed.

Lemma selectAfterRemoval_sections (seen st : FormState) (i q : nat) :
  sections (selectAfterRemoval seen st i q) = sections st
  /\ originalSectionsCount (selectAfterRemoval seen st i q)
     = originalSectionsCount st
  /\ originalQuestionCounts (selectAfterRemoval seen st i q)
     = originalQuestionCounts st
  /\ originalSectionsSnapshot (selectAfterRemoval seen st i q)
     = originalSectionsSnapshot st
  /\ isEditMode (selectAfterRemoval seen st i q) = isEditMode st.
Proof.
  unfold selectAfterRemoval.
  destruct (nth_error (sections seen) i) as [x|];
    repeat match goal with
           | |- context [if ?b then _ else _] => destruct b
           end;
    repeat split.
Qed.

Lemma no_growth_only_updates (st : FormState) (succeeds : nat -> bool) :
  isEditMode st = true ->
  length (sections st) <= originalSectionsCount st ->
  (forall j x, nth_error (sections st) j = Some x ->
               length (entries x) <= nth j (originalQuestionCounts st) 0) ->
  Forall isUpdateCall (calls (handleSubmit st succeeds)).
Proof.
  intros Hedit Hlen Hgrow.
  destruct (validateForm st) as [err|] eqn:Hvalid.
  { rewrite (handleSubmit_invalid st succeeds err Hvalid). constructor. }
  rewrite handleSubmit_calls_planned by assumption.
  unfold planEdit, addNewSections.
  rewrite skipn_all2 by exact Hlen. rewrite firstn_all2 by exact Hlen.
  cbn [length Nat.ltb Nat.leb app].
  rewrite (addNewEntries_no_growth (originalQuestionCounts st) (sections st) 0 Hgrow).
  cbn [map]. rewrite app_nil_r, map_app, !map_map. cbn [fst single].
  rewrite !map_id. apply Forall_app. split.
  - apply detectSections_updates.
  - apply detectQuestions_updates.
Qed.

(** X17: when a question that was on the server has been deleted and
    removed from its section, and a new question is then added to the
    same section, the section holds as many questions as when the survey
    was loaded; [handleSubmit] then sends update calls only: the new
    question, however it is edited, is not created by the save. *)
Theorem X17_deleted_then_added_not_created :
  forall (st st2 : FormState) (succeeds : nat -> bool) (i qi k : nat)
         (s : SurveySectionForm) (u0 u1 u2 : jsstring)
         (merge : SurveyEntryForm -> SurveyEntryForm),
    isEditMode st = true -> synced st ->
    nth_error (sections st) i = Some s ->
    qi < length (entries s) ->
    addQuestion (afterQuestionDeleted st st i qi) i u0 u1 u2 = Some st2 ->
    Forall isUpdateCall
           (calls (handleSubmit (updateQuestion st2 i k merge) succeeds)).
Proof.
  intros st st2 succeeds i qi k s u0 u1 u2 m Hedit Hsync Hs Hqi Hadd.
  destruct Hsync as (Hsnap & Hcount & Hcounts).
  pose proof Hs as Hsplit. apply nth_error_split in Hsplit.
  destruct Hsplit as (l1 & l2 & Hsecs & Hlen). subst i.
  unfold afterQuestionDeleted in Hadd.
  destruct (selectAfterRemoval_sections st
              (removeQuestion st (length l1) qi) (length l1) qi)
    as (Hsel & Hselc & Hselq & _ & Hsele).
  set (st1 := selectAfterRemoval st (removeQuestion st (length l1) qi)
                                 (length l1) qi) in *.
  assert (Hst1 : sections st1
                 = l1 ++ withEntries s (removeAt qi (entries s)) :: l2).
  { rewrite Hsel. unfold removeQuestion. cbn [withSections sections].
    rewrite Hsecs.
    apply (mapi_replace_at
             (fun section => withEntries section (removeAt qi (entries section)))
             l1 s l2). }
  unfold addQuestion in Hadd.
  assert (Hnth : nth_error (sections st1) (length l1)
                 = Some (withEntries s (removeAt qi (entries s)))).
  { rewrite Hst1, nth_error_app2 by lia. now rewrite Nat.sub_diag. }
  rewrite Hnth in Hadd. injection Hadd as <-.
  set (fresh := emptyEntry u0 u1 u2 (Some (getNextQuestionNumber (sections st1)))).
  set (st3 := updateQuestion _ _ _ _).
  assert (Hlens : map (fun x => length (entries x)) (sections st3)
                  = map (fun x => length (entries x)) (sections st)).
  { unfold st3, updateQuestion. cbn [withSections withSelection sections].
    rewrite (map_mapi (fun x => length (entries x)) _
                      (fun x => length (entries x))).
    2:{ intros x j. destruct (j =? length l1); [|reflexivity].
        cbn [withEntries entries]. unfold mapi. apply mapi_from_length. }
    rewrite Hst1.
    rewrite (mapi_replace_at
               (fun section => withEntries section (entries section ++ [fresh]))
               l1 (withEntries s (removeAt qi (entries s))) l2).
    rewrite Hsecs, !map_app. cbn [map].
    cbn [withEntries entries]. rewrite length_app. cbn [length].
    rewrite Nat.add_1_r, (removeAt_length (entries s) qi Hqi). reflexivity. }
  apply no_growth_only_updates.
  - unfold st3, updateQuestion. cbn. rewrite Hsele. exact Hedit.
  - replace (originalSectionsCount st3) with (originalSectionsCount st1)
      by reflexivity.
    rewrite Hselc. cbn [removeQuestion withSections originalSectionsCount].
    rewrite Hcount.
    rewrite <- (length_map (fun x => length (entries x)) (sections st3)).
    rewrite Hlens, length_map. lia.
  - intros j x Hj.
    replace (originalQuestionCounts st3) with (originalQuestionCounts st1)
      by reflexivity.
    rewrite Hselq. cbn [removeQuestion withSections originalQuestionCounts].
    rewrite Hcounts, <- Hlens.
    rewrite (nth_map_length (sections st3) j x Hj). lia.
Qed.

Lemma X17_deleted_then_added_not_created_witness :
  Forall isUpdateCall
         (calls (handleSubmit
                   (updateQuestion deletedThenAdded 0 0 (fun _ => newQuestion2))
                   allSucceed)).
Proof.
  apply (X17_deleted_then_added_not_created loadedSample deletedThenAdded
           allSucceed 0 0 0 (sectionToForm sectionS1)
           (lit "u6") (lit "u7") (lit "u8") (fun _ => newQuestion2)).
  - reflexivity.
  - repeat split.
  - reflexivity.
  - cbn. lia.
  - reflexivity.
Defined.

(** ** The outcomes of handleSaveCurrentQuestion *)

Lemma anyRejection_none (succeeds : nat -> bool) (ps : list Promise) :
  forall k,
    (forall i p, nth_error ps i = Some p -> snd p = false ->
                 succeeds (k + i) = true) ->
    anyRejection k succeeds ps = false.
Proof.
  induction ps as [|[c caught] ps IH]; intros k H; [reflexivity|].
  cbn [anyRejection]. rewrite IH.
  - destruct caught; [reflexivity|].
    specialize (H 0 (c, false) eq_refl eq_refl).
    rewrite Nat.add_0_r in H. now rewrite H.
  - intros i p Hi Hp. specialize (H (S i) p Hi Hp).
    now rewrite <- Nat.add_succ_comm in H.
Qed.

(** X18: [handleSaveCurrentQuestion] dispatches nothing and changes
    nothing, and raises one error toast, when no question is selected,
    when the selected question has no server id, or when it fails
    validation (the toast then carries the first error only). *)
Theorem X18_question_save_guards :
  forall (st : FormState) (succeeds : nat -> bool),
    (entryAt (sections st) (selectedSection st) (selectedQuestion st) = None
     \/ exists cur,
         entryAt (sections st) (selectedSection st) (selectedQuestion st)
         = Some cur
         /\ (idOf (entry_id cur) = None
             \/ isValid (validateSurveyEntry cur) = false)) ->
    exists msg,
      handleSaveCurrentQuestion st succeeds
      = mkSaveQuestionResult [] [(TError, msg)] false st.
Proof.
  intros st succeeds [Hnone|(cur & Hcur & [Hid|Hbad])];
    unfold handleSaveCurrentQuestion.
  - rewrite Hnone. eexists. reflexivity.
  - rewrite Hcur, Hid. eexists. reflexivity.
  - rewrite Hcur. destruct (idOf (entry_id cur)).
    + rewrite Hbad. eexists. reflexivity.
    + eexists. reflexivity.
Qed.

Lemma X18_question_save_guards_witness :
  exists msg,
    handleSaveCurrentQuestion withBadEntry allSucceed
    = mkSaveQuestionResult [] [(TError, msg)] false withBadEntry.
Proof.
  apply (X18_question_save_guards withBadEntry allSucceed).
  right. exists badEntry. split; [reflexivity|]. left. reflexivity.
Defined.

(** X19: when a call of the first batch other than a deletion fails, the
    save of the question stops after that batch: every call of the batch
    has been dispatched, no follow-up is created, the error toast is
    raised, no refresh is asked for, and the snapshot is left as it was,
    also for the calls of the batch that succeeded. *)
Theorem X19_rejection_stops_question_save :
  forall (st : FormState) (succeeds : nat -> bool)
         (cur : SurveyEntryForm) (entryId : jsstring),
    entryAt (sections st) (selectedSection st) (selectedQuestion st) = Some cur ->
    idOf (entry_id cur) = Some entryId ->
    isValid (validateSurveyEntry cur) = true ->
    let promises :=
      basicOperations entryId cur
        (entryAt (originalSectionsSnapshot st) (selectedSection st)
                 (selectedQuestion st)) in
    anyRejection 0 succeeds promises = true ->
    handleSaveCurrentQuestion st succeeds
    = mkSaveQuestionResult
        (map (fun p => Dispatch (fst p)) promises ++ [AwaitAll])
        [(TError, lit "Failed to save question changes")] false st
    /\ Forall (fun p => isEntryCreate (fst p) = false) promises.
Proof.
  intros st succeeds cur entryId Hcur Hid Hvalid promises Hrej. split.
  - unfold handleSaveCurrentQuestion. rewrite Hcur, Hid, Hvalid. cbn [negb].
    fold promises. now rewrite Hrej.
  - apply Forall_forall. intros p Hp.
    now apply (basicOperations_kinds entryId cur _ p Hp).
Qed.

Lemma X19_rejection_stops_question_save_witness :
  handleSaveCurrentQuestion mixedReference allFail
  = mkSaveQuestionResult
      (map (fun p => Dispatch (fst p))
           (basicOperations (lit "e1")
              (appendChoice newChoiceWithFollowUp filledQuestion)
              (Some (jsonEntry filledQuestion)))
       ++ [AwaitAll])
      [(TError, lit "Failed to save question changes")] false mixedReference
  /\ Forall (fun p => isEntryCreate (fst p) = false)
            (basicOperations (lit "e1")
               (appendChoice newChoiceWithFollowUp filledQuestion)
               (Some (jsonEntry filledQuestion))).
Proof.
  apply (X19_rejection_stops_question_save mixedReference allFail
           (appendChoice newChoiceWithFollowUp filledQuestion) (lit "e1")).
  - reflexivity.
  - reflexivity.
  - reflexivity.
  - reflexivity.
Defined.

(** X20: in the save of a question only the deletions of choices and of
    grid rows have their failure swallowed, and such failures change
    nothing: when every other call of the first batch succeeds, the
    events, the toast, the refresh and the new snapshot are those of a
    save in which every call succeeds. *)
Theorem X20_failed_deletions_ignored :
  forall (st : FormState) (succeeds : nat -> bool)
         (cur : SurveyEntryForm) (entryId : jsstring),
    entryAt (sections st) (selectedSection st) (selectedQuestion st) = Some cur ->
    idOf (entry_id cur) = Some entryId ->
    let promises :=
      basicOperations entryId cur
        (entryAt (originalSectionsSnapshot st) (selectedSection st)
                 (selectedQuestion st)) in
    (forall i p, nth_error promises i = Some p ->
                 isDeleteCall (fst p) = false -> succeeds i = true) ->
    handleSaveCurrentQuestion st succeeds
    = handleSaveCurrentQuestion st allSucceed
    /\ Forall (fun p => snd p = isDeleteCall (fst p)) promises.
Proof.
  intros st succeeds cur entryId Hcur Hid promises Hok.
  assert (Hkinds : Forall (fun p => snd p = isDeleteCall (fst p)) promises).
  { apply Forall_forall. intros p Hp.
    now apply (basicOperations_kinds entryId cur _ p Hp). }
  split; [|exact Hkinds].
  unfold handleSaveCurrentQuestion. rewrite Hcur, Hid.
  destruct (negb (isValid (validateSurveyEntry cur))); [reflexivity|].
  fold promises.
  rewrite (anyRejection_none succeeds promises 0).
  - rewrite (anyRejection_none allSucceed promises 0); [reflexivity|].
    intros i p _ _. reflexivity.
  - intros i p Hi Hp. cbn [Nat.add]. apply (Hok i p Hi).
    rewrite Forall_forall in Hkinds.
    rewrite <- (Hkinds p (nth_error_In _ _ Hi)). exact Hp.
Qed.

Lemma X20_failed_deletions_ignored_witness :
  handleSaveCurrentQuestion typeChanged deletionsFail
  = handleSaveCurrentQuestion typeChanged allSucceed.
Proof.
  refine (proj1 (X20_failed_deletions_ignored typeChanged deletionsFail
                   (handleQuestionTypeChange GRID (lit "u6") (lit "u7")
                                             filledQuestion)
                   (lit "e1") eq_refl eq_refl _)).
  intros i p Hi Hp. vm_compute in Hi.
  do 7 (destruct i as [|i];
        [injection Hi as <-; first [reflexivity | discriminate Hp]|]).
  destruct i; discriminate Hi.
Defined.

Lemma idOf_truthy (o : option jsstring) :
  truthyStr o = true -> idOf o = o /\ exists x, o = Some x.
Proof.
  destruct o as [[|x r]|]; try discriminate. intros _. split; eauto.
Qed.

Lemma flat_map_nil {A B} (f : A -> list B) (l : list A) :
  (forall x, In x l -> f x = []) -> flat_map f l = [].
Proof.
  induction l as [|a l IH]; intros H; [reflexivity|].
  cbn [flat_map]. rewrite (H a) by now left.
  apply IH. intros x Hx. apply H. now right.
Qed.

Lemma concat_mapi_from_nil {A B} (f : A -> nat -> list B) (l : list A) :
  (forall x i, In x l -> f x i = []) ->
  forall k, concat (mapi_from k f l) = [].
Proof.
  induction l as [|a l IH]; intros H k; [reflexivity|].
  cbn [mapi_from concat]. rewrite (H a k) by now left.
  apply IH. intros x i Hx. apply H. now right.
Qed.

Lemma hasId_present (ids : list (option jsstring)) (id : jsstring) :
  In (Some id) ids -> idOf (Some id) = Some id -> hasId ids id = true.
Proof.
  intros Hin Hid. unfold hasId. apply existsb_exists.
  exists (Some id). split; [exact Hin|]. rewrite Hid. apply str_eqb_refl.
Qed.

Lemma find_own_choice (cs : list SurveyChoiceForm) (c : SurveyChoiceForm) :
  NoDup (map choice_id cs) -> In c cs ->
  find (fun oc => ostr_eqb (choice_id oc) (choice_id c)) (map jsonChoice cs)
  = Some (jsonChoice c).
Proof.
  induction cs as [|a cs IH]; intros Hnd Hin; [contradiction|].
  cbn [map] in Hnd. inversion Hnd as [|? ? Hnotin Hnd']; subst.
  cbn [map find]. change (choice_id (jsonChoice a)) with (choice_id a).
  destruct Hin as [->|Hin].
  - now rewrite ostr_eqb_refl.
  - destruct (ostr_eqb (choice_id a) (choice_id c)) eqn:Heq.
    + apply ostr_eqb_eq in Heq. exfalso. apply Hnotin. rewrite Heq.
      now apply in_map.
    + now apply IH.
Qed.

Lemma find_own_row (rs : list SurveyGridRowForm) (r : SurveyGridRowForm) :
  NoDup (map row_id rs) -> In r rs ->
  find (fun x => ostr_eqb (row_id x) (row_id r)) (map jsonRow rs)
  = Some (jsonRow r).
Proof.
  induction rs as [|a rs IH]; intros Hnd Hin; [contradiction|].
  cbn [map] in Hnd. inversion Hnd as [|? ? Hnotin Hnd']; subst.
  cbn [map find]. change (row_id (jsonRow a)) with (row_id a).
  destruct Hin as [->|Hin].
  - now rewrite ostr_eqb_refl.
  - destruct (ostr_eqb (row_id a) (row_id r)) eqn:Heq.
    + apply ostr_eqb_eq in Heq. exfalso. apply Hnotin. rewrite Heq.
      now apply in_map.
    + now apply IH.
Qed.

Lemma followUps_all_persisted (sectionId : option jsstring) (entryId : jsstring)
      (cur : SurveyEntryForm) (next : Z) (cs : list SurveyChoiceForm) :
  Forall (fun c => forall f, activeFollowUp c = Some f ->
                             truthyStr (entry_id f) = true) cs ->
  forall acc, fold_left (followUpStep sectionId entryId cur next) cs acc = acc.
Proof.
  induction 1 as [|c cs Hc _ IH]; intros acc; [reflexivity|].
  cbn [fold_left]. rewrite <- (IH acc) at 2. f_equal.
  unfold followUpStep. destruct (activeFollowUp c) as [f|]; [|reflexivity].
  now rewrite (Hc f eq_refl).
Qed.

Lemma basicOperations_unchanged (entryId : jsstring) (cur : SurveyEntryForm) :
  entryClean cur = true -> fullyPersisted cur ->
  basicOperations entryId cur (Some (jsonEntry cur)) = [].
Proof.
  intros Hclean (Hcids & Hcnd & Hrids & Hrnd & _).
  unfold entryClean in Hclean.
  apply andb_true_iff in Hclean. destruct Hclean as [Hclean Hrows].
  apply andb_true_iff in Hclean. destruct Hclean as [Hfile Hchoices].
  apply negb_true_iff in Hfile.
  rewrite forallb_forall in Hchoices, Hrows.
  rewrite Forall_forall in Hcids, Hrids.
  unfold basicOperations.
  rewrite hasEntryChanged_json, Hfile. cbn [app].
  assert (H2 : deleteOldChoices cur (Some (jsonEntry cur)) = []).
  { unfold deleteOldChoices. rewrite jsonEntry_choices.
    apply flat_map_nil. intros oc Hoc.
    apply in_map_iff in Hoc. destruct Hoc as [c [<- Hc]].
    change (choice_id (jsonChoice c)) with (choice_id c).
    destruct (idOf_truthy _ (Hcids c Hc)) as [Hid [x Hx]].
    rewrite Hid, Hx. rewrite hasId_present; [reflexivity| |now rewrite <- Hx].
    rewrite <- Hx. now apply in_map. }
  assert (H3 : concat (mapi (saveChoice entryId (Some (jsonEntry cur)))
                            (choices cur)) = []).
  { apply concat_mapi_from_nil. intros c i Hc. unfold saveChoice.
    destruct (idOf_truthy _ (Hcids c Hc)) as [Hid [x Hx]].
    rewrite Hid, Hx, <- Hx, jsonEntry_choices.
    rewrite (find_own_choice _ c Hcnd Hc), hasChoiceChanged_json.
    specialize (Hchoices c Hc). apply negb_true_iff in Hchoices.
    now rewrite Hchoices. }
  assert (H4 : deleteOldGridRows cur (Some (jsonEntry cur)) = []).
  { unfold deleteOldGridRows. rewrite jsonEntry_gridRows.
    apply flat_map_nil. intros orow Hor.
    apply in_map_iff in Hor. destruct Hor as [r [<- Hr]].
    change (row_id (jsonRow r)) with (row_id r).
    destruct (idOf_truthy _ (Hrids r Hr)) as [Hid [x Hx]].
    rewrite Hid, Hx. rewrite hasId_present; [reflexivity| |now rewrite <- Hx].
    rewrite <- Hx. now apply in_map. }
  assert (H5 : concat (mapi (saveGridRow entryId (Some (jsonEntry cur)))
                            (gridRows cur)) = []).
  { apply concat_mapi_from_nil. intros r i Hr. unfold saveGridRow.
    destruct (idOf_truthy _ (Hrids r Hr)) as [Hid [x Hx]].
    rewrite Hid, Hx, <- Hx, jsonEntry_gridRows.
    rewrite (find_own_row _ r Hrnd Hr), hasGridRowChanged_json.
    specialize (Hrows r Hr). apply negb_true_iff in Hrows.
    now rewrite Hrows. }
  now rewrite H2, H3, H4, H5.
Qed.

(** X21: saving a valid question that is on the server, equals the JSON
    copy the snapshot holds at its position, has no file attached, and
    whose choices, rows and embedded follow-ups all have server ids of
    their own (no id used twice) dispatches no call: the only event is the
    await of the empty batch, the toast says there is nothing to save, and
    the state is unchanged. *)
Theorem X21_question_save_round_trip :
  forall (st : FormState) (succeeds : nat -> bool)
         (cur : SurveyEntryForm) (entryId : jsstring),
    entryAt (sections st) (selectedSection st) (selectedQuestion st) = Some cur ->
    idOf (entry_id cur) = Some entryId ->
    isValid (validateSurveyEntry cur) = true ->
    entryAt (originalSectionsSnapshot st) (selectedSection st)
            (selectedQuestion st) = Some (jsonEntry cur) ->
    entryClean cur = true -> fullyPersisted cur ->
    handleSaveCurrentQuestion st succeeds
    = mkSaveQuestionResult [AwaitAll] [(TInfo, lit "No changes to save")]
                           false st.
Proof.
  intros st succeeds cur entryId Hcur Hid Hvalid Horig Hclean Hpers.
  unfold handleSaveCurrentQuestion.
  rewrite Hcur, Hid, Hvalid, Horig. cbn [negb].
  rewrite (basicOperations_unchanged entryId cur Hclean Hpers).
  cbn [anyRejection map app length].
  unfold followUpOperations.
  destruct Hpers as (_ & _ & _ & _ & Hfus).
  rewrite (followUps_all_persisted _ entryId cur _ (choices cur) Hfus).
  reflexivity.
Qed.

Lemma X21_question_save_round_trip_witness :
  handleSaveCurrentQuestion loadedSample allSucceed
  = mkSaveQuestionResult [AwaitAll] [(TInfo, lit "No changes to save")]
                         false loadedSample.
Proof.
  apply (X21_question_save_round_trip loadedSample allSucceed
           filledQuestion (lit "e1")).
  - reflexivity.
  - reflexivity.
  - reflexivity.
  - reflexivity.
  - reflexivity.
  - repeat split.
    + repeat constructor.
    + repeat constructor; cbn; intuition discriminate.
    + constructor.
    + constructor.
    + repeat constructor; intros f Hf; vm_compute in Hf;
        injection Hf as <-; reflexivity.
Defined.

Lemma question_save_keeps_form (st : FormState) (succeeds : nat -> bool) :
  sections (sq_nextState (handleSaveCurrentQuestion st succeeds)) = sections st
  /\ selectedSection (sq_nextState (handleSaveCurrentQuestion st succeeds))
     = selectedSection st
  /\ selectedQuestion (sq_nextState (handleSaveCurrentQuestion st succeeds))
     = selectedQuestion st.
Proof.
  unfold handleSaveCurrentQuestion.
  destruct (entryAt (sections st) _ _) as [cur|]; [|repeat split].
  destruct (idOf (entry_id cur)) as [entryId|]; [|repeat split].
  repeat match goal with
         | |- context [if ?b then _ else _] => destruct b
         end; repeat split.
Qed.

Lemma unsaved_choice_dispatched (st : FormState) (succeeds : nat -> bool)
      (cur : SurveyEntryForm) (entryId : jsstring)
      (c : SurveyChoiceForm) (ci : nat) :
  entryAt (sections st) (selectedSection st) (selectedQuestion st) = Some cur ->
  idOf (entry_id cur) = Some entryId ->
  isValid (validateSurveyEntry cur) = true ->
  nth_error (choices cur) ci = Some c ->
  idOf (choice_id c) = None ->
  In (Dispatch (AddChoice entryId (choiceData c ci)))
     (events (handleSaveCurrentQuestion st succeeds)).
Proof.
  intros Hcur Hid Hvalid Hc Hnew.
  destruct (handleSaveCurrentQuestion_events st succeeds cur entryId
              Hcur Hid Hvalid) as (tail & -> & _).
  apply in_or_app. left.
  apply (in_map (fun p => Dispatch (fst p)) _
                (rejects (AddChoice entryId (choiceData c ci)))).
  unfold basicOperations.
  apply in_or_app. right. apply in_or_app. right. apply in_or_app. left.
  apply (in_concat_mapi _ _ ci c); [exact Hc|].
  unfold saveChoice. rewrite Hnew. now left.
Qed.

(** X22: a question save keeps the working tree and the selection as they
    are, also when every call succeeds; so a choice without a server id is
    sent with addChoice by the save, and sent again with the same payload
    by the save that follows it. *)
Theorem X22_unsaved_choice_added_by_every_save :
  forall (st : FormState) (succeeds succeeds' : nat -> bool)
         (cur : SurveyEntryForm) (entryId : jsstring)
         (c : SurveyChoiceForm) (ci : nat),
    entryAt (sections st) (selectedSection st) (selectedQuestion st) = Some cur ->
    idOf (entry_id cur) = Some entryId ->
    isValid (validateSurveyEntry cur) = true ->
    nth_error (choices cur) ci = Some c ->
    idOf (choice_id c) = None ->
    let first := handleSaveCurrentQuestion st succeeds in
    In (Dispatch (AddChoice entryId (choiceData c ci))) (events first)
    /\ sections (sq_nextState first) = sections st
    /\ In (Dispatch (AddChoice entryId (choiceData c ci)))
          (events (handleSaveCurrentQuestion (sq_nextState first) succeeds')).
Proof.
  intros st succeeds succeeds' cur entryId c ci Hcur Hid Hvalid Hc Hnew first.
  destruct (question_save_keeps_form st succeeds) as (Hsec & Hss & Hsq).
  fold first in Hsec, Hss, Hsq.
  split; [now apply (unsaved_choice_dispatched st succeeds cur)|].
  split; [exact Hsec|].
  apply (unsaved_choice_dispatched _ succeeds' cur); auto.
  now rewrite Hsec, Hss, Hsq.
Qed.

Lemma X22_unsaved_choice_added_by_every_save_witness :
  let first := handleSaveCurrentQuestion withUnsavedChoice allSucceed in
  In (Dispatch (AddChoice (lit "e1") (choiceData unsavedChoice 2)))
     (events first)
  /\ sections (sq_nextState first) = sections withUnsavedChoice
  /\ In (Dispatch (AddChoice (lit "e1") (choiceData unsavedChoice 2)))
        (events (handleSaveCurrentQuestion (sq_nextState first) allSucceed)).
Proof.
  apply (X22_unsaved_choice_added_by_every_save withUnsavedChoice
           allSucceed allSucceed
           (appendChoice unsavedChoice filledQuestion)
           (lit "e1") unsavedChoice 2); reflexivity.
Defined.

Lemma loadSurvey_skipped (st : FormState) (loaded : list SurveySectionForm)
      (focus : option FocusSection) (u0 u1 u2 : jsstring) :
  isEditMode st && negb (sectionsLoaded st) = false ->
  loadSurvey st loaded focus u0 u1 u2 = st.
Proof. intros H. unfold loadSurvey. now rewrite H. Qed.

Lemma loadSurvey_marks_loaded (st : FormState) (loaded : list SurveySectionForm)
      (focus : option FocusSection) (u0 u1 u2 : jsstring) :
  isEditMode st && negb (sectionsLoaded st) = true ->
  sectionsLoaded (loadSurvey st loaded focus u0 u1 u2) = true.
Proof.
  intros H. unfold loadSurvey. rewrite H.
  match goal with
  | |- context [match ?m with pair _ _ => _ end] =>
    destruct m as [[[fin sel] selq] mode]
  end.
  reflexivity.
Qed.

(** X24: the load effect runs once: whatever a later response holds and
    whatever focus is asked for, running the effect on a state it has
    already produced changes nothing. *)
Theorem X24_survey_loaded_once :
  forall (st : FormState) (loaded later : list SurveySectionForm)
         (focus focus' : option FocusSection) (u0 u1 u2 v0 v1 v2 : jsstring),
    loadSurvey (loadSurvey st loaded focus u0 u1 u2) later focus' v0 v1 v2
    = loadSurvey st loaded focus u0 u1 u2.
Proof.
  intros st loaded later focus focus' u0 u1 u2 v0 v1 v2.
  apply loadSurvey_skipped.
  destruct (isEditMode st && negb (sectionsLoaded st)) eqn:Hcond.
  - rewrite (loadSurvey_marks_loaded st loaded focus u0 u1 u2 Hcond).
    apply andb_false_r.
  - now rewrite (loadSurvey_skipped st loaded focus u0 u1 u2 Hcond).
Qed.

Lemma removeAt_shorter {A} (l : list A) :
  forall i, length l <= S (length (removeAt i l)).
Proof.
  induction l as [|a l IH]; intros i; [destruct i; cbn; lia|].
  destruct i as [|i]; cbn [removeAt length]; [lia|].
  specialize (IH i). lia.
Qed.

(** X7: the editor never takes a question below two choices or two grid
    rows.  [handleRemoveChoiceClick] removes nothing from a question with
    at most two choices, and otherwise either asks for confirmation (in
    edit mode, for a choice with a server id of a question with an entry
    id) or drops at most one choice, leaving two or more and the grid rows
    untouched; [removeRow] leaves a question with two or more rows with
    two or more. *)
Theorem X7_editor_keeps_two :
  forall (editing : bool) (surveyEntryId : option jsstring)
         (q : SurveyEntryForm) (index : nat),
    match handleRemoveChoiceClick editing surveyEntryId q index with
    | ChoiceKept => length (choices q) <= 2
    | ConfirmDialog i _ _ =>
      i = index /\ 2 < length (choices q)
      /\ editing = true /\ truthyStr surveyEntryId = true
      /\ persistedChoiceAt q index = true
    | ChoiceRemoved q' =>
      2 <= length (choices q')
      /\ length (choices q) <= S (length (choices q'))
      /\ gridRows q' = gridRows q
      /\ editing && truthyStr surveyEntryId && persistedChoiceAt q index = false
    end
    /\ Nat.min 2 (length (gridRows q)) <= length (gridRows (removeRow q index))
    /\ choices (removeRow q index) = choices q.
Proof.
  intros editing sid q index. split.
  - unfold handleRemoveChoiceClick, persistedChoiceAt.
    destruct (length (choices q) <=? 2) eqn:Hlen.
    + now apply Nat.leb_le.
    + apply Nat.leb_gt in Hlen.
      destruct (editing && truthyStr sid && _) eqn:Hcond.
      * apply andb_true_iff in Hcond. destruct Hcond as [Hcond Hp].
        apply andb_true_iff in Hcond. destruct Hcond as [He Hs].
        repeat split; auto.
      * cbn [choices gridRows withChoices].
        pose proof (removeAt_shorter (choices q) index).
        repeat split; auto; lia.
  - unfold removeRow.
    destruct (2 <? length (gridRows q)) eqn:Hlen.
    + apply Nat.ltb_lt in Hlen. cbn [gridRows choices withGridRows].
      pose proof (removeAt_shorter (gridRows q) index).
      split; [lia|reflexivity].
    + split; [lia|reflexivity].
Qed.

Lemma firstn_removeAt {A} (l : list A) :
  forall n i, n <= i -> firstn n (removeAt i l) = firstn n l.
Proof.
  induction l as [|a l IH]; intros n i Hle; [now destruct i, n|].
  destruct n as [|n]; [reflexivity|].
  destruct i as [|i]; [lia|].
  cbn [removeAt firstn]. f_equal. apply IH. lia.
Qed.

(** X23: in edit mode the delete handlers never drop a section or a
    question that was there when the survey was loaded from the working
    tree: [handleDeleteSection] leaves the first originalSectionsCount
    sections as they are, and hands an id to onDeleteSection only for a
    section among them (changing nothing itself); when
    [handleDeleteQuestion] removes a question locally, each loaded section
    keeps its title, its id and its first originalQuestionCounts
    questions. *)
Theorem X23_loaded_nodes_not_removed_locally :
  forall (st : FormState) (hasHandler : bool) (sectionIndex questionIndex : nat),
    isEditMode st = true ->
    firstn (originalSectionsCount st)
           (sections (fst (handleDeleteSection st hasHandler sectionIndex)))
    = firstn (originalSectionsCount st) (sections st)
    /\ (forall id,
           snd (handleDeleteSection st hasHandler sectionIndex) = Some id ->
           sectionIndex < originalSectionsCount st
           /\ fst (handleDeleteSection st hasHandler sectionIndex) = st
           /\ exists s, nth_error (sections st) sectionIndex = Some s
                        /\ section_id s = Some id)
    /\ (forall st',
           handleDeleteQuestion st hasHandler sectionIndex questionIndex
           = DeletedLocally st' ->
           forall k s,
             k < originalSectionsCount st ->
             nth_error (sections st) k = Some s ->
             exists s',
               nth_error (sections st') k = Some s'
               /\ title s' = title s /\ section_id s' = section_id s
               /\ firstn (nth k (originalQuestionCounts st) 0) (entries s')
                  = firstn (nth k (originalQuestionCounts st) 0) (entries s)).
Proof.
  intros st h si qi Hedit. split; [|split].
  - unfold handleDeleteSection. rewrite Hedit. cbn [andb].
    destruct (si <? originalSectionsCount st) eqn:Hlt.
    + destruct (nth_error (sections st) si) as [s|]; [|reflexivity].
      destruct (idOf (section_id s)); [|reflexivity].
      now destruct h.
    + apply Nat.ltb_ge in Hlt. unfold removeSection. cbn [fst].
      destruct (_ && _); cbn [sections withSelection withSections];
        now apply firstn_removeAt.
  - intros id. unfold handleDeleteSection. rewrite Hedit. cbn [andb].
    destruct (si <? originalSectionsCount st) eqn:Hlt; [|discriminate].
    apply Nat.ltb_lt in Hlt.
    destruct (nth_error (sections st) si) as [s|]; [|discriminate].
    destruct (idOf (section_id s)) as [x|] eqn:Hid; [|discriminate].
    destruct h; [|discriminate].
    cbn [fst snd]. intros Hx. injection Hx as ->.
    repeat split; auto. exists s. split; [reflexivity|].
    unfold idOf in Hid. destruct (section_id s) as [[|y r]|]; try discriminate.
    exact Hid.
  - intros st'. unfold handleDeleteQuestion. rewrite Hedit. cbn [andb].
    destruct (_ && _) eqn:Hcond.
    { destruct (entryAt _ _ _) as [e|]; [|discriminate].
      destruct (idOf (entry_id e)); [|discriminate].
      destruct h; discriminate. }
    intros Hst' k s Hk Hs. injection Hst' as <-.
    destruct (selectAfterRemoval_sections st (removeQuestion st si qi) si qi)
      as (-> & _).
    unfold removeQuestion. cbn [sections withSections]. unfold mapi.
    rewrite (nth_error_mapi_from _ _ 0 k s Hs). cbn [Nat.add].
    eexists. split; [reflexivity|].
    destruct (k =? si) eqn:Hksi; [|repeat split].
    apply Nat.eqb_eq in Hksi. subst k.
    cbn [title section_id entries withEntries]. repeat split.
    apply firstn_removeAt.
    apply andb_false_iff in Hcond. destruct Hcond as [Hcond|Hcond].
    + apply Nat.ltb_ge in Hcond. lia.
    + now apply Nat.ltb_ge in Hcond.
Qed.

Lemma X23_loaded_nodes_not_removed_locally_witness :
  firstn 1 (sections (fst (handleDeleteSection loadedWithNewSection true 1)))
  = firstn 1 (sections loadedWithNewSection).
Proof.
  exact (proj1 (X23_loaded_nodes_not_removed_locally loadedWithNewSection
                  true 1 0 eq_refl)).
Defined.

(** X25: in the tree [transformResponseToForm] builds, every follow-up
    embedded in a choice is flagged as a follow-up and refers to the
    entry and the choice that hold it by their client ids, the references
    [flattenEntriesForPayload] writes for it. *)
Theorem X25_transform_links_follow_ups :
  forall (resp : SurveyDetailResponse) (t : SurveyEntryForm),
    In t (topLevelEntries (transformResponseToForm resp)) -> wellLinked t.
Proof.
  intros resp t Ht.
  apply topLevel_in_transform in Ht.
  destruct Ht as (sec & e & _ & _ & _ & ->).
  intros c f Hc Hf. cbn [entryToForm choices] in Hc.
  apply in_map_iff in Hc. destruct Hc as [rc [<- _]].
  cbn [choiceToForm followUpQuestion] in Hf.
  destruct (filter _ _) as [|fu rest]; [discriminate|].
  injection Hf as <-. repeat split.
Qed.

Lemma X25_transform_links_follow_ups_witness : wellLinked filledQuestion.
Proof.
  apply (X25_transform_links_follow_ups sampleResponse filledQuestion).
  left. reflexivity.
Defined.

Lemma nth_error_mapi_other {A} (f : A -> nat -> A) (l : list A) (k : nat) :
  (forall x, f x k = x) -> nth_error (mapi f l) k = nth_error l k.
Proof.
  intros Hf. unfold mapi.
  destruct (nth_error l k) as [x|] eqn:Hk.
  - rewrite (nth_error_mapi_from f l 0 k x Hk). cbn [Nat.add]. now rewrite Hf.
  - apply nth_error_None. rewrite mapi_from_length.
    now apply nth_error_None.
Qed.

Lemma toggled_links (uuid : jsstring) (q : SurveyEntryForm) (choiceIndex : nat)
      (on : bool) (c : SurveyChoiceForm) :
  wellLinked q ->
  nth_error (choices q) choiceIndex = Some c ->
  wellLinked
    (withChoices q
       (mapi (fun x i => if i =? choiceIndex then updatedChoice uuid q c on
                         else x)
             (choices q))).
Proof.
  intros Hwl Hnth x f Hx Hf. cbn [choices withChoices] in Hx.
  apply in_mapi_from_inv in Hx. destruct Hx as (y & k & Hy & ->).
  cbn [entry_clientId withChoices].
  destruct (k =? choiceIndex); [|now apply Hwl].
  unfold updatedChoice in Hf |- *.
  cbn [followUpQuestion choice_clientId] in Hf |- *.
  destruct on; [|discriminate].
  destruct (followUpQuestion c) as [g|] eqn:Hg.
  - injection Hf as <-. apply (Hwl c g); [|exact Hg].
    now apply nth_error_In with choiceIndex.
  - injection Hf as <-. repeat split.
Qed.

(** X26: [toggleChoiceFollowUp] keeps a question well linked.  Switching
    off, in edit mode, a flagged follow-up that has a server id opens the
    unlink dialog for that follow-up and changes nothing.  In every other
    case the choice at the index, and no other, is replaced: it keeps its
    clientId, text and id and gets the flag asked for; switched on, it
    keeps the follow-up it holds, or gets the empty follow-up of
    [createEmptyFollowUp] that refers to the question and the choice;
    switched off, it holds no follow-up. *)
Theorem X26_toggle_keeps_links :
  forall (editing : bool) (uuid : jsstring) (q : SurveyEntryForm)
         (choiceIndex : nat) (on : bool) (c : SurveyChoiceForm),
    wellLinked q ->
    nth_error (choices q) choiceIndex = Some c ->
    match toggleChoiceFollowUp editing uuid q choiceIndex on with
    | None => False
    | Some (UnlinkDialog i followUpEntryId _) =>
      i = choiceIndex /\ on = false /\ editing = true
      /\ orFalse (hasFollowUp c) = true
      /\ exists f, followUpQuestion c = Some f
                   /\ idOf (entry_id f) = Some followUpEntryId
    | Some (FollowUpToggled q') =>
      wellLinked q'
      /\ negb on && orFalse (hasFollowUp c) && truthyStr (followUpIdOf c)
         && editing = false
      /\ length (choices q') = length (choices q)
      /\ (forall k, k <> choiceIndex ->
                    nth_error (choices q') k = nth_error (choices q) k)
      /\ exists c',
           nth_error (choices q') choiceIndex = Some c'
           /\ hasFollowUp c' = Some on
           /\ choice_clientId c' = choice_clientId c
           /\ choiceText c' = choiceText c
           /\ choice_id c' = choice_id c
           /\ (on = true -> forall f, followUpQuestion c = Some f ->
                                      followUpQuestion c' = Some f)
           /\ (on = true -> followUpQuestion c = None ->
               followUpQuestion c'
               = Some (createEmptyFollowUp uuid (entry_clientId q)
                         (choice_clientId c) None))
           /\ (on = false -> followUpQuestion c' = None)
    end.
Proof.
  intros editing uuid q ci on c Hwl Hnth.
  assert (Htoggled :
            forall q',
              q' = withChoices q
                     (mapi (fun x i => if i =? ci then updatedChoice uuid q c on
                                       else x) (choices q)) ->
              wellLinked q'
              /\ length (choices q') = length (choices q)
              /\ (forall k, k <> ci ->
                            nth_error (choices q') k = nth_error (choices q) k)
              /\ exists c',
                   nth_error (choices q') ci = Some c'
                   /\ hasFollowUp c' = Some on
                   /\ choice_clientId c' = choice_clientId c
                   /\ choiceText c' = choiceText c
                   /\ choice_id c' = choice_id c
                   /\ (on = true -> forall f, followUpQuestion c = Some f ->
                                              followUpQuestion c' = Some f)
                   /\ (on = true -> followUpQuestion c = None ->
                       followUpQuestion c'
                       = Some (createEmptyFollowUp uuid (entry_clientId q)
                                 (choice_clientId c) None))
                   /\ (on = false -> followUpQuestion c' = None)).
  { intros q' ->. split; [now apply toggled_links|].
    cbn [choices withChoices]. split; [apply mapi_from_length|]. split.
    - intros k Hk. apply nth_error_mapi_other. intros x.
      apply Nat.eqb_neq in Hk. now rewrite Hk.
    - exists (updatedChoice uuid q c on). unfold mapi.
      rewrite (nth_error_mapi_from _ _ 0 ci c Hnth).
      cbn [Nat.add]. rewrite Nat.eqb_refl. split; [reflexivity|].
      unfold updatedChoice.
      cbn [hasFollowUp choice_clientId choiceText choice_id followUpQuestion].
      repeat split.
      + intros -> f ->. reflexivity.
      + intros -> ->. reflexivity.
      + intros ->. reflexivity. }
  unfold toggleChoiceFollowUp. rewrite Hnth.
  destruct (followUpIdOf c) as [id|] eqn:Hfid.
  - destruct (negb on && orFalse (hasFollowUp c) && editing) eqn:Hguard.
    + apply andb_true_iff in Hguard. destruct Hguard as [Hguard Hedit].
      apply andb_true_iff in Hguard. destruct Hguard as [Hon Hflag].
      apply negb_true_iff in Hon.
      repeat split; auto.
      unfold followUpIdOf in Hfid.
      destruct (followUpQuestion c) as [f|]; [|discriminate].
      now exists f.
    + destruct (Htoggled _ eq_refl) as (H1 & H2 & H3 & H4).
      split; [exact H1|]. split; [|auto].
      destruct (negb on), (orFalse (hasFollowUp c)), editing;
        cbn in Hguard |- *; try discriminate;
        rewrite ?andb_false_r; reflexivity.
  - destruct (Htoggled _ eq_refl) as (H1 & H2 & H3 & H4).
    split; [exact H1|]. split; [|auto].
    cbn [truthyStr]. now rewrite andb_false_r.
Qed.

Lemma X26_toggle_keeps_links_witness :
  match toggleChoiceFollowUp true (lit "u-f") filledQuestion 1 false with
  | Some (UnlinkDialog i followUpEntryId _) =>
    i = 1 /\ exists f, activeFollowUp
                         (choiceToForm (followUpsOfSection sectionS1)
                                       (lit "e1") choiceC2) = Some f
                       /\ idOf (entry_id f) = Some followUpEntryId
  | _ => False
  end.
Proof.
  pose proof (X26_toggle_keeps_links true (lit "u-f") filledQuestion 1 false
                (choiceToForm (followUpsOfSection sectionS1) (lit "e1")
                              choiceC2)) as H.
  assert (Hwl : wellLinked filledQuestion).
  { intros c f Hc Hf.
    destruct Hc as [<-|[<-|[]]]; vm_compute in Hf;
      injection Hf as <-; repeat split. }
  specialize (H Hwl eq_refl).
  destruct (toggleChoiceFollowUp true (lit "u-f") filledQuestion 1 false)
    as [[i id text|q']|]; [|vm_compute in H; intuition discriminate|exact H].
  destruct H as (Hi & _ & _ & Hflag & f & Hf & Hid).
  split; [exact Hi|]. exists f. split; [|exact Hid].
  unfold activeFollowUp. now rewrite Hflag.
Defined.

Lemma hook_eqb_eq (a b : MutateHook) : hook_eqb a b = true <-> a = b.
Proof. destruct a, b; cbn; split; intros H; try reflexivity; discriminate. Qed.

Lemma superseded_iff (c : ApiCall) (later : list ApiCall) :
  superseded c later = true <->
  exists j d h, nth_error later j = Some d
                /\ mutateHook c = Some h /\ mutateHook d = Some h.
Proof.
  unfold superseded. split.
  - destruct (mutateHook c) as [h|]; [|discriminate].
    intros H. apply existsb_exists in H. destruct H as (d & Hd & Heq).
    apply In_nth_error in Hd. destruct Hd as [j Hj].
    destruct (mutateHook d) as [h'|] eqn:Hh'; [|discriminate].
    apply hook_eqb_eq in Heq. subst h'. now exists j, d, h.
  - intros (j & d & h & Hj & -> & Hd).
    apply existsb_exists. exists d. split; [now apply nth_error_In with j|].
    rewrite Hd. now apply hook_eqb_eq.
Qed.

Lemma allResolve_false_iff (dispatched : list ApiCall) :
  allResolve dispatched = false <-> hookCalledTwice dispatched.
Proof.
  induction dispatched as [|c later IH]; cbn [allResolve].
  - split; [discriminate|].
    intros (i & j & x & d & h & _ & Hi & _). now destruct i.
  - rewrite andb_false_iff, negb_false_iff, IH, superseded_iff. split.
    + intros [(j & d & h & Hj & Hc & Hd)|(i & j & x & d & h & Hlt & Hi & Hj & Hx & Hd)].
      * exists 0, (S j), c, d, h. repeat split; auto. lia.
      * exists (S i), (S j), x, d, h. repeat split; auto. lia.
    + intros (i & j & x & d & h & Hlt & Hi & Hj & Hx & Hd).
      destruct j as [|j]; [lia|]. cbn [nth_error] in Hj.
      destruct i as [|i].
      * cbn [nth_error] in Hi. injection Hi as <-. left. now exists j, d, h.
      * cbn [nth_error] in Hi. right. exists i, j, x, d, h.
        repeat split; auto. lia.
Qed.

(** X27: an edit-mode save that passes the gate raises no toast of its
    own exactly when two of its calls go through the same [mutate] hook
    (the section, entry, choice or grid row update); it has then
    dispatched every planned call, asks for no refresh and leaves the
    state, snapshot included, as it was, whatever the outcome of the
    calls. *)
Theorem X27_hook_called_twice_never_reports :
  forall (st : FormState) (succeeds : nat -> bool),
    isEditMode st = true -> validateForm st = None ->
    (toasts (handleSubmit st succeeds) = []
     <-> hookCalledTwice (calls (handleSubmit st succeeds)))
    /\ (hookCalledTwice (calls (handleSubmit st succeeds)) ->
        handleSubmit st succeeds
        = mkSubmitResult (map fst (planEdit st)) [] false st).
Proof.
  intros st succeeds Hedit Hvalid.
  rewrite (handleSubmit_calls_planned st succeeds Hedit Hvalid).
  rewrite <- allResolve_false_iff. split.
  - split.
    + unfold handleSubmit. rewrite Hvalid, Hedit. cbn [negb].
      destruct (tally 0 succeeds (planEdit st)) as [s f].
      destruct (allResolve (map fst (planEdit st))); [|reflexivity].
      cbn [negb].
      destruct (totalChanges (planEdit st) =? 0); [discriminate|].
      destruct (f =? 0); [discriminate|].
      destruct (0 <? s); discriminate.
    + intros Hhang.
      now rewrite (handleSubmit_never_resumes st succeeds Hedit Hvalid Hhang).
  - now apply handleSubmit_never_resumes.
Qed.

Lemma X27_hook_called_twice_never_reports_witness :
  handleSubmit twoChoiceEdits allSucceed
  = mkSubmitResult (map fst (planEdit twoChoiceEdits)) [] false twoChoiceEdits.
Proof.
  refine (proj2 (X27_hook_called_twice_never_reports twoChoiceEdits allSucceed
                   _ _) _).
  - reflexivity.
  - vm_compute. reflexivity.
  - exists 0, 1. vm_compute. eexists. eexists. exists UpdateChoiceHook.
    repeat split. lia.
Defined.
